(** * AQI monitoring system: forecasting pipeline and device firmware

    Shallow embedding of
      - [src/app.py]          ([show_future]: series conditioning, feature
                               construction and anchored six-step forecast;
                               [get_combined_data]; [show_live_monitor] up
                               to the pointer of the colour bar; the column
                               order of [show_history]), and
      - [src/devices/main.py] (sensor conversion helpers, [connect_wifi]
                               and the main loop with its hourly
                               accumulator).

    Numbers.  Python [int] is [Z].  In the modules [Firmware] and [App] a
    Python [float] is an exact rational [Q]: every arithmetic operation is
    the real-number operation and values are compared with [==]; these
    modules describe the code on finite numbers, read exactly.  Two modules
    lift this reading where a statement depends on it:
      - [Hourly] runs the main loop of the firmware over the float
        operations of the interpreter, given as a record [FloatOps];
        [ieee] instantiates the record with binary floating point of a
        chosen precision;
      - [Page] runs [show_future] and [show_live_monitor] on what the
        collaborators really hand over: regressors that may answer NaN or
        an infinity, an artifact that may lack a regressor or whose
        [predict] raises, records without an [aqi] key, timestamps that do
        not parse.  On well-formed inputs [Page.show_future] is
        [App.show_future] (lemma [show_future_refines]).

    Time.  A pandas [Timestamp] is a count of nanoseconds on the
    Asia/Kolkata wall clock (the zone every timestamp is converted to before
    use), counted from 1970-01-01 00:00.  The model stands for the instants
    of [App.in_calendar]: there the zone is at UTC+05:30, a multiple of ten
    minutes, so ten-minute bins and time differences are the same on both
    clocks, and pandas can represent every instant the code computes. *)

From Stdlib Require Import ZArith QArith Qabs Qround List Sorted Permutation String Ascii Bool Lia Lqa.
Import ListNotations.

Open Scope Z_scope.

(* ================================================================= *)
(** ** Python numeric builtins *)

(** [round(x)] on a float: nearest integer, ties to the even neighbour. *)
Definition py_round (x : Q) : Z :=
  let f := Qfloor x in
  match Qcompare (x - inject_Z f) (1 # 2) with
  | Lt => f
  | Gt => f + 1
  | Eq => if Z.even f then f else f + 1
  end.

(** [round(x, ndigits)]: nearest multiple of [10^-ndigits], ties to even. *)
Definition py_round_n (x : Q) (ndigits : Z) : Q :=
  let scale := inject_Z (10 ^ ndigits) in
  (inject_Z (py_round (x * scale)) / scale)%Q.

(** [int(x)] on a float: truncation toward zero. *)
Definition py_int (x : Q) : Z := Z.quot (Qnum x) (Z.pos (Qden x)).

(** Sums of a column, accumulated left to right from 0. *)
Definition Zsum (l : list Z) : Z := fold_left Z.add l 0.
Definition Qsum (l : list Q) : Q := fold_left Qplus l 0%Q.

(* ================================================================= *)
(** ** Device firmware ([src/devices/main.py]) *)

Module Firmware.

Local Open Scope Q_scope.

(** [mq135_to_pm25(raw)] *)
Definition mq135_to_pm25 (raw : Z) : Q :=
  ((inject_Z raw - 0) / (4095 - 0)) * 200.

(** [calculate_aqi_pm25(pm25)] *)
Definition calculate_aqi_pm25 (pm25 : Q) : Z :=
  if Qle_bool pm25 12 then py_round ((50 / 12) * pm25)
  else if Qle_bool pm25 (354 # 10) then
    py_round (((49 / (233 # 10)) * (pm25 - (121 # 10))) + 51)
  else if Qle_bool pm25 (554 # 10) then
    py_round (((49 / (199 # 10)) * (pm25 - (355 # 10))) + 101)
  else 150%Z.

(** *** Main loop: accumulation and hourly history *)

(** The module-level variables the loop updates. *)
Record Accumulator := {
  sum_mq135 : Z;
  sum_temp : Q;
  sum_hum : Q;
  sum_aqi : Z;
  sample_count : Z;
  last_hourly_upload : Z
}.

Definition HOUR_INTERVAL : Z := 3600.

(** State after the "Variables" block; [now] is the value of [time()]. *)
Definition startup (now : Z) : Accumulator :=
  {| sum_mq135 := 0; sum_temp := 0; sum_hum := 0; sum_aqi := 0;
     sample_count := 0; last_hourly_upload := now |}.

(** The JSON body of an upload. *)
Record Payload := { mq135 : Z; temperature : Q; humidity : Q; aqi : Z }.

(** What one pass through the loop body observes: the DHT22 reading
    ([None] when [measure()] raised [OSError]), the ADC reading, the clock
    at "4. HOURLY CHECK" and the clock read again in the reset block. *)
Record Pass := {
  dht : option (Q * Q);
  raw_air : Z;
  current_time : Z;
  reset_time : Z
}.

(** A pass either runs to the end of the body, or an exception raised
    before "2. ACCUMULATE" (WiFi reconnect, ADC read) sends it to the
    outer [except Exception] handler with the variables untouched. *)
Inductive Iteration :=
| Completed (p : Pass)
| Aborted.

Inductive Event :=
| Realtime (body : Payload)
| History (body : Payload).

Definition temp_hum (p : Pass) : Q * Q :=
  match dht p with
  | Some th => th
  | None => (0, 0)
  end.

(** "2. ACCUMULATE" *)
Definition accumulate (st : Accumulator) (p : Pass) : Accumulator :=
  {| sum_mq135 := (sum_mq135 st + raw_air p)%Z;
     sum_temp := sum_temp st + fst (temp_hum p);
     sum_hum := sum_hum st + snd (temp_hum p);
     sum_aqi := (sum_aqi st + calculate_aqi_pm25 (mq135_to_pm25 (raw_air p)))%Z;
     sample_count := (sample_count st + 1)%Z;
     last_hourly_upload := last_hourly_upload st |}.

(** "3. PUSH LIVE" *)
Definition payload_realtime (p : Pass) : Payload :=
  {| mq135 := raw_air p;
     temperature := py_round_n (fst (temp_hum p)) 1;
     humidity := py_round_n (snd (temp_hum p)) 1;
     aqi := calculate_aqi_pm25 (mq135_to_pm25 (raw_air p)) |}.

Definition payload_history (st : Accumulator) : Payload :=
  {| mq135 := py_int (inject_Z (sum_mq135 st) / inject_Z (sample_count st));
     temperature := py_round_n (sum_temp st / inject_Z (sample_count st)) 2;
     humidity := py_round_n (sum_hum st / inject_Z (sample_count st)) 2;
     aqi := py_int (inject_Z (sum_aqi st) / inject_Z (sample_count st)) |}.

(** One pass of the body of [while True].  The events are the bodies
    handed to [urequests.post], whatever the server answers. *)
Definition loop_pass (st : Accumulator) (p : Pass) : Accumulator * list Event :=
  let st := accumulate st p in
  let live := Realtime (payload_realtime p) in
  if (HOUR_INTERVAL <=? current_time p - last_hourly_upload st)%Z then
    let hist := if (0 <? sample_count st)%Z then [History (payload_history st)]
                else [] in
    (startup (reset_time p), live :: hist)
  else (st, [live]).

Definition iterate (st : Accumulator) (it : Iteration) : Accumulator * list Event :=
  match it with
  | Completed p => loop_pass st p
  | Aborted => (st, [])
  end.

Fixpoint run (st : Accumulator) (its : list Iteration) : Accumulator * list Event :=
  match its with
  | [] => (st, [])
  | it :: rest =>
      let (st1, ev1) := iterate st it in
      let (st2, ev2) := run st1 rest in
      (st2, ev1 ++ ev2)
  end.

(** *** Vocabulary for statements about the hourly records *)

(** The four quantities one completed pass adds to the sums. *)
Record Sample := { s_mq135 : Z; s_temp : Q; s_hum : Q; s_aqi : Z }.

Definition sample_of (p : Pass) : Sample :=
  {| s_mq135 := raw_air p;
     s_temp := fst (temp_hum p);
     s_hum := snd (temp_hum p);
     s_aqi := calculate_aqi_pm25 (mq135_to_pm25 (raw_air p)) |}.

Definition samples (its : list Iteration) : list Sample :=
  flat_map (fun it => match it with
                      | Completed p => [sample_of p]
                      | Aborted => []
                      end) its.

Definition count (seg : list Sample) : Q := inject_Z (Z.of_nat (List.length seg)).

(** Arithmetic means of a group of samples in the format of a history
    record: truncated to an integer for [mq135] and [aqi], rounded to two
    decimals for [temperature] and [humidity]. *)
Definition means (seg : list Sample) : Payload :=
  {| mq135 := py_int (inject_Z (Zsum (map s_mq135 seg)) / count seg);
     temperature := py_round_n (Qsum (map s_temp seg) / count seg) 2;
     humidity := py_round_n (Qsum (map s_hum seg) / count seg) 2;
     aqi := py_int (inject_Z (Zsum (map s_aqi seg)) / count seg) |}.

(** The sums held in the variables are those of the samples in [pending]. *)
Definition tracks (st : Accumulator) (pending : list Sample) : Prop :=
  sum_mq135 st = Zsum (map s_mq135 pending) /\
  sum_temp st = Qsum (map s_temp pending) /\
  sum_hum st = Qsum (map s_hum pending) /\
  sum_aqi st = Zsum (map s_aqi pending) /\
  sample_count st = Z.of_nat (List.length pending).

Definition history_records (evs : list Event) : list Payload :=
  flat_map (fun e => match e with
                     | History body => [body]
                     | Realtime _ => []
                     end) evs.

(** *** More vocabulary for runs of the loop *)

Definition realtime_records (evs : list Event) : list Payload :=
  flat_map (fun e => match e with
                     | Realtime body => [body]
                     | History _ => []
                     end) evs.

(** The passes of a run that reached the end of the body. *)
Definition completed (its : list Iteration) : list Pass :=
  flat_map (fun it => match it with
                      | Completed p => [p]
                      | Aborted => []
                      end) its.

(** The values [time()] returns never decrease along the run, starting
    from [t]: each pass reads the clock at the hourly check and again in
    the reset block. *)
Fixpoint clock_from (t : Z) (its : list Iteration) : Prop :=
  match its with
  | [] => True
  | Aborted :: rest => clock_from t rest
  | Completed p :: rest =>
      (t <= current_time p)%Z /\ (current_time p <= reset_time p)%Z /\
      clock_from (reset_time p) rest
  end.

(** *** WiFi connection *)

(** The [while not wlan.isconnected() and timeout > 0] loop.  [answers n]
    is what the [n]-th call of [wlan.isconnected()] returns; [call] counts
    the calls made so far and [slept] the seconds slept.  The result is
    the two counters when the loop is left. *)
Fixpoint wait_for_link (answers : nat -> bool) (timeout call slept : nat)
  : nat * nat :=
  if answers call then (S call, slept)
  else match timeout with
       | O => (S call, slept)
       | S timeout' => wait_for_link answers timeout' (S call) (S slept)
       end.

(** [connect_wifi()]: the flag returned, the seconds slept and the number
    of calls of [wlan.isconnected()]. *)
Definition connect_wifi (answers : nat -> bool) : bool * nat * nat :=
  let slept := 1%nat in
  let '(call, slept) :=
    if answers 0%nat then (1%nat, slept)
    else wait_for_link answers 20 1 slept in
  (answers call, slept, S call).

End Firmware.

(* ================================================================= *)
(** ** The main loop over the interpreter's float arithmetic *)

Module Hourly.

(** The float operations the loop body uses.  [of_int] is the conversion
    Python applies when an [int] meets a float, [round_to x n] is
    [round(x, n)] and [to_int] is [int(x)].  Nothing is assumed of them:
    float addition is not associative and a quotient is rounded. *)
Record FloatOps := {
  F : Type;
  of_int : Z -> F;
  add : F -> F -> F;
  div : F -> F -> F;
  round_to : F -> Z -> F;
  to_int : F -> Z
}.

Section Loop.

Variable ops : FloatOps.

(** The module-level variables; [sum_temp] and [sum_hum] start as the
    [int] 0 and hold floats from the first reading on. *)
Record Accumulator := {
  sum_mq135 : Z;
  sum_temp : F ops;
  sum_hum : F ops;
  sum_aqi : Z;
  sample_count : Z;
  last_hourly_upload : Z
}.

Definition startup (now : Z) : Accumulator :=
  {| sum_mq135 := 0; sum_temp := of_int ops 0; sum_hum := of_int ops 0;
     sum_aqi := 0; sample_count := 0; last_hourly_upload := now |}.

Record Payload := { mq135 : Z; temperature : F ops; humidity : F ops; aqi : Z }.

(** What one pass observes, as in [Firmware.Pass]. *)
Record Pass := {
  dht : option (F ops * F ops);
  raw_air : Z;
  current_time : Z;
  reset_time : Z
}.

Inductive Iteration :=
| Completed (p : Pass)
| Aborted.

Inductive Event :=
| Realtime (body : Payload)
| History (body : Payload).

(** [temp, hum = 0, 0] when [measure()] raised [OSError]. *)
Definition temp_hum (p : Pass) : F ops * F ops :=
  match dht p with
  | Some th => th
  | None => (of_int ops 0, of_int ops 0)
  end.

(** "2. ACCUMULATE" *)
Definition accumulate (st : Accumulator) (p : Pass) : Accumulator :=
  {| sum_mq135 := sum_mq135 st + raw_air p;
     sum_temp := add ops (sum_temp st) (fst (temp_hum p));
     sum_hum := add ops (sum_hum st) (snd (temp_hum p));
     sum_aqi := sum_aqi st
                + Firmware.calculate_aqi_pm25 (Firmware.mq135_to_pm25 (raw_air p));
     sample_count := sample_count st + 1;
     last_hourly_upload := last_hourly_upload st |}.

(** "3. PUSH LIVE" *)
Definition payload_realtime (p : Pass) : Payload :=
  {| mq135 := raw_air p;
     temperature := round_to ops (fst (temp_hum p)) 1;
     humidity := round_to ops (snd (temp_hum p)) 1;
     aqi := Firmware.calculate_aqi_pm25 (Firmware.mq135_to_pm25 (raw_air p)) |}.

(** Lines 145-150: every quotient is a float division. *)
Definition payload_history (st : Accumulator) : Payload :=
  let count := of_int ops (sample_count st) in
  {| mq135 := to_int ops (div ops (of_int ops (sum_mq135 st)) count);
     temperature := round_to ops (div ops (sum_temp st) count) 2;
     humidity := round_to ops (div ops (sum_hum st) count) 2;
     aqi := to_int ops (div ops (of_int ops (sum_aqi st)) count) |}.

(** One pass of the body of [while True]. *)
Definition loop_pass (st : Accumulator) (p : Pass) : Accumulator * list Event :=
  let st := accumulate st p in
  let live := Realtime (payload_realtime p) in
  if Firmware.HOUR_INTERVAL <=? current_time p - last_hourly_upload st then
    let hist := if 0 <? sample_count st then [History (payload_history st)]
                else [] in
    (startup (reset_time p), live :: hist)
  else (st, [live]).

Definition iterate (st : Accumulator) (it : Iteration) : Accumulator * list Event :=
  match it with
  | Completed p => loop_pass st p
  | Aborted => (st, [])
  end.

Fixpoint run (st : Accumulator) (its : list Iteration) : Accumulator * list Event :=
  match its with
  | [] => (st, [])
  | it :: rest =>
      let (st1, ev1) := iterate st it in
      let (st2, ev2) := run st1 rest in
      (st2, ev1 ++ ev2)
  end.

(** *** Vocabulary for statements about the hourly records *)

(** The four quantities one completed pass adds to the sums. *)
Record Sample := { s_mq135 : Z; s_temp : F ops; s_hum : F ops; s_aqi : Z }.

Definition sample_of (p : Pass) : Sample :=
  {| s_mq135 := raw_air p;
     s_temp := fst (temp_hum p);
     s_hum := snd (temp_hum p);
     s_aqi := Firmware.calculate_aqi_pm25 (Firmware.mq135_to_pm25 (raw_air p)) |}.

Definition samples (its : list Iteration) : list Sample :=
  flat_map (fun it => match it with
                      | Completed p => [sample_of p]
                      | Aborted => []
                      end) its.

(** A float column summed as the loop does it: from the [int] 0, one
    addition per sample, in the order of arrival. *)
Definition float_sum (l : list (F ops)) : F ops := fold_left (add ops) l (of_int ops 0).

(** Means of a group of samples as the interpreter computes them: the sum
    in order of arrival, one division by the number of samples, then
    [int(...)] for [mq135] and [aqi] and [round(..., 2)] for [temperature]
    and [humidity]. *)
Definition means (seg : list Sample) : Payload :=
  let count := of_int ops (Z.of_nat (List.length seg)) in
  {| mq135 := to_int ops (div ops (of_int ops (Zsum (map s_mq135 seg))) count);
     temperature := round_to ops (div ops (float_sum (map s_temp seg)) count) 2;
     humidity := round_to ops (div ops (float_sum (map s_hum seg)) count) 2;
     aqi := to_int ops (div ops (of_int ops (Zsum (map s_aqi seg))) count) |}.

(** The sums held in the variables are those of the samples in [pending]. *)
Definition tracks (st : Accumulator) (pending : list Sample) : Prop :=
  sum_mq135 st = Zsum (map s_mq135 pending) /\
  sum_temp st = float_sum (map s_temp pending) /\
  sum_hum st = float_sum (map s_hum pending) /\
  sum_aqi st = Zsum (map s_aqi pending) /\
  sample_count st = Z.of_nat (List.length pending).

Definition history_records (evs : list Event) : list Payload :=
  flat_map (fun e => match e with
                     | History body => [body]
                     | Realtime _ => []
                     end) evs.

End Loop.

Arguments sum_mq135 {ops}.
Arguments sum_temp {ops}.
Arguments sum_hum {ops}.
Arguments sum_aqi {ops}.
Arguments sample_count {ops}.
Arguments last_hourly_upload {ops}.
Arguments mq135 {ops}.
Arguments temperature {ops}.
Arguments humidity {ops}.
Arguments aqi {ops}.
Arguments dht {ops}.
Arguments raw_air {ops}.
Arguments current_time {ops}.
Arguments reset_time {ops}.
Arguments Completed {ops}.
Arguments Aborted {ops}.
Arguments Realtime {ops}.
Arguments History {ops}.
Arguments s_mq135 {ops}.
Arguments s_temp {ops}.
Arguments s_hum {ops}.
Arguments s_aqi {ops}.
Arguments temp_hum {ops}.
Arguments accumulate {ops}.
Arguments payload_realtime {ops}.
Arguments payload_history {ops}.
Arguments loop_pass {ops}.
Arguments iterate {ops}.
Arguments run {ops}.
Arguments sample_of {ops}.
Arguments samples {ops}.
Arguments means {ops}.
Arguments tracks {ops}.
Arguments history_records {ops}.

(** *** Binary floating point *)

(** [2^e] for an exponent of either sign. *)
Definition pow2 (e : Z) : Q :=
  if 0 <=? e then inject_Z (2 ^ e) else (/ inject_Z (2 ^ (- e)))%Q.

(** The exponent [e] of a non-zero [x]: [2^e <= |x| < 2^(e+1)]. *)
Definition exponent (x : Q) : Z :=
  let e := Z.log2 (Z.abs (Qnum x)) - Z.log2 (Z.pos (Qden x)) in
  if Qle_bool (pow2 e) (Qabs x) then e else e - 1.

(** The float of precision [p] bits nearest to [x], ties to the even
    significand; the exponent range is not bounded (no overflow to an
    infinity, no subnormal numbers). *)
Definition nearest (p : Z) (x : Q) : Q :=
  if Qeq_bool x 0 then 0%Q
  else let ulp := pow2 (exponent x - (p - 1)) in
       (inject_Z (py_round (x / ulp)) * ulp)%Q.

(** Floats of precision [p] (53 for a double, 24 for single precision)
    with correctly rounded operations.  [round(x, n)] is correctly rounded
    as in CPython, or, with [nearbyint] set, computed as MicroPython does:
    [nearbyint(x * 10^n) / 10^n]. *)
Definition ieee (p : Z) (nearbyint : bool) : FloatOps :=
  {| F := Q;
     of_int := fun z => nearest p (inject_Z z);
     add := fun x y => nearest p (x + y)%Q;
     div := fun x y => nearest p (x / y)%Q;
     round_to := fun x n =>
       if nearbyint then
         let mult := nearest p (inject_Z (10 ^ n)) in
         nearest p (inject_Z (py_round (nearest p (x * mult)%Q)) / mult)%Q
       else nearest p (py_round_n x n);
     to_int := py_int |}.

End Hourly.

(* ================================================================= *)
(** ** Forecasting page of the dashboard ([src/app.py], [show_future]) *)

Module App.

(** *** Time *)

(** Nanoseconds on the wall clock, the resolution pandas stores. *)
Definition Timestamp := Z.

(** [timedelta(hours=h, minutes=m)] *)
Definition timedelta (hours minutes : Z) : Z :=
  (hours * 3600 + minutes * 60) * 1000000000.

(** [Timestamp.hour] and [Timestamp.minute] *)
Definition hour_of (t : Timestamp) : Z := (t / timedelta 1 0) mod 24.
Definition minute_of (t : Timestamp) : Z := (t / timedelta 0 1) mod 60.

Definition digit (n : Z) : ascii := ascii_of_nat (48 + Z.to_nat n).

(** ["%02d"] for a value below 100 *)
Definition two_digits (n : Z) : string :=
  String (digit (n / 10)) (String (digit (n mod 10)) EmptyString).

(** [t.strftime("%H:%M")] *)
Definition strftime_HM (t : Timestamp) : string :=
  (two_digits (hour_of t) ++ ":" ++ two_digits (minute_of t))%string.


(** *** Rows of the reading tables *)

(** A row after [pd.to_datetime(..., errors='coerce')] and
    [pd.to_numeric(..., errors='coerce')]: a field that failed coercion is
    [None] (NaT / NaN).  Only the timestamp column and the [aqi] column
    reach the forecast; the other columns are carried along by pandas
    without influencing them and are left out. *)
Record Row := { row_time : option Timestamp; row_aqi : option Q }.

(** A row that survived [dropna(subset=[t_col, 'aqi'])]. *)
Record Reading := { timestamp : Timestamp; aqi : Q }.

(** Result of one table query: [None] when the request raised. *)
Definition query := option (list Row).

(** [get_combined_data]: the live rows, extended by the hourly history
    when fewer than 1000 live rows came back; any exception gives []. *)
Definition get_combined_data (realtime_data sensor_data : query) : list Row :=
  match realtime_data with
  | None => []
  | Some rows_live =>
      if Z.of_nat (List.length rows_live) <? 1000 then
        match sensor_data with
        | None => []
        | Some rows_hist => rows_live ++ rows_hist
        end
      else rows_live
  end.

(** *** Series conditioning (steps "Clean and Resample", "GAP DETECTION") *)

(** Order used by [sort_values]: ascending, NaT last. *)
Definition time_leb (a b : option Timestamp) : bool :=
  match a, b with
  | Some x, Some y => x <=? y
  | Some _, None => true
  | None, Some _ => false
  | None, None => true
  end.

Fixpoint insert_row (r : Row) (l : list Row) : list Row :=
  match l with
  | [] => [r]
  | h :: t => if time_leb (row_time r) (row_time h) then r :: l
              else h :: insert_row r t
  end.

(** [df.sort_values(t_col)].  pandas does not promise the order in which
    rows with equal timestamps come out; here they keep their input order. *)
Definition sort_values (l : list Row) : list Row := fold_right insert_row [] l.

(** [dropna(subset=[t_col, 'aqi'])] *)
Definition dropna (l : list Row) : list Reading :=
  flat_map (fun r => match row_time r, row_aqi r with
                     | Some t, Some a => [{| timestamp := t; aqi := a |}]
                     | _, _ => []
                     end) l.

(** [drop_duplicates(subset=[t_col])]: the first row of each timestamp. *)
Fixpoint drop_duplicates_from (seen : list Timestamp) (l : list Reading)
  : list Reading :=
  match l with
  | [] => []
  | r :: tl =>
      if existsb (Z.eqb (timestamp r)) seen then drop_duplicates_from seen tl
      else r :: drop_duplicates_from (timestamp r :: seen) tl
  end.

Definition drop_duplicates (l : list Reading) : list Reading :=
  drop_duplicates_from [] l.

(** [df[t_col].max()]; [None] is NaT, the maximum of an empty column. *)
Definition time_max (df : list Reading) : option Timestamp :=
  match df with
  | [] => None
  | r :: tl => Some (fold_left Z.max (map timestamp tl) (timestamp r))
  end.

Definition time_min (df : list Reading) : option Timestamp :=
  match df with
  | [] => None
  | r :: tl => Some (fold_left Z.min (map timestamp tl) (timestamp r))
  end.

(** [cutoff_time = df[t_col].max() - timedelta(hours=2)] *)
Definition cutoff_time (df : list Reading) : option Timestamp :=
  option_map (fun m => m - timedelta 2 0) (time_max df).

(** [df = df[df[t_col] > cutoff_time]]; comparing with NaT is False. *)
Definition gap_filter (df : list Reading) : list Reading :=
  match cutoff_time df with
  | None => []
  | Some c => filter (fun r => c <? timestamp r) df
  end.

(** Label of the 10-minute bin holding [t]: bins are closed on the left
    and labelled by their left edge. *)
Definition bin_label (t : Timestamp) : Timestamp :=
  timedelta 0 10 * (t / timedelta 0 10).

(** Mean of a column; NaN ([None]) over no values. *)
Definition mean (l : list Q) : option Q :=
  match l with
  | [] => None
  | _ => Some (Qsum l / inject_Z (Z.of_nat (List.length l)))%Q
  end.

Definition bin_mean (df : list Reading) (label : Timestamp) : option Q :=
  mean (map aqi (filter (fun r => bin_label (timestamp r) =? label) df)).

(** [df.resample('10T').mean(numeric_only=True)]: one row per bin from
    the bin of the earliest row to the bin of the latest one. *)
Definition resample_mean (df : list Reading) : list (Timestamp * option Q) :=
  match time_min df, time_max df with
  | Some lo, Some hi =>
      let first := bin_label lo in
      let bins := S (Z.to_nat ((bin_label hi - first) / timedelta 0 10)) in
      map (fun i => let label := first + timedelta 0 10 * Z.of_nat i in
                    (label, bin_mean df label))
          (seq 0 bins)
  | _, _ => []
  end.

(** An arithmetic progression of timestamps, ten minutes apart. *)
Definition grid (first : Timestamp) (start bins : nat) : list Timestamp :=
  map (fun i => first + timedelta 0 10 * Z.of_nat i) (seq start bins).

(** Distance to, and value of, the first valid cell of a column. *)
Fixpoint next_valid (l : list (option Q)) : option (nat * Q) :=
  match l with
  | [] => None
  | Some v :: _ => Some (O, v)
  | None :: tl => option_map (fun '(d, v) => (S d, v)) (next_valid tl)
  end.

(** [prev] is the last valid value seen and the number of cells between
    it and the head of [l].  A NaN cell between two valid cells gets the
    value on the straight line through them; after the last valid cell it
    repeats that cell; before the first valid cell it stays NaN. *)
Fixpoint interpolate_from (prev : option (Q * nat)) (l : list (option Q))
  : list (option Q) :=
  match l with
  | [] => []
  | Some v :: tl => Some v :: interpolate_from (Some (v, 1%nat)) tl
  | None :: tl =>
      let cell :=
        match prev with
        | None => None
        | Some (a, i) =>
            match next_valid tl with
            | None => Some a
            | Some (d, b) =>
                Some (a + (b - a) * inject_Z (Z.of_nat i)
                                  / inject_Z (Z.of_nat (i + d + 1)))%Q
            end
        end in
      cell :: interpolate_from (option_map (fun '(a, i) => (a, S i)) prev) tl
  end.

(** [.interpolate()] (linear, forward) on the [aqi] column. *)
Definition interpolate (df : list (Timestamp * option Q))
  : list (Timestamp * option Q) :=
  combine (map fst df) (interpolate_from None (map snd df)).

(** Lines 274-275: sorted rows with a timestamp and an AQI, one per
    timestamp. *)
Definition clean (rows : list Row) : list Reading :=
  let df := dropna (sort_values rows) in
  drop_duplicates df.

(** Lines 274-287: from the coerced rows to [df_10min]. *)
Definition condition (rows : list Row) : list (Timestamp * option Q) :=
  let df := clean rows in
  let df := gap_filter df in
  interpolate (resample_mean df).

(** *** The same data at a later time *)

Definition shift_row (delta : Z) (r : Row) : Row :=
  {| row_time := option_map (Z.add delta) (row_time r); row_aqi := row_aqi r |}.

Definition shift_reading (delta : Z) (r : Reading) : Reading :=
  {| timestamp := delta + timestamp r; aqi := aqi r |}.

Definition shift_label {A} (delta : Z) (row : Timestamp * A) : Timestamp * A :=
  (delta + fst row, snd row).

(** The instants the model stands for: from 1970, when Asia/Kolkata had
    long been at UTC+05:30, to the year 2255, short of the last instant
    (in 2262) that pandas stores in its 64-bit count of nanoseconds. *)
Definition in_calendar (t : Timestamp) : Prop := 0 <= t <= 9000000000000000000.

(** *** Feature vector ("4. Construct Feature Vector") *)

(** The exceptions that matter: [OtherError name] is an exception of the
    class [name], which is neither [FileNotFoundError] nor one of its
    subclasses, nor [IndexError]. *)
Inductive exception :=
| FileNotFoundError
| IndexError
| OtherError (name : string).

(** [float(cell)] for a cell of the [aqi] column.  No cell of [df_10min]
    is NaN (lemma [condition_valid]), so the NaN case is never taken. *)
Definition float_cell (c : option Q) : Q :=
  match c with
  | Some v => v
  | None => 0
  end.

(** [df.iloc[-k]] for [k >= 1]; [None] is Python's IndexError. *)
Definition iloc_back {A} (df : list A) (k : nat) : option A :=
  nth_error (rev df) (k - 1).

(** [df.iloc[-k:]] *)
Definition iloc_tail {A} (df : list A) (k : nat) : list A :=
  skipn (List.length df - k) df.

(** Cells of a column that are not NaN. *)
Definition valid_cells (l : list (option Q)) : list Q :=
  flat_map (fun c => match c with Some v => [v] | None => [] end) l.

(** The dictionary [input_features]. *)
Record InputFeatures := {
  aqi_lag_1 : Q;
  aqi_lag_2 : Q;
  aqi_lag_3 : Q;
  aqi_lag_6 : Q;
  rolling_mean : Q
}.

Definition iloc_aqi (df : list (Timestamp * option Q)) (k : nat) : option Q :=
  option_map (fun row => float_cell (snd row)) (iloc_back df k).

(** Lines 301-312. *)
Definition build_features (df_10min : list (Timestamp * option Q))
  : option InputFeatures :=
  let len := List.length df_10min in
  match iloc_aqi df_10min 1 with
  | None => None
  | Some lag_1 =>
      match (if (1 <? len)%nat then iloc_aqi df_10min 2 else Some lag_1) with
      | None => None
      | Some lag_2 =>
          match (if (2 <? len)%nat then iloc_aqi df_10min 3 else Some lag_2) with
          | None => None
          | Some lag_3 =>
              match (if (5 <? len)%nat then iloc_aqi df_10min 6 else Some lag_3) with
              | None => None
              | Some lag_6 =>
                  Some {| aqi_lag_1 := lag_1;
                          aqi_lag_2 := lag_2;
                          aqi_lag_3 := lag_3;
                          aqi_lag_6 := lag_6;
                          rolling_mean :=
                            float_cell (mean (valid_cells
                              (map snd (iloc_tail df_10min 3)))) |}
              end
          end
      end
  end.

(** *** Anchored forecast ("5. Predict Next 6 Steps") *)

(** The one-row frame given to a model: [hour], [minute] and the five
    entries of [input_features]. *)
Record FeatureRow := { hour : Z; minute : Z; lags : InputFeatures }.

Definition feature_row (t : Timestamp) (f : InputFeatures) : FeatureRow :=
  {| hour := hour_of t; minute := minute_of t; lags := f |}.

(** [model.predict(frame)[0]] of a trained regressor, and the dictionary
    of regressors keyed by step that [joblib.load] returns. *)
Definition Model := FeatureRow -> Q.
Definition ModelSuite := Z -> Model.

Record ForecastPoint := { Time : string; Forecast_AQI : Q }.

Definition raw_pred_t1 (model_suite : ModelSuite) (last_time : Timestamp)
    (f : InputFeatures) : Q :=
  model_suite 1 (feature_row (last_time + timedelta 0 10) f).

(** Body of [for step in range(1, 7)]. *)
Definition predict_step (model_suite : ModelSuite) (last_time : Timestamp)
    (f : InputFeatures) (bias_offset : Q) (step : Z) : ForecastPoint :=
  let future_time := last_time + timedelta 0 (10 * step) in
  let raw_pred := model_suite step (feature_row future_time f) in
  let corrected_pred := (raw_pred + bias_offset)%Q in
  let corrected_pred := match (corrected_pred ?= 0)%Q with
                        | Lt => 0%Q
                        | _ => corrected_pred
                        end in
  {| Time := strftime_HM future_time;
     Forecast_AQI := py_round_n corrected_pred 1 |}.

Definition forecast (model_suite : ModelSuite) (last_time : Timestamp)
    (current_aqi_real : Q) (f : InputFeatures) : list ForecastPoint :=
  let bias_offset := (current_aqi_real - raw_pred_t1 model_suite last_time f)%Q in
  map (predict_step model_suite last_time f bias_offset) [1; 2; 3; 4; 5; 6].

(** *** The page *)

(** What [show_future] puts on the page once the button is pressed. *)
Inductive Rendered :=
| Error_model_not_found
| Warning_collecting_data
| Warning_cold_start (wait_minutes : Z)
| Forecast_table (preds : list ForecastPoint).

Inductive outcome :=
| Returns (page : Rendered)
| Raises (e : exception).

(** Result of [joblib.load(MODEL_FILE)]. *)
Inductive load_result :=
| Loaded (model_suite : ModelSuite)
| LoadRaises (e : exception).

Definition len {A} (l : list A) : Z := Z.of_nat (List.length l).

Definition show_future (load : load_result) (realtime_data sensor_data : query)
  : outcome :=
  match load with
  | LoadRaises FileNotFoundError => Returns Error_model_not_found
  | LoadRaises e => Raises e
  | Loaded model_suite =>
      match get_combined_data realtime_data sensor_data with
      | [] => Returns Warning_collecting_data
      | rows =>
          let df_10min := condition rows in
          if len df_10min <? 4 then
            Returns (Warning_cold_start (40 - len df_10min * 10))
          else
            match iloc_back df_10min 1, build_features df_10min with
            | Some last_known, Some input_features =>
                let last_time := fst last_known in
                let current_aqi_real := float_cell (snd last_known) in
                Returns (Forecast_table
                  (forecast model_suite last_time current_aqi_real input_features))
            | _, _ => Raises IndexError
            end
      end
  end.

(** Python's [min(a, b)] and [max(a, b)] on two numbers. *)
Definition py_min (a b : Q) : Q := if Qle_bool a b then a else b.
Definition py_max (a b : Q) : Q := if Qle_bool b a then a else b.

(** [v] lies between [lo] and [hi]. *)
Definition within (lo hi v : Q) : Prop := (lo <= v <= hi)%Q.


(** *** Live dashboard ([show_live_monitor]) *)

(** [get_latest_data]: the rows of the answer, [[]] when the request raised. *)
Definition get_latest_data (table : query) : list Row :=
  match table with
  | Some rows => rows
  | None => []
  end.

(** [df.dropna(subset=["Timestamp"])] *)
Definition dropna_time (rows : list Row) : list Row :=
  filter (fun r => match row_time r with Some _ => true | None => false end) rows.

(** [int(latest["aqi"]) if not pd.isna(latest["aqi"]) else 0] *)
Definition latest_aqi (latest : Row) : Z :=
  match row_aqi latest with
  | Some v => py_int v
  | None => 0
  end.

(** The status text and its colour. *)
Definition status_color (aqi : Z) : string * string :=
  if aqi <=? 50 then ("Good"%string, "#00e400"%string)
  else if aqi <=? 100 then ("Moderate"%string, "#ffff00"%string)
  else if aqi <=? 150 then ("Poor"%string, "#ff7e00"%string)
  else if aqi <=? 200 then ("Unhealthy"%string, "#ff0000"%string)
  else if aqi <=? 300 then ("Very Unhealthy"%string, "#8f3f97"%string)
  else ("Hazardous"%string, "#7e0023"%string).

Definition seg_width : Q := 100 / 6.

(** "POINTER CALCULATION": position of the pointer over the colour bar, in
    percent of its width. *)
Definition pointer_pos (aqi : Z) : Q :=
  let pointer_pos :=
    (if aqi <=? 50 then (inject_Z aqi / 50) * seg_width
     else if aqi <=? 100 then seg_width + (inject_Z (aqi - 50) / 50) * seg_width
     else if aqi <=? 150 then (seg_width * 2) + (inject_Z (aqi - 100) / 50) * seg_width
     else if aqi <=? 200 then (seg_width * 3) + (inject_Z (aqi - 150) / 50) * seg_width
     else if aqi <=? 300 then (seg_width * 4) + (inject_Z (aqi - 200) / 100) * seg_width
     else (seg_width * 5)
          + py_min ((inject_Z (aqi - 300) / 100) * seg_width) (seg_width - 2))%Q in
  py_max 1 (py_min 99 pointer_pos).

(** *** Log analysis ([show_history]) *)

(** "Move ID column to the front" *)
Definition id_first (columns : list string) : list string :=
  if existsb (String.eqb "id") columns then
    "id"%string :: filter (fun c => negb (String.eqb c "id")) columns
  else columns.

End App.

(* ================================================================= *)
(** ** The pages on what the collaborators hand over *)

Module Page.

Import App.

(** *** Floats with their special values *)

(** A float as a regressor returns it.  Finite values are read exactly. *)
Inductive PyFloat :=
| Finite (q : Q)
| PosInf
| NegInf
| NaN.

Definition float_neg (x : PyFloat) : PyFloat :=
  match x with
  | Finite q => Finite (- q)
  | PosInf => NegInf
  | NegInf => PosInf
  | NaN => NaN
  end.

(** [x + y] *)
Definition float_add (x y : PyFloat) : PyFloat :=
  match x, y with
  | Finite a, Finite b => Finite (a + b)
  | NaN, _ | _, NaN => NaN
  | PosInf, NegInf | NegInf, PosInf => NaN
  | PosInf, _ | _, PosInf => PosInf
  | NegInf, _ | _, NegInf => NegInf
  end.

(** [x - y] *)
Definition float_sub (x y : PyFloat) : PyFloat := float_add x (float_neg y).

(** [x < 0]; a comparison with NaN is False. *)
Definition float_lt_0 (x : PyFloat) : bool :=
  match x with
  | Finite q => match (q ?= 0)%Q with Lt => true | _ => false end
  | NegInf => true
  | PosInf | NaN => false
  end.

(** [x >= 0] *)
Definition float_ge_0 (x : PyFloat) : bool :=
  match x with
  | Finite q => Qle_bool 0 q
  | PosInf => true
  | NegInf | NaN => false
  end.

(** [round(x, ndigits)]: NaN and the infinities are returned unchanged. *)
Definition float_round (x : PyFloat) (ndigits : Z) : PyFloat :=
  match x with
  | Finite q => Finite (py_round_n q ndigits)
  | _ => x
  end.

(** *** The artifact *)

Definition KeyError : exception := OtherError "KeyError".
Definition ValueError : exception := OtherError "ValueError".

(** [model.predict(frame)[0]]: an answer, or the exception it raises. *)
Inductive predict_result :=
| Answers (v : PyFloat)
| PredictRaises (e : exception).

Definition Regressor := FeatureRow -> predict_result.

(** [model_suite[step]] on whatever object [joblib.load] returned: a
    regressor, or the exception of the subscript (a KeyError when the
    dictionary lacks the step). *)
Inductive lookup_result :=
| Found (model : Regressor)
| LookupRaises (e : exception).

Definition Artifact := Z -> lookup_result.

(** Result of [joblib.load(MODEL_FILE)]. *)
Inductive load_result :=
| Loaded (model_suite : Artifact)
| LoadRaises (e : exception).

(** [model_suite[step].predict(frame)[0]] *)
Definition raw_pred (model_suite : Artifact) (step : Z) (frame : FeatureRow)
  : exception + PyFloat :=
  match model_suite step with
  | LookupRaises e => inl e
  | Found model =>
      match model frame with
      | PredictRaises e => inl e
      | Answers v => inr v
      end
  end.

(** *** Anchored forecast ("5. Predict Next 6 Steps") *)

Record ForecastPoint := { Time : string; Forecast_AQI : PyFloat }.

(** Body of [for step in range(1, 7)]. *)
Definition predict_step (model_suite : Artifact) (last_time : Timestamp)
    (f : InputFeatures) (bias_offset : PyFloat) (step : Z)
  : exception + ForecastPoint :=
  let future_time := last_time + timedelta 0 (10 * step) in
  match raw_pred model_suite step (feature_row future_time f) with
  | inl e => inl e
  | inr raw_pred =>
      let corrected_pred := float_add raw_pred bias_offset in
      let corrected_pred := if float_lt_0 corrected_pred then Finite 0
                            else corrected_pred in
      inr {| Time := strftime_HM future_time;
             Forecast_AQI := float_round corrected_pred 1 |}
  end.

(** The loop: it stops at the first exception, and [preds] is lost. *)
Fixpoint predict_steps (model_suite : Artifact) (last_time : Timestamp)
    (f : InputFeatures) (bias_offset : PyFloat) (steps : list Z)
  : exception + list ForecastPoint :=
  match steps with
  | [] => inr []
  | step :: rest =>
      match predict_step model_suite last_time f bias_offset step with
      | inl e => inl e
      | inr p =>
          match predict_steps model_suite last_time f bias_offset rest with
          | inl e => inl e
          | inr preds => inr (p :: preds)
          end
      end
  end.

(** Lines 319-362. *)
Definition forecast (model_suite : Artifact) (last_time : Timestamp)
    (current_aqi_real : Q) (f : InputFeatures) : exception + list ForecastPoint :=
  match raw_pred model_suite 1 (feature_row (last_time + timedelta 0 10) f) with
  | inl e => inl e
  | inr raw_pred_t1 =>
      let bias_offset := float_sub (Finite current_aqi_real) raw_pred_t1 in
      predict_steps model_suite last_time f bias_offset [1; 2; 3; 4; 5; 6]
  end.

(** *** Records of the tables *)

(** A record of a table, seen through the two columns that matter:
    [time_cell] is its cell in the timestamp column [t_col] after
    [pd.to_datetime(..., errors='coerce')] (NaT when the record lacks the
    key); [aqi_key] is [None] when the record has no [aqi] key, and
    otherwise its value after [pd.to_numeric(..., errors='coerce')].  A
    record has at least one key, so the frame has a first column. *)
Record StoreRow := { time_cell : option Timestamp; aqi_key : option (option Q) }.

Definition query := option (list StoreRow).

(** ['aqi' in df.columns]: some record has the key. *)
Definition has_aqi_column (rows : list StoreRow) : bool :=
  existsb (fun r => match aqi_key r with Some _ => true | None => false end) rows.

(** The row of the frame: a missing key reads as NaN. *)
Definition frame_row (r : StoreRow) : Row :=
  {| row_time := time_cell r;
     row_aqi := match aqi_key r with Some cell => cell | None => None end |}.

(** [get_combined_data], as [App.get_combined_data]. *)
Definition get_combined_data (realtime_data sensor_data : query) : list StoreRow :=
  match realtime_data with
  | None => []
  | Some rows_live =>
      if Z.of_nat (List.length rows_live) <? 1000 then
        match sensor_data with
        | None => []
        | Some rows_hist => rows_live ++ rows_hist
        end
      else rows_live
  end.

(** *** The forecast page *)

Inductive Rendered :=
| Error_model_not_found
| Warning_collecting_data
| Warning_cold_start (wait_minutes : Z)
| Forecast_table (preds : list ForecastPoint).

Inductive outcome :=
| Returns (page : Rendered)
| Raises (e : exception).

(** [show_future] once the button is pressed.  The only handler is the
    [except FileNotFoundError] around [joblib.load];
    [dropna(subset=[t_col, 'aqi'])] raises a KeyError on a frame without an
    [aqi] column. *)
Definition show_future (load : load_result) (realtime_data sensor_data : query)
  : outcome :=
  match load with
  | LoadRaises FileNotFoundError => Returns Error_model_not_found
  | LoadRaises e => Raises e
  | Loaded model_suite =>
      match get_combined_data realtime_data sensor_data with
      | [] => Returns Warning_collecting_data
      | rows =>
          if negb (has_aqi_column rows) then Raises KeyError
          else
            let df_10min := condition (map frame_row rows) in
            if len df_10min <? 4 then
              Returns (Warning_cold_start (40 - len df_10min * 10))
            else
              match iloc_back df_10min 1, build_features df_10min with
              | Some last_known, Some input_features =>
                  let last_time := fst last_known in
                  let current_aqi_real := float_cell (snd last_known) in
                  match forecast model_suite last_time current_aqi_real
                          input_features with
                  | inl e => Raises e
                  | inr preds => Returns (Forecast_table preds)
                  end
              | _, _ => Raises IndexError
              end
      end
  end.

(** *** Well-formed inputs *)

(** A dictionary of six regressors that answer finite numbers, rows of a
    table with an [aqi] column, and the pages of [App.show_future]. *)
Definition total_suite (model_suite : ModelSuite) : Artifact :=
  fun step => Found (fun frame => Answers (Finite (model_suite step frame))).

Definition of_load (load : App.load_result) : load_result :=
  match load with
  | App.Loaded model_suite => Loaded (total_suite model_suite)
  | App.LoadRaises e => LoadRaises e
  end.

Definition of_row (r : Row) : StoreRow :=
  {| time_cell := row_time r; aqi_key := Some (row_aqi r) |}.

Definition of_query (table : App.query) : query := option_map (map of_row) table.

Definition of_point (p : App.ForecastPoint) : ForecastPoint :=
  {| Time := App.Time p; Forecast_AQI := Finite (App.Forecast_AQI p) |}.

Definition of_outcome (o : App.outcome) : outcome :=
  match o with
  | App.Returns App.Error_model_not_found => Returns Error_model_not_found
  | App.Returns App.Warning_collecting_data => Returns Warning_collecting_data
  | App.Returns (App.Warning_cold_start wait) => Returns (Warning_cold_start wait)
  | App.Returns (App.Forecast_table preds) =>
      Returns (Forecast_table (map of_point preds))
  | App.Raises e => Raises e
  end.

(** *** Live dashboard ([show_live_monitor]) *)

(** A cell of the timestamp column before [pd.to_datetime(..., utc=True)],
    which is called without [errors='coerce']: a value that parses, a null
    (read as NaT), or a value on which the call raises. *)
Inductive time_text :=
| Parses (t : Timestamp)
| Null
| Unparsable.

(** A record of [realtime_data]: its cell in the column renamed to
    [Timestamp] ([created_at] when some record has that key, else
    [updated_at]; [None] when this record lacks the key) and its [aqi]. *)
Record LiveRow := { stamp : option time_text; live_aqi : option (option Q) }.

(** [get_latest_data]: the rows of the answer, [[]] when the request raised. *)
Definition get_latest_data (table : option (list LiveRow)) : list LiveRow :=
  match table with
  | Some rows => rows
  | None => []
  end.

(** ["created_at" in df.columns] or ["updated_at" in df.columns] *)
Definition has_timestamp_column (rows : list LiveRow) : bool :=
  existsb (fun r => match stamp r with Some _ => true | None => false end) rows.

Definition raises_on (rows : list LiveRow) : bool :=
  existsb (fun r => match stamp r with Some Unparsable => true | _ => false end) rows.

Definition live_has_aqi (rows : list LiveRow) : bool :=
  existsb (fun r => match live_aqi r with Some _ => true | None => false end) rows.

(** The row after the timezone and numeric fixes. *)
Definition live_row (r : LiveRow) : Row :=
  {| row_time := match stamp r with Some (Parses t) => Some t | _ => None end;
     row_aqi := match live_aqi r with Some cell => cell | None => None end |}.

(** What the live dashboard shows, up to the pointer of the colour bar. *)
Inductive LivePage :=
| Info_waiting_for_data
| Error_missing_timestamp_column
| Warning_no_valid_data
| Monitor (aqi : Z) (status color : string) (pointer : Q).

Inductive live_outcome :=
| LiveReturns (page : LivePage)
| LiveRaises (e : exception).

(** Lines 93-138.  [latest["aqi"]] raises a KeyError on a frame without
    an [aqi] column. *)
Definition show_live_monitor (realtime_data : option (list LiveRow)) : live_outcome :=
  match get_latest_data realtime_data with
  | [] => LiveReturns Info_waiting_for_data
  | rows =>
      if negb (has_timestamp_column rows) then
        LiveReturns Error_missing_timestamp_column
      else if raises_on rows then LiveRaises ValueError
      else
        match dropna_time (map live_row rows) with
        | [] => LiveReturns Warning_no_valid_data
        | df =>
            match iloc_back (sort_values df) 1 with
            | None => LiveRaises IndexError
            | Some latest =>
                if negb (live_has_aqi rows) then LiveRaises KeyError
                else
                  let aqi := latest_aqi latest in
                  LiveReturns (Monitor aqi (fst (status_color aqi))
                                 (snd (status_color aqi)) (pointer_pos aqi))
            end
        end
  end.

End Page.

(* ================================================================= *)
(** ** Concrete inputs used in the statements below *)

Module Scenario.

Import App.

(** Wall-clock time [h:m] on the given day. *)
Definition on_day (day h m : Z) : Timestamp := timedelta (24 * day + h) m.

Definition reading_on (day h m : Z) (value : Z) : Row :=
  {| row_time := Some (on_day day h m); row_aqi := Some (inject_Z value) |}.

(** The same on one fixed day. *)
Definition at_clock (h m : Z) : Timestamp := on_day 20000 h m.

Definition reading (h m : Z) (value : Z) : Row := reading_on 20000 h m value.

(** Four readings five minutes apart. *)
Definition four_readings_on (day : Z) : list Row :=
  [reading_on day 10 0 40; reading_on day 10 5 44;
   reading_on day 10 10 50; reading_on day 10 15 52].

Definition four_readings : list Row := four_readings_on 20000.

(** Three readings ten minutes apart. *)
Definition three_points : list Row :=
  [reading 10 0 40; reading 10 10 41; reading 10 20 42].

(** A batch spanning two hours and five minutes. *)
Definition long_span : list Row :=
  [reading 10 0 40; reading 10 6 44; reading 12 5 50].

(** Four grid points; the last bin averages 40, 40, 40 and 41. *)
Definition quarter_tail : list Row :=
  [reading 10 0 38; reading 10 10 39; reading 10 20 40;
   reading 10 30 40; reading 10 32 40; reading 10 34 40; reading 10 36 41].

(** Rows whose timestamp or AQI failed coercion. *)
Definition unreadable : list Row :=
  [{| row_time := None; row_aqi := Some 40%Q |};
   {| row_time := Some (at_clock 10 0); row_aqi := None |}].

(** An ensemble whose six regressors all answer with [aqi_lag_1]. *)
Definition persistence : ModelSuite := fun _ row => aqi_lag_1 (lags row).

(** Two completed passes, with a failed one between them, in the first
    seconds after start-up at time 0, and a pass one hour after start-up. *)
Definition first_pass : Firmware.Pass :=
  {| Firmware.dht := Some (255 # 10, 60)%Q; Firmware.raw_air := 1000;
     Firmware.current_time := 2; Firmware.reset_time := 2 |}.

Definition second_pass : Firmware.Pass :=
  {| Firmware.dht := None; Firmware.raw_air := 1200;
     Firmware.current_time := 4; Firmware.reset_time := 4 |}.

Definition hour_pass : Firmware.Pass :=
  {| Firmware.dht := Some (26, 61)%Q; Firmware.raw_air := 1100;
     Firmware.current_time := 3600; Firmware.reset_time := 3601 |}.

Definition first_seconds : list Firmware.Iteration :=
  [Firmware.Completed first_pass; Firmware.Aborted; Firmware.Completed second_pass].

(** A pass of the loop over binary floats of precision [p]: the DHT22
    reads [tenths / 10] degrees, the clock shows [now]. *)
Definition tenths_pass (p : Z) (nearbyint : bool) (tenths now : Z)
  : Hourly.Pass (Hourly.ieee p nearbyint) :=
  Hourly.Build_Pass (Hourly.ieee p nearbyint)
    (Some (Hourly.nearest p (inject_Z tenths / 10)%Q, Hourly.nearest p 50%Q))
    1000 now (now + 1).

(** Four passes, the last of them one hour after start-up at time 0. *)
Definition four_temperatures (p : Z) (nearbyint : bool)
  : list (Hourly.Iteration (Hourly.ieee p nearbyint)) :=
  [Hourly.Completed (tenths_pass p nearbyint 154 2);
   Hourly.Completed (tenths_pass p nearbyint 246 4);
   Hourly.Completed (tenths_pass p nearbyint 241 6);
   Hourly.Completed (tenths_pass p nearbyint 166 3600)].

(** Two passes that end the first hour, and one pass of the second hour. *)
Definition two_hours : list (Hourly.Iteration (Hourly.ieee 53 false)) :=
  [Hourly.Completed (tenths_pass 53 false 154 2);
   Hourly.Completed (tenths_pass 53 false 246 3600);
   Hourly.Completed (tenths_pass 53 false 241 3603)].

(** The rows of a table that has an [aqi] column. *)
Definition stored (rows : list Row) : Page.query := Some (map Page.of_row rows).

(** Six regressors that answer [aqi_lag_1], lowered by 100 for each step
    after the first. *)
Definition falling : Page.Artifact :=
  fun step => Page.Found (fun frame =>
    Page.Answers (Page.Finite (aqi_lag_1 (lags frame) - inject_Z (100 * (step - 1))))).

(** The ensemble [persistence], except that the regressor of step 3
    answers NaN. *)
Definition nan_at_3 : Page.Artifact :=
  fun step => if step =? 3 then Page.Found (fun _ => Page.Answers Page.NaN)
              else Page.total_suite persistence step.

(** A dictionary that holds the regressors of [persistence] but has no
    key 3. *)
Definition lacks_3 : Page.Artifact :=
  fun step => if step =? 3 then Page.LookupRaises Page.KeyError
              else Page.total_suite persistence step.

(** Records without an [aqi] key. *)
Definition no_aqi_key : list Page.StoreRow :=
  [{| Page.time_cell := Some (at_clock 10 0); Page.aqi_key := None |};
   {| Page.time_cell := Some (at_clock 10 10); Page.aqi_key := None |}].

(** Records whose timestamp or AQI failed coercion. *)
Definition unreadable_records : list Page.StoreRow :=
  [{| Page.time_cell := None; Page.aqi_key := Some (Some 40%Q) |};
   {| Page.time_cell := Some (at_clock 10 0); Page.aqi_key := Some None |}].

(** Live records: three that parse, one without a timestamp. *)
Definition live_records : list Page.LiveRow :=
  [{| Page.stamp := Some (Page.Parses (at_clock 10 10)); Page.live_aqi := Some (Some 41%Q) |};
   {| Page.stamp := Some (Page.Parses (at_clock 10 20)); Page.live_aqi := Some (Some (425 # 10)%Q) |};
   {| Page.stamp := Some Page.Null; Page.live_aqi := Some (Some 90%Q) |};
   {| Page.stamp := Some (Page.Parses (at_clock 10 0)); Page.live_aqi := Some (Some 40%Q) |}].

End Scenario.

(* ================================================================= *)
(** ** Facts about the numeric builtins *)

Lemma py_round_lower (x : Q) (a : Z) : (inject_Z a <= x)%Q -> a <= py_round x.
Proof.
  intros H. unfold py_round.
  assert (a <= Qfloor x) by (apply Qfloor_resp_le in H; rewrite Qfloor_Z in H; exact H).
  destruct (Qcompare _ _); [destruct (Z.even _)|..]; lia.
Qed.

Lemma py_round_upper (x : Q) (b : Z) : (x <= inject_Z b)%Q -> py_round x <= b.
Proof.
  intros H. unfold py_round.
  assert (Hf : Qfloor x <= b) by (apply Qfloor_resp_le in H; rewrite Qfloor_Z in H; exact H).
  destruct (Z.eq_dec (Qfloor x) b) as [E | NE].
  - (* x = b exactly: the fractional part is 0 *)
    assert (Hx : (x - inject_Z (Qfloor x) <= 0)%Q) by (rewrite E; lra).
    destruct (Qcompare (x - inject_Z (Qfloor x)) (1 # 2)) eqn:C.
    + apply Qeq_alt in C. lra.
    + lia.
    + apply Qgt_alt in C. lra.
  - destruct (Qcompare _ _); [destruct (Z.even _)|..]; lia.
Qed.

Lemma Qle_bool_false (x y : Q) : Qle_bool x y = false -> (y < x)%Q.
Proof.
  intros H. apply Qnot_le_lt. intros L.
  apply Qle_bool_iff in L. congruence.
Qed.

(* ================================================================= *)
(** ** Sensor conversion *)

Lemma mq135_to_pm25_nonneg (raw : Z) :
  0 <= raw -> (0 <= Firmware.mq135_to_pm25 raw)%Q.
Proof.
  intros H. unfold Firmware.mq135_to_pm25.
  assert (0 <= inject_Z raw)%Q by (change 0%Q with (inject_Z 0); now rewrite <- Zle_Qle).
  apply Qmult_le_0_compat; [|lra].
  apply Qle_shift_div_l; lra.
Qed.

Lemma calculate_aqi_pm25_range (pm25 : Q) :
  (0 <= pm25)%Q -> 0 <= Firmware.calculate_aqi_pm25 pm25 <= 150.
Proof.
  intros H0. unfold Firmware.calculate_aqi_pm25.
  destruct (Qle_bool pm25 12) eqn:B1.
  { apply Qle_bool_iff in B1. split.
    - apply py_round_lower. change (inject_Z 0) with 0%Q.
      setoid_replace (50 / 12)%Q with (25 # 6)%Q by (now vm_compute). lra.
    - apply Z.le_trans with 50; [|lia].
      apply py_round_upper. change (inject_Z 50) with 50%Q.
      setoid_replace (50 / 12)%Q with (25 # 6)%Q by (now vm_compute). lra. }
  apply Qle_bool_false in B1.
  destruct (Qle_bool pm25 (354 # 10)) eqn:B2.
  { apply Qle_bool_iff in B2. split.
    - apply py_round_lower. change (inject_Z 0) with 0%Q.
      setoid_replace (49 / (233 # 10))%Q with (490 # 233)%Q by (now vm_compute). lra.
    - apply Z.le_trans with 100; [|lia].
      apply py_round_upper. change (inject_Z 100) with 100%Q.
      setoid_replace (49 / (233 # 10))%Q with (490 # 233)%Q by (now vm_compute). lra. }
  apply Qle_bool_false in B2.
  destruct (Qle_bool pm25 (554 # 10)) eqn:B3.
  { apply Qle_bool_iff in B3. split.
    - apply py_round_lower. change (inject_Z 0) with 0%Q.
      setoid_replace (49 / (199 # 10))%Q with (490 # 199)%Q by (now vm_compute). lra.
    - apply py_round_upper. change (inject_Z 150) with 150%Q.
      setoid_replace (49 / (199 # 10))%Q with (490 # 199)%Q by (now vm_compute). lra. }
  lia.
Qed.

(** C9.  Every raw ADC reading in [0, 4095] is converted by
    [calculate_aqi_pm25 (mq135_to_pm25 raw)] to an integer AQI between 0 and
    150, and a PM2.5 estimate above 55.4 gives exactly 150: the device never
    reports a value in the bands above 150. *)
Theorem firmware_aqi_at_most_150 (raw : Z) :
  0 <= raw <= 4095 ->
  0 <= Firmware.calculate_aqi_pm25 (Firmware.mq135_to_pm25 raw) <= 150 /\
  ((554 # 10 < Firmware.mq135_to_pm25 raw)%Q ->
   Firmware.calculate_aqi_pm25 (Firmware.mq135_to_pm25 raw) = 150).
Proof.
  intros [Hlo _]. split.
  - apply calculate_aqi_pm25_range, mq135_to_pm25_nonneg, Hlo.
  - intros Hhi. unfold Firmware.calculate_aqi_pm25.
    assert (E : forall c, (c <= 554 # 10)%Q ->
                Qle_bool (Firmware.mq135_to_pm25 raw) c = false).
    { intros c Hc. destruct (Qle_bool _ c) eqn:B; [|reflexivity].
      apply Qle_bool_iff in B. lra. }
    rewrite !E by lra. reflexivity.
Qed.

Lemma firmware_aqi_at_most_150_witness :
  0 <= 4095 <= 4095 /\
  0 <= Firmware.calculate_aqi_pm25 (Firmware.mq135_to_pm25 4095) <= 150 /\
  Firmware.calculate_aqi_pm25 (Firmware.mq135_to_pm25 4095) = 150.
Proof.
  assert (R : 0 <= 4095 <= 4095) by lia.
  destruct (firmware_aqi_at_most_150 4095 R) as [Hrange Hcap].
  split; [exact R | split; [exact Hrange | apply Hcap; reflexivity]].
Defined.

(* ================================================================= *)
(** ** Hourly accumulator of the firmware *)

Section Accumulation.

Import Firmware.

Lemma Zsum_snoc (l : list Z) (x : Z) : Zsum (l ++ [x]) = Zsum l + x.
Proof. unfold Zsum. now rewrite fold_left_app. Qed.

Lemma Qsum_snoc (l : list Q) (x : Q) : Qsum (l ++ [x]) = (Qsum l + x)%Q.
Proof. unfold Qsum. now rewrite fold_left_app. Qed.

Lemma startup_tracks (now : Z) : tracks (startup now) [].
Proof. repeat split. Qed.

Lemma accumulate_tracks st pending p :
  tracks st pending -> tracks (accumulate st p) (pending ++ [sample_of p]).
Proof.
  intros (H1 & H2 & H3 & H4 & H5). unfold tracks.
  rewrite !map_app. cbn [map].
  rewrite !Zsum_snoc, !Qsum_snoc, length_app.
  unfold accumulate, sample_of; cbn [sum_mq135 sum_temp sum_hum sum_aqi
    sample_count s_mq135 s_temp s_hum s_aqi List.length].
  rewrite H1, H2, H3, H4, H5. repeat split. lia.
Qed.

Lemma payload_history_means st pending :
  tracks st pending -> payload_history st = means pending.
Proof.
  intros (H1 & H2 & H3 & H4 & H5). unfold payload_history, means, count.
  now rewrite H1, H2, H3, H4, H5.
Qed.

(** A pass on which the hourly check succeeds uploads the means of the
    pending samples and of its own, and restarts from zero. *)
Lemma loop_pass_flush st pending p :
  tracks st pending ->
  HOUR_INTERVAL <= current_time p - last_hourly_upload st ->
  loop_pass st p =
    (startup (reset_time p),
     [Realtime (payload_realtime p); History (means (pending ++ [sample_of p]))]).
Proof.
  intros T Hfire. unfold loop_pass.
  pose proof (accumulate_tracks st pending p T) as T'.
  change (last_hourly_upload (accumulate st p)) with (last_hourly_upload st).
  destruct (Z.leb_spec HOUR_INTERVAL (current_time p - last_hourly_upload st)); [|lia].
  destruct T' as (_ & _ & _ & _ & C).
  destruct (Z.ltb_spec 0 (sample_count (accumulate st p))) as [_ | Hc].
  - rewrite (payload_history_means _ _ (accumulate_tracks st pending p T)). reflexivity.
  - rewrite C, length_app in Hc. simpl in Hc. lia.
Qed.

Lemma loop_pass_keep st pending p :
  tracks st pending ->
  current_time p - last_hourly_upload st < HOUR_INTERVAL ->
  loop_pass st p = (accumulate st p, [Realtime (payload_realtime p)]).
Proof.
  intros T Hquiet. unfold loop_pass.
  change (last_hourly_upload (accumulate st p)) with (last_hourly_upload st).
  destruct (Z.leb_spec HOUR_INTERVAL (current_time p - last_hourly_upload st)); [lia|].
  reflexivity.
Qed.

Lemma history_records_app e1 e2 :
  history_records (e1 ++ e2) = history_records e1 ++ history_records e2.
Proof. unfold history_records. apply flat_map_app. Qed.

(** The history records of a run are the means of consecutive, disjoint,
    non-empty groups of samples; the samples after the last group are the
    ones the sums still hold. *)
Lemma run_partition its : forall st pending,
  tracks st pending ->
  exists segs rest,
    pending ++ samples its = List.concat segs ++ rest /\
    Forall (fun seg => seg <> []) segs /\
    history_records (snd (run st its)) = map means segs /\
    tracks (fst (run st its)) rest.
Proof.
  induction its as [| it its IH]; intros st pending T.
  - exists [], pending. simpl. rewrite app_nil_r. split; [|split; [|split]]; auto.
  - destruct it as [p |].
    + simpl run. simpl samples.
      destruct (Z.le_gt_cases HOUR_INTERVAL (current_time p - last_hourly_upload st))
        as [Hfire | Hquiet].
      * simpl iterate. rewrite (loop_pass_flush st pending p T Hfire).
        destruct (IH (startup (reset_time p)) [] (startup_tracks _))
          as (segs & rest & Hcat & Hne & Hrec & Htr).
        destruct (run (startup (reset_time p)) its) as [st2 ev2] eqn:R.
        exists ((pending ++ [sample_of p]) :: segs), rest. simpl in *.
        split; [|split; [|split]]; auto.
        -- rewrite <- !app_assoc, <- Hcat. reflexivity.
        -- constructor; [|exact Hne]. now destruct pending.
        -- now rewrite Hrec.
      * simpl iterate. rewrite (loop_pass_keep st pending p T) by lia.
        destruct (IH _ _ (accumulate_tracks st pending p T))
          as (segs & rest & Hcat & Hne & Hrec & Htr).
        destruct (run (accumulate st p) its) as [st2 ev2] eqn:R.
        exists segs, rest. simpl in *.
        split; [|split; [|split]]; auto.
        rewrite <- Hcat, <- app_assoc. reflexivity.
    + simpl run. simpl samples. simpl iterate.
      destruct (IH st pending T) as (segs & rest & Hcat & Hne & Hrec & Htr).
      destruct (run st its) as [st2 ev2] eqn:R.
      exists segs, rest. simpl in *. split; [|split; [|split]]; auto.
Qed.

End Accumulation.

(** The same invariant for the loop over the interpreter's floats. *)
Section FloatAccumulation.

Import Hourly.

Variable ops : FloatOps.

Lemma float_sum_snoc (l : list (F ops)) (x : F ops) :
  float_sum ops (l ++ [x]) = add ops (float_sum ops l) x.
Proof. unfold float_sum. now rewrite fold_left_app. Qed.

Lemma float_startup_tracks (now : Z) : tracks (startup ops now) [].
Proof. repeat split. Qed.

Lemma float_accumulate_tracks (st : Accumulator ops) pending p :
  tracks st pending -> tracks (accumulate st p) (pending ++ [sample_of p]).
Proof.
  intros (H1 & H2 & H3 & H4 & H5). unfold tracks.
  rewrite !map_app. cbn [map].
  rewrite !Zsum_snoc, !float_sum_snoc, length_app.
  unfold accumulate, sample_of; cbn [sum_mq135 sum_temp sum_hum sum_aqi
    sample_count s_mq135 s_temp s_hum s_aqi List.length].
  rewrite H1, H2, H3, H4, H5.
  split; [reflexivity|]. split; [reflexivity|]. split; [reflexivity|].
  split; [reflexivity | lia].
Qed.

Lemma float_payload_history_means (st : Accumulator ops) pending :
  tracks st pending -> payload_history st = means pending.
Proof.
  intros (H1 & H2 & H3 & H4 & H5). unfold payload_history, means.
  now rewrite H1, H2, H3, H4, H5.
Qed.

Lemma float_loop_pass_flush (st : Accumulator ops) pending p :
  tracks st pending ->
  Firmware.HOUR_INTERVAL <= current_time p - last_hourly_upload st ->
  loop_pass st p =
    (startup ops (reset_time p),
     [Realtime (payload_realtime p); History (means (pending ++ [sample_of p]))]).
Proof.
  intros T Hfire. unfold loop_pass.
  pose proof (float_accumulate_tracks st pending p T) as T'.
  change (last_hourly_upload (accumulate st p)) with (last_hourly_upload st).
  destruct (Z.leb_spec Firmware.HOUR_INTERVAL (current_time p - last_hourly_upload st));
    [|lia].
  destruct T' as (_ & _ & _ & _ & C).
  destruct (Z.ltb_spec 0 (sample_count (accumulate st p))) as [_ | Hc].
  - rewrite (float_payload_history_means _ _ (float_accumulate_tracks st pending p T)).
    reflexivity.
  - rewrite C, length_app in Hc. simpl in Hc. lia.
Qed.

Lemma float_loop_pass_keep (st : Accumulator ops) p :
  current_time p - last_hourly_upload st < Firmware.HOUR_INTERVAL ->
  loop_pass st p = (accumulate st p, [Realtime (payload_realtime p)]).
Proof.
  intros Hquiet. unfold loop_pass.
  change (last_hourly_upload (accumulate st p)) with (last_hourly_upload st).
  destruct (Z.leb_spec Firmware.HOUR_INTERVAL (current_time p - last_hourly_upload st));
    [lia | reflexivity].
Qed.

(** The history records of a run are the means, as the interpreter
    computes them, of consecutive, disjoint, non-empty groups of samples;
    the samples after the last group are the ones the sums still hold. *)
Lemma float_run_partition (its : list (Iteration ops)) : forall st pending,
  tracks st pending ->
  exists segs rest,
    pending ++ samples its = List.concat segs ++ rest /\
    Forall (fun seg => seg <> []) segs /\
    history_records (snd (run st its)) = map means segs /\
    tracks (fst (run st its)) rest.
Proof.
  induction its as [| it its IH]; intros st pending T.
  - exists [], pending. simpl. rewrite app_nil_r. split; [|split; [|split]]; auto.
  - destruct it as [p |].
    + simpl run. simpl samples.
      destruct (Z.le_gt_cases Firmware.HOUR_INTERVAL
                  (current_time p - last_hourly_upload st)) as [Hfire | Hquiet].
      * simpl iterate. rewrite (float_loop_pass_flush st pending p T Hfire).
        destruct (IH (startup ops (reset_time p)) [] (float_startup_tracks _))
          as (segs & rest & Hcat & Hne & Hrec & Htr).
        destruct (run (startup ops (reset_time p)) its) as [st2 ev2] eqn:R.
        exists ((pending ++ [sample_of p]) :: segs), rest. simpl in *.
        split; [|split; [|split]]; auto.
        -- rewrite <- !app_assoc, <- Hcat. reflexivity.
        -- constructor; [|exact Hne]. now destruct pending.
        -- now rewrite Hrec.
      * simpl iterate. rewrite (float_loop_pass_keep st p) by lia.
        destruct (IH _ _ (float_accumulate_tracks st pending p T))
          as (segs & rest & Hcat & Hne & Hrec & Htr).
        destruct (run (accumulate st p) its) as [st2 ev2] eqn:R.
        exists segs, rest. simpl in *.
        split; [|split; [|split]]; auto.
        rewrite <- Hcat, <- app_assoc. reflexivity.
    + simpl run. simpl samples. simpl iterate.
      destruct (IH st pending T) as (segs & rest & Hcat & Hne & Hrec & Htr).
      destruct (run st its) as [st2 ev2] eqn:R.
      exists segs, rest. simpl in *. split; [|split; [|split]]; auto.
Qed.

End FloatAccumulation.

(** C10 (as amended).  Whatever the float arithmetic [ops] of the
    interpreter, take any run of the main loop from start-up and a further
    pass on which the hourly check succeeds.  The history records uploaded
    so far are the means of consecutive non-empty groups [segs] of the
    samples; the samples [pending] read after the last of these groups,
    together with the sample of the present pass, are exactly the ones
    averaged in the record this pass uploads.  A mean is what the
    interpreter computes: the sum in order of arrival, one float division
    by the number of samples, then [int(...)] for [mq135] and [aqi] and
    [round(..., 2)] for [temperature] and [humidity].  Afterwards the four
    sums and the sample count are zero.  Every sample thus enters one
    record. *)
Theorem hourly_flush_means_and_reset (ops : Hourly.FloatOps) (now : Z)
    (its : list (Hourly.Iteration ops)) (p : Hourly.Pass ops) :
  let st := fst (Hourly.run (Hourly.startup ops now) its) in
  Firmware.HOUR_INTERVAL <= Hourly.current_time p - Hourly.last_hourly_upload st ->
  exists segs pending,
    Hourly.samples its = List.concat segs ++ pending /\
    Forall (fun seg => seg <> []) segs /\
    Hourly.history_records (snd (Hourly.run (Hourly.startup ops now) its))
      = map Hourly.means segs /\
    snd (Hourly.loop_pass st p)
      = [Hourly.Realtime (Hourly.payload_realtime p);
         Hourly.History (Hourly.means (pending ++ [Hourly.sample_of p]))] /\
    fst (Hourly.loop_pass st p)
      = {| Hourly.sum_mq135 := 0; Hourly.sum_temp := Hourly.of_int ops 0;
           Hourly.sum_hum := Hourly.of_int ops 0; Hourly.sum_aqi := 0;
           Hourly.sample_count := 0;
           Hourly.last_hourly_upload := Hourly.reset_time p |}.
Proof.
  intros st Hfire.
  destruct (float_run_partition ops its _ _ (float_startup_tracks ops now))
    as (segs & pending & Hcat & Hne & Hrec & Htr).
  exists segs, pending. fold st in Htr.
  rewrite (float_loop_pass_flush ops st pending p Htr Hfire).
  repeat split; auto.
Qed.

(** A run with an earlier flush: the pass at 3600 s uploads the first
    record, the pass at 7201 s the second one. *)
Lemma hourly_flush_means_and_reset_witness :
  exists segs pending,
    Hourly.samples Scenario.two_hours = List.concat segs ++ pending /\
    List.length segs = 1%nat /\
    Hourly.history_records
      (snd (Hourly.run (Hourly.startup (Hourly.ieee 53 false) 0) Scenario.two_hours))
      = map Hourly.means segs /\
    snd (Hourly.loop_pass
           (fst (Hourly.run (Hourly.startup (Hourly.ieee 53 false) 0) Scenario.two_hours))
           (Scenario.tenths_pass 53 false 166 7201))
      = [Hourly.Realtime (Hourly.payload_realtime (Scenario.tenths_pass 53 false 166 7201));
         Hourly.History
           (Hourly.means
              (pending ++ [Hourly.sample_of (Scenario.tenths_pass 53 false 166 7201)]))] /\
    Hourly.sample_count
      (fst (Hourly.loop_pass
              (fst (Hourly.run (Hourly.startup (Hourly.ieee 53 false) 0) Scenario.two_hours))
              (Scenario.tenths_pass 53 false 166 7201))) = 0.
Proof.
  assert (Hfire : Firmware.HOUR_INTERVAL
            <= Hourly.current_time (Scenario.tenths_pass 53 false 166 7201)
               - Hourly.last_hourly_upload
                   (fst (Hourly.run (Hourly.startup (Hourly.ieee 53 false) 0)
                           Scenario.two_hours)))
    by (vm_compute; discriminate).
  destruct (hourly_flush_means_and_reset (Hourly.ieee 53 false) 0 Scenario.two_hours
              (Scenario.tenths_pass 53 false 166 7201) Hfire)
    as (segs & pending & Hcat & Hne & Hrec & Hev & Hst).
  exists segs, pending.
  split; [exact Hcat|]. split.
  - apply (f_equal (@List.length _)) in Hrec. rewrite length_map in Hrec.
    rewrite <- Hrec. vm_compute. reflexivity.
  - split; [exact Hrec|]. split; [exact Hev|]. rewrite Hst. reflexivity.
Defined.

(** C10 as stated fails: the temperatures 15.4, 24.6, 24.1 and 16.6 have
    the arithmetic mean 20.175, which rounds to 20.18, and so does the
    exact mean of the four floats nearest to them; the one history record
    of the hour carries 20.17.  This holds in double precision with the
    [round] of CPython and in single precision with the [round] of
    MicroPython. *)
Lemma float_mean_counterexample :
  (py_round_n (((154 # 10) + (246 # 10) + (241 # 10) + (166 # 10)) / 4) 2 == 2018 # 100)%Q /\
  (exists uploaded,
     map Hourly.temperature
       (Hourly.history_records
          (snd (Hourly.run (Hourly.startup (Hourly.ieee 53 false) 0)
                  (Scenario.four_temperatures 53 false)))) = [uploaded] /\
     (py_round_n (Qsum (map Hourly.s_temp
                     (Hourly.samples (Scenario.four_temperatures 53 false))) / 4) 2
        == 2018 # 100)%Q /\
     (uploaded == Hourly.nearest 53 (2017 # 100))%Q /\
     ~ (uploaded == Hourly.nearest 53 (2018 # 100))%Q) /\
  (exists uploaded,
     map Hourly.temperature
       (Hourly.history_records
          (snd (Hourly.run (Hourly.startup (Hourly.ieee 24 true) 0)
                  (Scenario.four_temperatures 24 true)))) = [uploaded] /\
     (py_round_n (Qsum (map Hourly.s_temp
                     (Hourly.samples (Scenario.four_temperatures 24 true))) / 4) 2
        == 2018 # 100)%Q /\
     (uploaded == Hourly.nearest 24 (2017 # 100))%Q /\
     ~ (uploaded == Hourly.nearest 24 (2018 # 100))%Q).
Proof.
  split; [vm_compute; reflexivity|].
  split; eexists; (split; [vm_compute; reflexivity|]);
    (split; [vm_compute; reflexivity|]);
    (split; [vm_compute; reflexivity | vm_compute; discriminate]).
Qed.

(* ================================================================= *)
(** ** Rounding to one decimal *)

Lemma py_round_comp (x y : Q) : (x == y)%Q -> py_round x = py_round y.
Proof.
  intros E. unfold py_round.
  rewrite (Qfloor_comp _ _ E).
  assert (C : (x - inject_Z (Qfloor y) ?= 1 # 2)%Q = (y - inject_Z (Qfloor y) ?= 1 # 2)%Q)
    by (apply Qcompare_comp; [rewrite E|]; reflexivity).
  now rewrite C.
Qed.

Lemma py_round_inject_Z (n : Z) : py_round (inject_Z n) = n.
Proof.
  apply Z.le_antisymm.
  - apply py_round_upper. lra.
  - apply py_round_lower. lra.
Qed.


Lemma py_round_n_nonneg (x : Q) : (0 <= x)%Q -> (0 <= py_round_n x 1)%Q.
Proof.
  intros H. unfold py_round_n. change (inject_Z (10 ^ 1)) with 10%Q.
  apply Qle_shift_div_l; [lra|].
  assert (0 <= py_round (x * 10)) as L
    by (apply py_round_lower; change (inject_Z 0) with 0%Q; lra).
  rewrite Zle_Qle in L. exact L.
Qed.

Lemma py_round_n_fixed (x : Q) (n : Z) :
  (x == inject_Z n / 10)%Q -> (py_round_n x 1 == x)%Q.
Proof.
  intros E. unfold py_round_n. change (inject_Z (10 ^ 1)) with 10%Q.
  assert (E10 : (x * 10 == inject_Z n)%Q) by (rewrite E; field).
  rewrite (py_round_comp _ _ E10), py_round_inject_Z, E. reflexivity.
Qed.

(* ================================================================= *)
(** ** Feature vector and forecast *)

Section Forecast.

Import App.

Lemma iloc_back_some {A} (df : list A) (k : nat) :
  (1 <= k <= List.length df)%nat -> exists x, iloc_back df k = Some x.
Proof.
  intros H. unfold iloc_back.
  destruct (nth_error (rev df) (k - 1)) eqn:E; [eauto|].
  apply nth_error_None in E. rewrite length_rev in E. lia.
Qed.

Lemma iloc_aqi_some df (k : nat) :
  (1 <= k <= List.length df)%nat -> exists v, iloc_aqi df k = Some v.
Proof.
  intros H. unfold iloc_aqi.
  destruct (iloc_back_some df k H) as [x ->]. simpl. eauto.
Qed.

(** The feature code raises no IndexError on a non-empty frame. *)
Lemma build_features_some df :
  (1 <= List.length df)%nat -> exists f, build_features df = Some f.
Proof.
  intros H. unfold build_features.
  destruct (iloc_aqi_some df 1) as [l1 ->]; [lia|].
  destruct (Nat.ltb_spec 1 (List.length df)).
  1: destruct (iloc_aqi_some df 2) as [l2 ->]; [lia|].
  all: destruct (Nat.ltb_spec 2 (List.length df)).
  1, 3: destruct (iloc_aqi_some df 3) as [l3 ->]; [lia|].
  all: destruct (Nat.ltb_spec 5 (List.length df)).
  1, 3, 5, 7: destruct (iloc_aqi_some df 6) as [l6 ->]; [lia|].
  all: eauto.
Qed.

(** With the ensemble loaded, rows in hand and at least four grid points,
    the page shows the forecast computed from the last grid row. *)
Lemma show_future_accepted model_suite realtime_data sensor_data :
  let df_10min := condition (get_combined_data realtime_data sensor_data) in
  get_combined_data realtime_data sensor_data <> [] ->
  4 <= len df_10min ->
  exists last_known f,
    iloc_back df_10min 1 = Some last_known /\
    build_features df_10min = Some f /\
    show_future (Loaded model_suite) realtime_data sensor_data
      = Returns (Forecast_table
          (forecast model_suite (fst last_known) (float_cell (snd last_known)) f)).
Proof.
  intros df Hrows Hlen. unfold len in Hlen.
  destruct (iloc_back_some df 1) as [last_known Hl]; [lia|].
  destruct (build_features_some df) as [f Hf]; [lia|].
  exists last_known, f. repeat split; auto.
  unfold show_future.
  destruct (get_combined_data realtime_data sensor_data) as [| r rows] eqn:R;
    [congruence|].
  fold df. unfold len.
  destruct (Z.ltb_spec (Z.of_nat (List.length df)) 4); [lia|].
  now rewrite Hl, Hf.
Qed.


Lemma predict_step_nonneg model_suite last_time f bias step :
  (0 <= Forecast_AQI (predict_step model_suite last_time f bias step))%Q.
Proof.
  unfold predict_step; cbn [Forecast_AQI].
  apply py_round_n_nonneg.
  destruct (Qcompare _ 0) eqn:C; try lra.
  - apply Qeq_alt in C. lra.
  - apply Qgt_alt in C. lra.
Qed.

End Forecast.





(* ================================================================= *)
(** ** The forecast table *)

(** *** The forecast on what the artifact answers *)

(** The value shown for a corrected prediction [c]. *)
Lemma clamp_cases (c : Page.PyFloat) :
  let shown := Page.float_round (if Page.float_lt_0 c then Page.Finite 0 else c) 1 in
  (Page.float_lt_0 c = true -> exists v, shown = Page.Finite v /\ (v == 0)%Q) /\
  (Page.float_lt_0 c = false -> shown = Page.float_round c 1) /\
  (c = Page.NaN -> shown = Page.NaN) /\
  (c <> Page.NaN -> Page.float_ge_0 shown = true).
Proof.
  destruct c as [q | | |]; cbn.
  - destruct (q ?= 0)%Q eqn:C; cbn.
    + split; [discriminate|]. split; [reflexivity|]. split; [discriminate|].
      intros _. apply Qle_bool_iff, py_round_n_nonneg. apply Qeq_alt in C. lra.
    + split; [|split; [discriminate | split; [discriminate|]]].
      * intros _. eexists. split; [reflexivity | vm_compute; reflexivity].
      * intros _. vm_compute. reflexivity.
    + split; [discriminate|]. split; [reflexivity|]. split; [discriminate|].
      intros _. apply Qle_bool_iff, py_round_n_nonneg. apply Qgt_alt in C. lra.
  - split; [discriminate|]. split; [reflexivity|]. split; [discriminate|]. reflexivity.
  - split; [|split; [discriminate | split; [discriminate|]]].
    + intros _. eexists. split; [reflexivity | vm_compute; reflexivity].
    + intros _. vm_compute. reflexivity.
  - split; [discriminate|]. split; [reflexivity|]. split; [reflexivity|]. congruence.
Qed.

Lemma float_add_finite (a b : Q) (x y : Page.PyFloat) :
  x = Page.Finite a -> y = Page.Finite b -> forall c,
  Page.float_add x (Page.float_sub (Page.Finite c) y) <> Page.NaN.
Proof. intros -> -> c. discriminate. Qed.

(** A step that appended a row found its regressor and got an answer. *)
Lemma predict_step_inv (model_suite : Page.Artifact) (last_time : App.Timestamp)
    (f : App.InputFeatures) (bias_offset : Page.PyFloat) (step : Z)
    (p : Page.ForecastPoint) :
  Page.predict_step model_suite last_time f bias_offset step = inr p ->
  exists raw_pred,
    Page.raw_pred model_suite step
      (App.feature_row (last_time + App.timedelta 0 (10 * step)) f) = inr raw_pred /\
    Page.Time p = App.strftime_HM (last_time + App.timedelta 0 (10 * step)) /\
    Page.Forecast_AQI p
      = Page.float_round
          (if Page.float_lt_0 (Page.float_add raw_pred bias_offset) then Page.Finite 0
           else Page.float_add raw_pred bias_offset) 1.
Proof.
  unfold Page.predict_step.
  destruct (Page.raw_pred _ _ _) as [e | raw_pred]; [discriminate|].
  intros [= <-]. exists raw_pred. repeat split.
Qed.

Lemma predict_steps_inv (model_suite : Page.Artifact) (last_time : App.Timestamp)
    (f : App.InputFeatures) (bias_offset : Page.PyFloat) (steps : list Z) :
  forall preds,
  Page.predict_steps model_suite last_time f bias_offset steps = inr preds ->
  Forall2 (fun step p =>
             Page.predict_step model_suite last_time f bias_offset step = inr p)
          steps preds.
Proof.
  induction steps as [| step rest IH]; intros preds; cbn [Page.predict_steps].
  - intros [= <-]. constructor.
  - destruct (Page.predict_step _ _ _ _ step) as [e | p] eqn:E; [discriminate|].
    destruct (Page.predict_steps _ _ _ _ rest) as [e | ps]; [discriminate|].
    intros [= <-]. constructor; [exact E | apply IH; reflexivity].
Qed.

(** A forecast table comes from the last grid row, after the regressor of
    step 1 answered and each of the six steps appended its row. *)
Lemma forecast_table_inv (model_suite : Page.Artifact)
    (realtime_data sensor_data : Page.query) (preds : list Page.ForecastPoint) :
  Page.show_future (Page.Loaded model_suite) realtime_data sensor_data
    = Page.Returns (Page.Forecast_table preds) ->
  let df_10min := App.condition (map Page.frame_row
                    (Page.get_combined_data realtime_data sensor_data)) in
  exists last_known f raw_pred_t1,
    App.iloc_back df_10min 1 = Some last_known /\
    App.build_features df_10min = Some f /\
    Page.raw_pred model_suite 1
      (App.feature_row (fst last_known + App.timedelta 0 10) f) = inr raw_pred_t1 /\
    Forall2 (fun step p =>
               Page.predict_step model_suite (fst last_known) f
                 (Page.float_sub (Page.Finite (App.float_cell (snd last_known)))
                    raw_pred_t1) step = inr p)
            [1; 2; 3; 4; 5; 6] preds.
Proof.
  intros H. cbv zeta. unfold Page.show_future in H.
  destruct (Page.get_combined_data realtime_data sensor_data) as [| r rows];
    [discriminate|].
  destruct (negb _); [discriminate|].
  cbv zeta in H. set (df := App.condition _) in *.
  destruct (App.len df <? 4); [discriminate|].
  destruct (App.iloc_back df 1) as [last_known |]; [|discriminate].
  destruct (App.build_features df) as [f |]; [|discriminate].
  destruct (Page.forecast _ _ _ _) as [e | ps] eqn:E; [discriminate|].
  injection H as <-.
  unfold Page.forecast in E.
  destruct (Page.raw_pred model_suite 1 _) as [e | raw_pred_t1] eqn:R; [discriminate|].
  exists last_known, f, raw_pred_t1. repeat split; auto.
  apply predict_steps_inv, E.
Qed.

Lemma Forall2_impl_right {A B} (P Q : A -> B -> Prop) (l : list A) (l' : list B) :
  (forall a b, P a b -> Q a b) -> Forall2 P l l' -> Forall2 Q l l'.
Proof. intros H. induction 1; constructor; auto. Qed.

Lemma Forall2_right {A B} (P : B -> Prop) (l : list A) (l' : list B) :
  Forall2 (fun _ b => P b) l l' -> Forall P l'.
Proof. induction 1; constructor; auto. Qed.

(** *** Well-formed inputs: the two embeddings of [show_future] agree *)

Lemma predict_step_refines (model_suite : App.ModelSuite) (last_time : App.Timestamp)
    (f : App.InputFeatures) (bias_offset : Q) (step : Z) :
  Page.predict_step (Page.total_suite model_suite) last_time f
    (Page.Finite bias_offset) step
  = inr (Page.of_point (App.predict_step model_suite last_time f bias_offset step)).
Proof.
  unfold Page.predict_step, App.predict_step, Page.raw_pred, Page.total_suite,
    Page.of_point. cbn.
  destruct (_ ?= 0)%Q; reflexivity.
Qed.

Lemma forecast_refines (model_suite : App.ModelSuite) (last_time : App.Timestamp)
    (current_aqi_real : Q) (f : App.InputFeatures) :
  Page.forecast (Page.total_suite model_suite) last_time current_aqi_real f
  = inr (map Page.of_point (App.forecast model_suite last_time current_aqi_real f)).
Proof.
  unfold Page.forecast, App.forecast. cbn [Page.raw_pred Page.total_suite].
  cbn [Page.float_sub Page.float_neg Page.float_add].
  cbn [Page.predict_steps map]. rewrite !predict_step_refines. reflexivity.
Qed.

Lemma get_combined_data_refines (realtime_data sensor_data : App.query) :
  Page.get_combined_data (Page.of_query realtime_data) (Page.of_query sensor_data)
  = map Page.of_row (App.get_combined_data realtime_data sensor_data).
Proof.
  destruct realtime_data as [live |]; [|reflexivity].
  cbn [Page.of_query option_map Page.get_combined_data App.get_combined_data].
  rewrite length_map.
  destruct (_ <? 1000); [|reflexivity].
  destruct sensor_data as [hist |]; [|reflexivity].
  cbn [option_map]. now rewrite map_app.
Qed.

Lemma frame_row_of_row (rows : list App.Row) :
  map Page.frame_row (map Page.of_row rows) = rows.
Proof.
  rewrite map_map. rewrite <- (map_id rows) at 2.
  apply map_ext. intros [t a]. reflexivity.
Qed.

(** On a loaded dictionary of six regressors with finite answers and on
    tables with an [aqi] column, [Page.show_future] is [App.show_future]. *)
Lemma show_future_refines (load : App.load_result)
    (realtime_data sensor_data : App.query) :
  Page.show_future (Page.of_load load) (Page.of_query realtime_data)
    (Page.of_query sensor_data)
  = Page.of_outcome (App.show_future load realtime_data sensor_data).
Proof.
  destruct load as [model_suite | e]; [|destruct e; reflexivity].
  unfold Page.show_future, App.show_future, Page.of_load.
  rewrite get_combined_data_refines.
  destruct (App.get_combined_data realtime_data sensor_data) as [| r rows];
    [reflexivity|].
  cbn [map].
  change (Page.has_aqi_column (Page.of_row r :: map Page.of_row rows)) with true.
  cbn [negb].
  assert (E : Page.frame_row (Page.of_row r)
                :: map Page.frame_row (map Page.of_row rows) = r :: rows)
    by apply (frame_row_of_row (r :: rows)).
  rewrite E. cbv zeta.
  destruct (App.len _ <? 4); [reflexivity|].
  destruct (App.iloc_back _ 1) as [last_known |]; [|reflexivity].
  destruct (App.build_features _) as [f |]; [|reflexivity].
  rewrite forecast_refines. reflexivity.
Qed.

(* ================================================================= *)
(** ** The forecast table *)

(** C2 (as amended).  Whatever the artifact and the tables hold, a forecast
    table shown by [show_future] has six rows, one per step in step order.
    The row of a step shows the regressor's answer plus the anchoring
    offset: 0 when that corrected value is below 0 (minus infinity
    included), and otherwise the corrected value rounded to one decimal.
    The value shown is therefore [>= 0] unless the corrected value is NaN,
    which is not below 0 and is shown as NaN; it is [>= 0] whenever the
    regressors of the step and of step 1 answer finite numbers. *)
Theorem forecast_aqi_clamped (model_suite : Page.Artifact)
    (realtime_data sensor_data : Page.query) (preds : list Page.ForecastPoint) :
  Page.show_future (Page.Loaded model_suite) realtime_data sensor_data
    = Page.Returns (Page.Forecast_table preds) ->
  let df_10min := App.condition (map Page.frame_row
                    (Page.get_combined_data realtime_data sensor_data)) in
  exists last_known f raw_pred_t1,
    App.iloc_back df_10min 1 = Some last_known /\
    App.build_features df_10min = Some f /\
    Page.raw_pred model_suite 1
      (App.feature_row (fst last_known + App.timedelta 0 10) f) = inr raw_pred_t1 /\
    Forall2 (fun step p =>
      exists raw_pred,
        Page.raw_pred model_suite step
          (App.feature_row (fst last_known + App.timedelta 0 (10 * step)) f)
          = inr raw_pred /\
        let bias_offset :=
          Page.float_sub (Page.Finite (App.float_cell (snd last_known))) raw_pred_t1 in
        let corrected_pred := Page.float_add raw_pred bias_offset in
        (Page.float_lt_0 corrected_pred = true ->
           exists v, Page.Forecast_AQI p = Page.Finite v /\ (v == 0)%Q) /\
        (Page.float_lt_0 corrected_pred = false ->
           Page.Forecast_AQI p = Page.float_round corrected_pred 1) /\
        (corrected_pred = Page.NaN -> Page.Forecast_AQI p = Page.NaN) /\
        (corrected_pred <> Page.NaN -> Page.float_ge_0 (Page.Forecast_AQI p) = true) /\
        (forall a b, raw_pred = Page.Finite a -> raw_pred_t1 = Page.Finite b ->
           Page.float_ge_0 (Page.Forecast_AQI p) = true))
      [1; 2; 3; 4; 5; 6] preds.
Proof.
  intros H df.
  destruct (forecast_table_inv model_suite realtime_data sensor_data preds H)
    as (last_known & f & raw_pred_t1 & Hl & Hf & H1 & Hsteps).
  exists last_known, f, raw_pred_t1. repeat split; auto.
  eapply Forall2_impl_right; [|exact Hsteps].
  intros step p Hp. cbv beta in Hp.
  apply predict_step_inv in Hp as (raw_pred & Hraw & _ & Hshown).
  exists raw_pred. split; [exact Hraw|]. cbv zeta. rewrite Hshown.
  destruct (clamp_cases (Page.float_add raw_pred
              (Page.float_sub (Page.Finite (App.float_cell (snd last_known)))
                 raw_pred_t1))) as (C1 & C2 & C3 & C4).
  split; [exact C1|]. split; [exact C2|]. split; [exact C3|]. split; [exact C4|].
  intros a b Ha Hb. apply C4. apply (float_add_finite a b); assumption.
Qed.

(** The regressors of [Scenario.falling] answer 40.25 at step 1 and 100
    less at each later step: the first row shows 40.2 and the corrected
    values of the other five, all negative, are shown as 0. *)
Lemma forecast_aqi_clamped_witness :
  exists preds,
    Page.show_future (Page.Loaded Scenario.falling)
      (Scenario.stored Scenario.quarter_tail) (Some [])
      = Page.Returns (Page.Forecast_table preds) /\
    Forall2 (fun shown p => exists v, Page.Forecast_AQI p = Page.Finite v /\ (v == shown)%Q)
      [402 # 10; 0; 0; 0; 0; 0]%Q preds /\
    Forall (fun p => Page.float_ge_0 (Page.Forecast_AQI p) = true) preds.
Proof.
  eexists. split; [vm_compute; reflexivity|]. split.
  - repeat (constructor; [eexists; split; [reflexivity | vm_compute; reflexivity]|]).
    constructor.
  - match goal with
    | |- Forall _ ?l =>
        destruct (forecast_aqi_clamped Scenario.falling
                    (Scenario.stored Scenario.quarter_tail) (Some []) l)
          as (last_known & f & raw_pred_t1 & _ & _ & H1 & Hsteps);
          [vm_compute; reflexivity|]
    end.
    apply (Forall2_right _ [1; 2; 3; 4; 5; 6]).
    eapply Forall2_impl_right; [|exact Hsteps].
    intros step p Hp. cbv beta zeta in Hp.
    destruct Hp as (raw_pred & Hraw & _ & _ & _ & _ & Hfin).
    unfold Page.raw_pred, Scenario.falling in Hraw, H1.
    injection Hraw as <-. injection H1 as <-.
    eapply Hfin; reflexivity.
Defined.

(** C2 as stated fails: when the regressor of step 3 answers NaN, the
    corrected value is NaN, [NaN < 0] is False, and the third of the six
    rows shows NaN, which is not [>= 0]. *)
Lemma nan_forecast_counterexample :
  exists preds p,
    Page.show_future (Page.Loaded Scenario.nan_at_3)
      (Scenario.stored Scenario.quarter_tail) (Some [])
      = Page.Returns (Page.Forecast_table preds) /\
    List.length preds = 6%nat /\
    nth_error preds 2 = Some p /\
    Page.Forecast_AQI p = Page.NaN /\
    Page.float_ge_0 (Page.Forecast_AQI p) = false.
Proof.
  do 2 eexists. split; [vm_compute; reflexivity|].
  split; [reflexivity|]. split; [reflexivity|]. split; reflexivity.
Qed.



(* ================================================================= *)
(** ** Anchoring of the first forecast row *)

Lemma py_round_n_comp (x y : Q) (d : Z) :
  (x == y)%Q -> (py_round_n x d == py_round_n y d)%Q.
Proof.
  intros E. unfold py_round_n.
  assert (E' : (x * inject_Z (10 ^ d) == y * inject_Z (10 ^ d))%Q) by now rewrite E.
  now rewrite (py_round_comp _ _ E').
Qed.

(** In exact arithmetic the step-1 row is the last real value, floored at 0
    and rounded to one decimal. *)
Lemma predict_step_first (model_suite : App.ModelSuite) (last_time : App.Timestamp)
    (f : App.InputFeatures) (current : Q) :
  let bias_offset := (current - App.raw_pred_t1 model_suite last_time f)%Q in
  let p := App.predict_step model_suite last_time f bias_offset 1 in
  ((0 <= current)%Q -> (App.Forecast_AQI p == py_round_n current 1)%Q) /\
  ((current < 0)%Q -> (App.Forecast_AQI p == 0)%Q).
Proof.
  intros bias_offset p. unfold p, App.predict_step; cbn [App.Forecast_AQI].
  change (10 * 1) with 10. fold (App.raw_pred_t1 model_suite last_time f).
  set (raw := App.raw_pred_t1 model_suite last_time f) in *.
  assert (E : (raw + bias_offset == current)%Q) by (unfold bias_offset; ring).
  rewrite (Qcompare_comp _ _ E 0%Q 0%Q (Qeq_refl 0%Q)).
  split; intros H.
  - destruct (Qcompare current 0) eqn:C.
    + apply py_round_n_comp, E.
    + apply Qlt_alt in C. lra.
    + apply py_round_n_comp, E.
  - destruct (Qcompare current 0) eqn:C.
    + apply Qeq_alt in C. lra.
    + reflexivity.
    + apply Qgt_alt in C. lra.
Qed.

(** C1 (as amended).  For an accepted input whose step-1 regressor answers
    the last real AQI, the first forecast row is that AQI floored at 0 and
    rounded to one decimal; it is the AQI itself when the AQI is
    non-negative and a whole number of tenths. *)
Theorem anchored_first_point (model_suite : App.ModelSuite)
    (realtime_data sensor_data : App.query)
    (last_known : App.Timestamp * option Q) (f : App.InputFeatures) :
  let df_10min := App.condition (App.get_combined_data realtime_data sensor_data) in
  let current_aqi_real := App.float_cell (snd last_known) in
  App.get_combined_data realtime_data sensor_data <> [] ->
  4 <= App.len df_10min ->
  App.iloc_back df_10min 1 = Some last_known ->
  App.build_features df_10min = Some f ->
  (App.raw_pred_t1 model_suite (fst last_known) f == current_aqi_real)%Q ->
  exists p rest,
    App.show_future (App.Loaded model_suite) realtime_data sensor_data
      = App.Returns (App.Forecast_table (p :: rest)) /\
    ((0 <= current_aqi_real)%Q ->
       (App.Forecast_AQI p == py_round_n current_aqi_real 1)%Q) /\
    ((current_aqi_real < 0)%Q -> (App.Forecast_AQI p == 0)%Q) /\
    ((0 <= current_aqi_real)%Q ->
       forall n : Z, (current_aqi_real == inject_Z n / 10)%Q ->
       (App.Forecast_AQI p == current_aqi_real)%Q).
Proof.
  intros df current Hrows Hlen Hl Hf Hraw.
  destruct (show_future_accepted model_suite realtime_data sensor_data Hrows Hlen)
    as (last_known' & f' & Hl' & Hf' & Hshow).
  fold df in Hl', Hf'. rewrite Hl in Hl'. rewrite Hf in Hf'.
  injection Hl' as <-. injection Hf' as <-.
  unfold App.forecast in Hshow. cbn [map] in Hshow.
  eexists. eexists. split; [exact Hshow|].
  destruct (predict_step_first model_suite (fst last_known) f current) as [Hpos Hneg].
  split; [exact Hpos|]. split; [exact Hneg|].
  intros H0 n Hn.
  eapply Qeq_trans; [apply (Hpos H0) | apply (py_round_n_fixed _ n Hn)].
Qed.

Lemma anchored_first_point_witness :
  exists p rest,
    App.show_future (App.Loaded Scenario.persistence)
      (Some Scenario.quarter_tail) (Some [])
      = App.Returns (App.Forecast_table (p :: rest)) /\
    (App.Forecast_AQI p == py_round_n (161 # 4) 1)%Q.
Proof.
  destruct (anchored_first_point Scenario.persistence
              (Some Scenario.quarter_tail) (Some [])
              (Scenario.at_clock 10 30, Some (161 # 4)%Q)
              {| App.aqi_lag_1 := 161 # 4; App.aqi_lag_2 := 40;
                 App.aqi_lag_3 := 39; App.aqi_lag_6 := 39;
                 App.rolling_mean := (477 # 4) / 3 |})
    as (p & rest & Hshow & Hpos & _).
  - discriminate.
  - vm_compute. discriminate.
  - vm_compute. reflexivity.
  - vm_compute. reflexivity.
  - reflexivity.
  - exists p, rest. split; [exact Hshow|]. apply Hpos. vm_compute. discriminate.
Defined.

(** C1 as stated fails: with an average of 40.25 in the last bin and a
    step-1 regressor answering exactly 40.25, the first row shows 40.2. *)
Lemma anchoring_not_exact_counterexample :
  exists last_known f p rest,
    4 <= App.len (App.condition Scenario.quarter_tail) /\
    App.iloc_back (App.condition Scenario.quarter_tail) 1 = Some last_known /\
    App.build_features (App.condition Scenario.quarter_tail) = Some f /\
    (App.raw_pred_t1 Scenario.persistence (fst last_known) f
       == App.float_cell (snd last_known))%Q /\
    App.show_future (App.Loaded Scenario.persistence)
      (Some Scenario.quarter_tail) (Some [])
      = App.Returns (App.Forecast_table (p :: rest)) /\
    (App.float_cell (snd last_known) == 4025 # 100)%Q /\
    (App.Forecast_AQI p == 402 # 10)%Q /\
    ~ (App.Forecast_AQI p == App.float_cell (snd last_known))%Q.
Proof.
  do 4 eexists.
  split; [vm_compute; discriminate|].
  split; [vm_compute; reflexivity|].
  split; [vm_compute; reflexivity|].
  split; [reflexivity|].
  split; [vm_compute; reflexivity|].
  split; [reflexivity|].
  split; [reflexivity|].
  vm_compute. discriminate.
Qed.

(* ================================================================= *)
(** ** Cold start *)

(** The page shown when fewer than four grid points are available. *)
Lemma show_future_short (model_suite : App.ModelSuite)
    (realtime_data sensor_data : App.query) :
  let df_10min := App.condition (App.get_combined_data realtime_data sensor_data) in
  App.get_combined_data realtime_data sensor_data <> [] ->
  App.len df_10min < 4 ->
  App.show_future (App.Loaded model_suite) realtime_data sensor_data
    = App.Returns (App.Warning_cold_start (40 - App.len df_10min * 10)).
Proof.
  intros df Hrows Hlen. unfold App.show_future.
  destruct (App.get_combined_data realtime_data sensor_data) eqn:R; [congruence|].
  fold df. destruct (Z.ltb_spec (App.len df) 4); [reflexivity | lia].
Qed.

(** C4.  When the ensemble is loaded, rows came back and the resampled
    grid has fewer than four points, the page shows the cold-start warning
    instead of a forecast, with a wait of [(4 - points) * 10] minutes; with
    exactly three points the wait is 10 minutes. *)
Theorem cold_start_wait_hint (model_suite : App.ModelSuite)
    (realtime_data sensor_data : App.query) :
  let df_10min := App.condition (App.get_combined_data realtime_data sensor_data) in
  App.get_combined_data realtime_data sensor_data <> [] ->
  App.len df_10min < 4 ->
  App.show_future (App.Loaded model_suite) realtime_data sensor_data
    = App.Returns (App.Warning_cold_start ((4 - App.len df_10min) * 10)) /\
  (App.len df_10min = 3 ->
   App.show_future (App.Loaded model_suite) realtime_data sensor_data
     = App.Returns (App.Warning_cold_start 10)).
Proof.
  intros df Hrows Hlen.
  rewrite (show_future_short model_suite realtime_data sensor_data Hrows Hlen).
  fold df. split.
  - do 2 f_equal. lia.
  - intros ->. reflexivity.
Qed.

Lemma cold_start_wait_hint_witness :
  App.len (App.condition Scenario.three_points) = 3 /\
  App.show_future (App.Loaded Scenario.persistence) (Some Scenario.three_points) (Some [])
    = App.Returns (App.Warning_cold_start 10).
Proof.
  assert (Hrows : App.get_combined_data (Some Scenario.three_points) (Some []) <> [])
    by discriminate.
  assert (Hlen : App.len (App.condition
            (App.get_combined_data (Some Scenario.three_points) (Some []))) < 4)
    by (vm_compute; reflexivity).
  split; [vm_compute; reflexivity|].
  apply (cold_start_wait_hint Scenario.persistence _ _ Hrows Hlen).
  vm_compute; reflexivity.
Defined.

(* ================================================================= *)
(** ** Failures of the collaborators *)

Lemma In_insert_row (x r : App.Row) (l : list App.Row) :
  In x (App.insert_row r l) <-> x = r \/ In x l.
Proof.
  induction l as [| h t IH]; simpl.
  - intuition.
  - destruct (App.time_leb _ _); simpl; [intuition | rewrite IH; intuition].
Qed.

Lemma In_sort_values (x : App.Row) (l : list App.Row) :
  In x (App.sort_values l) <-> In x l.
Proof.
  induction l as [| h t IH]; simpl; [tauto|].
  rewrite In_insert_row, IH. intuition.
Qed.

(** Rows that all miss their timestamp or their AQI leave nothing to
    resample. *)
Lemma condition_unreadable (rows : list App.Row) :
  (forall r, In r rows -> App.row_time r = None \/ App.row_aqi r = None) ->
  App.condition rows = [].
Proof.
  intros H. unfold App.condition, App.clean.
  assert (E : App.dropna (App.sort_values rows) = []).
  { unfold App.dropna.
    assert (Hs : forall r, In r (App.sort_values rows) ->
              App.row_time r = None \/ App.row_aqi r = None)
      by (intros r Hr; apply H, In_sort_values, Hr).
    induction (App.sort_values rows) as [| r l IH]; [reflexivity|].
    simpl. rewrite IH by (intros; apply Hs; now right).
    destruct (Hs r (or_introl eq_refl)) as [-> | ->];
      [| destruct (App.row_time r)]; reflexivity. }
  rewrite E. reflexivity.
Qed.

(** The cold-start page, whatever object [joblib.load] returned: the
    artifact is not touched before the forecast. *)
Lemma page_show_future_short (model_suite : Page.Artifact)
    (realtime_data sensor_data : Page.query) :
  let rows := Page.get_combined_data realtime_data sensor_data in
  let df_10min := App.condition (map Page.frame_row rows) in
  rows <> [] ->
  Page.has_aqi_column rows = true ->
  App.len df_10min < 4 ->
  Page.show_future (Page.Loaded model_suite) realtime_data sensor_data
    = Page.Returns (Page.Warning_cold_start (40 - App.len df_10min * 10)).
Proof.
  cbv zeta. intros Hrows Hcol Hlen. unfold Page.show_future.
  destruct (Page.get_combined_data realtime_data sensor_data) as [| r rows];
    [congruence|].
  rewrite Hcol. cbn [negb].
  destruct (Z.ltb_spec (App.len (App.condition (map Page.frame_row (r :: rows)))) 4);
    [reflexivity | lia].
Qed.

(** C7 (as amended).  A missing ensemble file gives the "model not found"
    page, whatever the tables hold; any other exception of [joblib.load]
    leaves [show_future]; whatever [joblib.load] raises, no forecast table
    is shown.  Whatever object was loaded, an empty or failing table query
    gives the "collecting data" page, and rows of a frame with an [aqi]
    column that all fail coercion give the cold-start page with a wait of
    40 minutes.  No partial forecast is shown: a forecast table has six
    rows, and each of the six regressors was found in the artifact and gave
    an answer. *)
Theorem failures_give_a_page (realtime_data sensor_data : Page.query) :
  Page.show_future (Page.LoadRaises App.FileNotFoundError) realtime_data sensor_data
    = Page.Returns Page.Error_model_not_found /\
  (forall e, e <> App.FileNotFoundError ->
     Page.show_future (Page.LoadRaises e) realtime_data sensor_data = Page.Raises e) /\
  (forall e preds,
     Page.show_future (Page.LoadRaises e) realtime_data sensor_data
       <> Page.Returns (Page.Forecast_table preds)) /\
  (forall model_suite,
     Page.get_combined_data realtime_data sensor_data = [] ->
     Page.show_future (Page.Loaded model_suite) realtime_data sensor_data
       = Page.Returns Page.Warning_collecting_data) /\
  (forall model_suite,
     Page.get_combined_data realtime_data sensor_data <> [] ->
     Page.has_aqi_column (Page.get_combined_data realtime_data sensor_data) = true ->
     (forall r, In r (Page.get_combined_data realtime_data sensor_data) ->
        Page.time_cell r = None \/ App.row_aqi (Page.frame_row r) = None) ->
     Page.show_future (Page.Loaded model_suite) realtime_data sensor_data
       = Page.Returns (Page.Warning_cold_start 40)) /\
  (forall model_suite preds,
     Page.show_future (Page.Loaded model_suite) realtime_data sensor_data
       = Page.Returns (Page.Forecast_table preds) ->
     List.length preds = 6%nat /\
     Forall (fun step => exists model frame v,
               model_suite step = Page.Found model /\ model frame = Page.Answers v)
            [1; 2; 3; 4; 5; 6]).
Proof.
  split; [reflexivity|]. split; [|split; [|split; [|split]]].
  - intros [] He; congruence || reflexivity.
  - intros [] preds; discriminate.
  - intros model_suite E. unfold Page.show_future. now rewrite E.
  - intros model_suite Hrows Hcol Hbad.
    assert (E : App.condition (map Page.frame_row
                  (Page.get_combined_data realtime_data sensor_data)) = []).
    { apply condition_unreadable. intros r Hr.
      apply in_map_iff in Hr as (r0 & <- & Hr0).
      destruct (Hbad r0 Hr0) as [Ht | Ha]; [left; exact Ht | right; exact Ha]. }
    rewrite (page_show_future_short model_suite realtime_data sensor_data Hrows Hcol);
      rewrite E; reflexivity.
  - intros model_suite preds H.
    destruct (forecast_table_inv model_suite realtime_data sensor_data preds H)
      as (last_known & f & raw_pred_t1 & _ & _ & _ & Hsteps).
    split; [symmetry; apply (Forall2_length Hsteps)|].
    assert (Hfound : Forall2 (fun step (_ : Page.ForecastPoint) =>
              exists model frame v,
                model_suite step = Page.Found model /\ model frame = Page.Answers v)
              [1; 2; 3; 4; 5; 6] preds).
    { eapply Forall2_impl_right; [|exact Hsteps].
      intros step p Hp. cbv beta in Hp.
      apply predict_step_inv in Hp as (raw_pred & Hraw & _).
      unfold Page.raw_pred in Hraw.
      destruct (model_suite step) as [model | e]; [|discriminate].
      destruct (model _) as [v | e] eqn:Ev; [|discriminate].
      eauto. }
    clear - Hfound. induction Hfound; constructor; auto.
Qed.

Lemma failures_give_a_page_witness :
  Page.show_future (Page.Loaded Scenario.lacks_3) None
      (Scenario.stored Scenario.three_points)
    = Page.Returns Page.Warning_collecting_data /\
  Page.show_future (Page.Loaded Scenario.lacks_3) (Some Scenario.unreadable_records)
      (Some [])
    = Page.Returns (Page.Warning_cold_start 40) /\
  (exists preds,
     Page.show_future (Page.Loaded Scenario.falling)
       (Scenario.stored Scenario.quarter_tail) (Some [])
       = Page.Returns (Page.Forecast_table preds) /\
     List.length preds = 6%nat).
Proof.
  split; [|split].
  - apply (failures_give_a_page None (Scenario.stored Scenario.three_points)).
    reflexivity.
  - apply (failures_give_a_page (Some Scenario.unreadable_records) (Some [])).
    + discriminate.
    + reflexivity.
    + intros r [<- | [<- | []]]; [left | right]; reflexivity.
  - eexists. split; [vm_compute; reflexivity|].
    destruct (failures_give_a_page (Scenario.stored Scenario.quarter_tail) (Some []))
      as (_ & _ & _ & _ & _ & Hall).
    eapply proj1, (Hall Scenario.falling). vm_compute. reflexivity.
Defined.

(** C7 as stated fails.  An ensemble file that exists but cannot be
    unpickled makes [joblib.load] raise an exception that the
    [except FileNotFoundError] clause does not catch: it leaves
    [show_future].  So does the KeyError of a loaded dictionary that lacks
    the regressor of step 3, and the KeyError of [dropna] on rows that have
    no [aqi] key. *)
Lemma corrupt_model_counterexample :
  (Page.show_future (Page.LoadRaises (App.OtherError "UnpicklingError"))
     (Scenario.stored Scenario.quarter_tail) (Some [])
     = Page.Raises (App.OtherError "UnpicklingError") /\
   forall page,
     Page.show_future (Page.LoadRaises (App.OtherError "UnpicklingError"))
       (Scenario.stored Scenario.quarter_tail) (Some []) <> Page.Returns page) /\
  Page.show_future (Page.Loaded Scenario.lacks_3)
    (Scenario.stored Scenario.quarter_tail) (Some [])
    = Page.Raises Page.KeyError /\
  Page.show_future (Page.Loaded Scenario.falling) (Some Scenario.no_aqi_key) (Some [])
    = Page.Raises Page.KeyError.
Proof.
  split; [split; [reflexivity | discriminate]|].
  split; vm_compute; reflexivity.
Qed.

(* ================================================================= *)
(** ** The ten-minute grid *)

Section Grid.

Import App.

Lemma ten_minutes_pos : 0 < timedelta 0 10.
Proof. reflexivity. Qed.

Lemma bin_label_le (t : Timestamp) : bin_label t <= t.
Proof. unfold bin_label. apply Z.mul_div_le, ten_minutes_pos. Qed.

Lemma bin_label_gt (t : Timestamp) : t - timedelta 0 10 < bin_label t.
Proof.
  unfold bin_label.
  pose proof (Z.mul_succ_div_gt t (timedelta 0 10) ten_minutes_pos). lia.
Qed.

Lemma bin_label_mono (s t : Timestamp) : s <= t -> bin_label s <= bin_label t.
Proof.
  intros H. unfold bin_label.
  apply Z.mul_le_mono_nonneg_l; [discriminate|].
  apply Z.div_le_mono; [apply ten_minutes_pos | exact H].
Qed.

Lemma fold_max_bounds (l : list Z) : forall a,
  a <= fold_left Z.max l a /\ Forall (fun x => x <= fold_left Z.max l a) l.
Proof.
  induction l as [| x l IH]; intros a; simpl.
  - split; [lia | constructor].
  - destruct (IH (Z.max a x)) as [H1 H2]. split; [lia|].
    constructor; [lia | exact H2].
Qed.

Lemma fold_max_in (l : list Z) : forall a, In (fold_left Z.max l a) (a :: l).
Proof.
  induction l as [| x l IH]; intros a; simpl.
  - now left.
  - destruct (IH (Z.max a x)) as [E | Hin]; [|now right; right].
    rewrite <- E.
    destruct (Z.max_spec a x) as [[_ M] | [_ M]]; rewrite M; simpl; auto.
Qed.

Lemma fold_min_in (l : list Z) : forall a, In (fold_left Z.min l a) (a :: l).
Proof.
  induction l as [| x l IH]; intros a; simpl.
  - now left.
  - destruct (IH (Z.min a x)) as [E | Hin]; [|now right; right].
    rewrite <- E.
    destruct (Z.min_spec a x) as [[_ M] | [_ M]]; rewrite M; simpl; auto.
Qed.

Lemma time_max_upper df m :
  time_max df = Some m -> forall r, In r df -> timestamp r <= m.
Proof.
  destruct df as [| r0 tl]; [discriminate|].
  intros [= <-] r Hr.
  destruct (fold_max_bounds (map timestamp tl) (timestamp r0)) as [H1 H2].
  destruct Hr as [<- | Hr]; [exact H1|].
  rewrite Forall_forall in H2. apply H2, in_map, Hr.
Qed.

Lemma time_max_in df m :
  time_max df = Some m -> exists r, In r df /\ timestamp r = m.
Proof.
  destruct df as [| r0 tl]; [discriminate|].
  intros [= <-].
  pose proof (fold_max_in (map timestamp tl) (timestamp r0)) as H.
  change (timestamp r0 :: map timestamp tl) with (map timestamp (r0 :: tl)) in H.
  apply in_map_iff in H. destruct H as (r & E & Hr). eauto.
Qed.

Lemma time_min_in df lo :
  time_min df = Some lo -> exists r, In r df /\ timestamp r = lo.
Proof.
  destruct df as [| r0 tl]; [discriminate|].
  intros [= <-].
  pose proof (fold_min_in (map timestamp tl) (timestamp r0)) as H.
  change (timestamp r0 :: map timestamp tl) with (map timestamp (r0 :: tl)) in H.
  apply in_map_iff in H. destruct H as (r & E & Hr). eauto.
Qed.

Lemma resample_mean_labels df :
  map fst (resample_mean df) = [] \/
  exists lo hi,
    time_min df = Some lo /\ time_max df = Some hi /\
    map fst (resample_mean df)
      = grid (bin_label lo) 0
          (S (Z.to_nat ((bin_label hi - bin_label lo) / timedelta 0 10))).
Proof.
  unfold resample_mean.
  destruct (time_min df) as [lo |]; [| now left].
  destruct (time_max df) as [hi |]; [| now left].
  right. exists lo, hi. repeat split.
  rewrite map_map. reflexivity.
Qed.

Lemma interpolate_from_length (l : list (option Q)) : forall prev,
  List.length (interpolate_from prev l) = List.length l.
Proof.
  induction l as [| [v |] l IH]; intros prev; simpl; auto.
Qed.

Lemma map_fst_combine {A B} (l : list A) : forall (l' : list B),
  List.length l = List.length l' -> map fst (combine l l') = l.
Proof.
  induction l as [| a l IH]; intros [| b l'] H; simpl in *; try discriminate; auto.
  f_equal. apply IH. lia.
Qed.

Lemma interpolate_labels df : map fst (interpolate df) = map fst df.
Proof.
  unfold interpolate. apply map_fst_combine.
  now rewrite interpolate_from_length, !length_map.
Qed.

Lemma grid_nth first start bins (i : nat) t :
  nth_error (grid first start bins) i = Some t ->
  t = first + timedelta 0 10 * Z.of_nat (start + i).
Proof.
  unfold grid. intros H.
  rewrite nth_error_map, nth_error_seq in H.
  destruct (i <? bins)%nat; [|discriminate].
  injection H as <-. reflexivity.
Qed.

Lemma grid_sorted first bins : forall start,
  StronglySorted Z.lt (grid first start bins).
Proof.
  induction bins as [| n IH]; intros start; [constructor|].
  unfold grid in *. cbn [map seq]. constructor; [apply IH|].
  apply Forall_map, Forall_forall. intros j Hj. apply in_seq in Hj.
  apply Z.add_lt_mono_l, Z.mul_lt_mono_pos_l; [apply ten_minutes_pos | lia].
Qed.

Lemma sorted_lt_NoDup (l : list Z) : StronglySorted Z.lt l -> NoDup l.
Proof.
  induction 1 as [| a l Hs IH Hall]; constructor; auto.
  intros Hin. rewrite Forall_forall in Hall. specialize (Hall a Hin). lia.
Qed.

End Grid.

(* ================================================================= *)
(** ** The conditioned series *)

Section Conditioning.

Import App.

Lemma drop_duplicates_from_NoDup (l : list Reading) : forall seen,
  NoDup (map timestamp (drop_duplicates_from seen l)) /\
  (forall r, In r (drop_duplicates_from seen l) -> ~ In (timestamp r) seen).
Proof.
  induction l as [| r l IH]; intros seen; simpl.
  - split; [constructor | tauto].
  - destruct (existsb (Z.eqb (timestamp r)) seen) eqn:E; [apply IH|].
    destruct (IH (timestamp r :: seen)) as [Hnd Hfresh].
    assert (Hr : ~ In (timestamp r) seen).
    { intros Hin. apply Bool.not_true_iff_false in E. apply E.
      apply existsb_exists. exists (timestamp r). split; [exact Hin | apply Z.eqb_refl]. }
    split.
    + simpl. constructor; [|exact Hnd].
      intros Hin. apply in_map_iff in Hin as (r' & Ets & Hr').
      apply (Hfresh r' Hr'). left. symmetry. exact Ets.
    + intros r' [<- | Hr']; [exact Hr|].
      intros Hin. apply (Hfresh r' Hr'). now right.
Qed.

Lemma condition_labels (rows : list Row) :
  let df := gap_filter (clean rows) in
  map fst (condition rows) = [] \/
  exists lo hi,
    time_min df = Some lo /\ time_max df = Some hi /\
    map fst (condition rows)
      = grid (bin_label lo) 0
          (S (Z.to_nat ((bin_label hi - bin_label lo) / timedelta 0 10))).
Proof.
  intros df. unfold condition. fold df.
  rewrite interpolate_labels. apply resample_mean_labels.
Qed.

Lemma gap_filter_spec (df : list Reading) (m : Timestamp) :
  time_max df = Some m ->
  forall r, In r (gap_filter df) <-> In r df /\ m - timedelta 2 0 < timestamp r.
Proof.
  intros Hm r. unfold gap_filter, cutoff_time. rewrite Hm. cbn [option_map].
  rewrite filter_In, Z.ltb_lt. reflexivity.
Qed.

Lemma gap_filter_nil (df : list Reading) : time_max df = None -> gap_filter df = [].
Proof. intros H. unfold gap_filter, cutoff_time. now rewrite H. Qed.

(** Every label of the conditioned series lies within ten minutes below
    the cutoff and the latest row. *)
Lemma condition_label_window (rows : list Row) (m : Timestamp) :
  time_max (clean rows) = Some m ->
  forall t, In t (map fst (condition rows)) ->
    m - timedelta 2 0 - timedelta 0 10 < t <= m.
Proof.
  intros Hm t Ht.
  set (df := clean rows) in *.
  pose proof (condition_labels rows) as Hlab. cbv zeta in Hlab.
  destruct Hlab as [E | (lo & hi & Hlo & Hhi & E)]; rewrite E in Ht; [destruct Ht|].
  apply time_min_in in Hlo as (rlo & Hrlo & <-).
  apply time_max_in in Hhi as (rhi & Hrhi & <-).
  apply (gap_filter_spec df m Hm) in Hrlo as [Hlo_df Hlo_cut].
  apply (gap_filter_spec df m Hm) in Hrhi as [Hhi_df _].
  pose proof (time_max_upper df m Hm _ Hlo_df) as Hlo_m.
  pose proof (time_max_upper df m Hm _ Hhi_df) as Hhi_m.
  pose proof (bin_label_gt (timestamp rlo)) as Hb1.
  pose proof (bin_label_le (timestamp rlo)) as Hb2.
  pose proof (bin_label_le (timestamp rhi)) as Hb3.
  unfold grid in Ht. apply in_map_iff in Ht as (i & <- & Hi). apply in_seq in Hi.
  pose proof ten_minutes_pos as HT.
  set (T := timedelta 0 10) in *.
  set (d := bin_label (timestamp rhi) - bin_label (timestamp rlo)) in *.
  assert (Hi0 : 0 <= T * Z.of_nat i) by (apply Z.mul_nonneg_nonneg; lia).
  split; [lia|].
  destruct (Z.le_gt_cases 0 d) as [Hd | Hd].
  - assert (Hq : Z.of_nat i <= d / T).
    { assert (0 <= d / T) by (apply Z.div_pos; lia). lia. }
    assert (T * Z.of_nat i <= T * (d / T)) by (apply Z.mul_le_mono_nonneg_l; lia).
    pose proof (Z.mul_div_le d T HT). lia.
  - assert (d / T < 0) by (apply Z.div_lt_upper_bound; lia).
    assert (i = 0%nat) by lia. subst i. lia.
Qed.

Lemma interpolate_from_valid (l : list (option Q)) : forall a i,
  Forall (fun c => c <> None) (interpolate_from (Some (a, i)) l).
Proof.
  induction l as [| [v |] l IH]; intros a i; simpl; constructor;
    try discriminate; try apply IH.
  destruct (next_valid l) as [[d b] |]; discriminate.
Qed.

Lemma mean_some (l : list Q) : l <> [] -> mean l <> None.
Proof. destruct l; [congruence | discriminate]. Qed.

Lemma bin_mean_some (df : list Reading) (r : Reading) :
  In r df -> bin_mean df (bin_label (timestamp r)) <> None.
Proof.
  intros Hr. unfold bin_mean. apply mean_some.
  assert (Hin : In (aqi r)
            (map aqi (filter (fun r' => bin_label (timestamp r') =? bin_label (timestamp r)) df))).
  { apply in_map, filter_In. split; [exact Hr | apply Z.eqb_refl]. }
  intros E. rewrite E in Hin. destruct Hin.
Qed.

Lemma Forall_snd_combine {A B} (P : B -> Prop) (l : list A) : forall (l' : list B),
  Forall P l' -> Forall (fun row => P (snd row)) (combine l l').
Proof.
  induction l as [| a l IH]; intros [| b l'] H; simpl; constructor.
  - now inversion H.
  - apply IH. now inversion H.
Qed.

(** No cell of the [aqi] column of [df_10min] is NaN. *)
Lemma condition_valid (rows : list Row) :
  Forall (fun row => snd row <> None) (condition rows).
Proof.
  unfold condition.
  set (df := gap_filter (clean rows)).
  unfold interpolate. apply (Forall_snd_combine (fun c : option Q => c <> None)).
  unfold resample_mean.
  destruct (time_min df) as [lo |] eqn:Hlo; [| constructor].
  destruct (time_max df) as [hi |]; [| constructor].
  apply time_min_in in Hlo as (r & Hr & <-).
  cbn [seq map snd]. rewrite Z.mul_0_r, Z.add_0_r.
  destruct (bin_mean df (bin_label (timestamp r))) as [v |] eqn:Hv.
  - cbn [interpolate_from]. constructor; [discriminate | apply interpolate_from_valid].
  - exfalso. exact (bin_mean_some df r Hr Hv).
Qed.

(** The last row of [df_10min] holds a value. *)
Lemma last_known_valid (rows : list Row) (last_known : Timestamp * option Q) :
  iloc_back (condition rows) 1 = Some last_known ->
  exists v, snd last_known = Some v.
Proof.
  intros H. unfold iloc_back in H. apply nth_error_In, in_rev in H.
  pose proof (condition_valid rows) as V. rewrite Forall_forall in V.
  specialize (V _ H). destruct (snd last_known) as [v |]; [eauto | congruence].
Qed.

End Conditioning.

(** C5.  For every batch of rows: the rows handed to the resampler carry
    no timestamp twice, and the timestamps of the conditioned series are
    strictly increasing, without repetition, and each exactly ten minutes
    after the one before it. *)
Theorem conditioned_series_grid (rows : list App.Row) :
  let stamps := map fst (App.condition rows) in
  NoDup (map App.timestamp (App.clean rows)) /\
  StronglySorted Z.lt stamps /\
  NoDup stamps /\
  (forall (i : nat) (t1 t2 : App.Timestamp),
     nth_error stamps i = Some t1 ->
     nth_error stamps (S i) = Some t2 ->
     t2 = t1 + App.timedelta 0 10).
Proof.
  intros stamps.
  split; [apply (drop_duplicates_from_NoDup _ [])|].
  pose proof (condition_labels rows) as Hlab. cbv zeta in Hlab. fold stamps in Hlab.
  assert (Hsorted : StronglySorted Z.lt stamps).
  { destruct Hlab as [-> | (lo & hi & _ & _ & ->)]; [constructor | apply grid_sorted]. }
  split; [exact Hsorted|]. split; [apply sorted_lt_NoDup, Hsorted|].
  intros i t1 t2 H1 H2.
  destruct Hlab as [E | (lo & hi & _ & _ & E)]; rewrite E in H1, H2.
  - destruct i; discriminate.
  - apply grid_nth in H1, H2. subst t1 t2.
    rewrite !Nat.add_0_l, Nat2Z.inj_succ. lia.
Qed.

Lemma conditioned_series_grid_witness :
  nth_error (map fst (App.condition Scenario.long_span)) 0 = Some (Scenario.at_clock 10 0) /\
  nth_error (map fst (App.condition Scenario.long_span)) 1 = Some (Scenario.at_clock 10 10) /\
  Scenario.at_clock 10 10 = Scenario.at_clock 10 0 + App.timedelta 0 10.
Proof.
  assert (H0 : nth_error (map fst (App.condition Scenario.long_span)) 0
                 = Some (Scenario.at_clock 10 0)) by (vm_compute; reflexivity).
  assert (H1 : nth_error (map fst (App.condition Scenario.long_span)) 1
                 = Some (Scenario.at_clock 10 10)) by (vm_compute; reflexivity).
  split; [exact H0|]. split; [exact H1|].
  destruct (conditioned_series_grid Scenario.long_span) as (_ & _ & _ & Hstep).
  exact (Hstep 0%nat _ _ H0 H1).
Defined.

(** C3 (as amended).  With [m] the latest timestamp of the cleaned rows,
    the cutoff is [m - 2h]; the rows kept are exactly those strictly later
    than the cutoff; and every timestamp of the conditioned series is later
    than [m - 2h - 10min] and not later than [m]. *)
Theorem gap_policy_window (rows : list App.Row) (m : App.Timestamp) :
  let df := App.clean rows in
  App.time_max df = Some m ->
  App.cutoff_time df = Some (m - App.timedelta 2 0) /\
  (forall r, In r (App.gap_filter df) <->
             In r df /\ m - App.timedelta 2 0 < App.timestamp r) /\
  (forall t, In t (map fst (App.condition rows)) ->
             m - App.timedelta 2 0 - App.timedelta 0 10 < t <= m).
Proof.
  intros df Hm. split; [|split].
  - unfold App.cutoff_time. now rewrite Hm.
  - apply gap_filter_spec, Hm.
  - apply condition_label_window, Hm.
Qed.

Lemma gap_policy_window_witness :
  App.cutoff_time (App.clean Scenario.long_span)
    = Some (Scenario.at_clock 12 5 - App.timedelta 2 0) /\
  (forall t, In t (map fst (App.condition Scenario.long_span)) ->
     Scenario.at_clock 12 5 - App.timedelta 2 0 - App.timedelta 0 10 < t
       <= Scenario.at_clock 12 5).
Proof.
  assert (Hm : App.time_max
            (App.clean Scenario.long_span)
          = Some (Scenario.at_clock 12 5)) by (vm_compute; reflexivity).
  destruct (gap_policy_window Scenario.long_span _ Hm) as (Hcut & _ & Hwin).
  split; [exact Hcut | exact Hwin].
Defined.

(** C3 as stated fails: the rows span 10:00 to 12:05, the cutoff is 10:05,
    the row of 10:06 is kept and its bin is labelled 10:00, so the
    conditioned series has a point older than the cutoff. *)
Lemma grid_point_before_cutoff_counterexample :
  App.time_min (App.clean Scenario.long_span) = Some (Scenario.at_clock 10 0) /\
  App.time_max (App.clean Scenario.long_span) = Some (Scenario.at_clock 12 5) /\
  App.timedelta 2 0 < Scenario.at_clock 12 5 - Scenario.at_clock 10 0 /\
  App.cutoff_time (App.clean Scenario.long_span) = Some (Scenario.at_clock 10 5) /\
  In (Scenario.at_clock 10 0) (map fst (App.condition Scenario.long_span)) /\
  Scenario.at_clock 10 0 < Scenario.at_clock 12 5 - App.timedelta 2 0.
Proof.
  split; [vm_compute; reflexivity|].
  split; [vm_compute; reflexivity|].
  split; [vm_compute; reflexivity|].
  split; [vm_compute; reflexivity|].
  split; [vm_compute; left; reflexivity|].
  vm_compute; reflexivity.
Qed.

(* ================================================================= *)
(** ** Moving a batch by whole bins *)

Section TimeShift.

Import App.

Variable delta : Z.

Lemma time_leb_shift (a b : option Timestamp) :
  time_leb (option_map (Z.add delta) a) (option_map (Z.add delta) b) = time_leb a b.
Proof.
  destruct a as [x |], b as [y |]; simpl; auto.
  destruct (Z.leb_spec x y), (Z.leb_spec (delta + x) (delta + y)); auto; lia.
Qed.

Lemma insert_row_shift (r : Row) (l : list Row) :
  insert_row (shift_row delta r) (map (shift_row delta) l)
    = map (shift_row delta) (insert_row r l).
Proof.
  induction l as [| h t IH]; [reflexivity|].
  cbn [map insert_row]. unfold shift_row at 1 2; cbn [row_time].
  rewrite time_leb_shift.
  destruct (time_leb (row_time r) (row_time h)); cbn [map]; [reflexivity|].
  f_equal. exact IH.
Qed.

Lemma sort_values_shift (l : list Row) :
  sort_values (map (shift_row delta) l) = map (shift_row delta) (sort_values l).
Proof.
  induction l as [| r l IH]; [reflexivity|].
  cbn [map sort_values fold_right]. fold (sort_values (map (shift_row delta) l)).
  fold (sort_values l). rewrite IH. apply insert_row_shift.
Qed.

Lemma dropna_shift (l : list Row) :
  dropna (map (shift_row delta) l) = map (shift_reading delta) (dropna l).
Proof.
  induction l as [| r l IH]; [reflexivity|].
  unfold dropna in *. cbn [map flat_map]. rewrite IH, map_app. f_equal.
  destruct r as [[t |] [a |]]; reflexivity.
Qed.

Lemma drop_duplicates_from_shift (l : list Reading) : forall seen,
  drop_duplicates_from (map (Z.add delta) seen) (map (shift_reading delta) l)
    = map (shift_reading delta) (drop_duplicates_from seen l).
Proof.
  induction l as [| r l IH]; intros seen; [reflexivity|].
  cbn [map drop_duplicates_from]. cbn [shift_reading timestamp].
  assert (E : existsb (Z.eqb (delta + timestamp r)) (map (Z.add delta) seen)
              = existsb (Z.eqb (timestamp r)) seen).
  { induction seen as [| s seen IHs]; [reflexivity|].
    cbn [map existsb]. rewrite IHs. f_equal.
    destruct (Z.eqb_spec (delta + timestamp r) (delta + s)),
             (Z.eqb_spec (timestamp r) s); auto; lia. }
  rewrite E. destruct (existsb _ seen); [apply IH|].
  cbn [map]. f_equal. apply (IH (timestamp r :: seen)).
Qed.

Lemma clean_shift (rows : list Row) :
  clean (map (shift_row delta) rows) = map (shift_reading delta) (clean rows).
Proof.
  unfold clean, drop_duplicates.
  rewrite sort_values_shift, dropna_shift.
  apply (drop_duplicates_from_shift _ []).
Qed.

Lemma fold_max_shift (l : list Z) : forall a,
  fold_left Z.max (map (Z.add delta) l) (delta + a) = delta + fold_left Z.max l a.
Proof.
  induction l as [| x l IH]; intros a; [reflexivity|].
  cbn [map fold_left]. rewrite Z.add_max_distr_l. apply IH.
Qed.

Lemma fold_min_shift (l : list Z) : forall a,
  fold_left Z.min (map (Z.add delta) l) (delta + a) = delta + fold_left Z.min l a.
Proof.
  induction l as [| x l IH]; intros a; [reflexivity|].
  cbn [map fold_left]. rewrite Z.add_min_distr_l. apply IH.
Qed.

Lemma map_timestamp_shift (df : list Reading) :
  map timestamp (map (shift_reading delta) df) = map (Z.add delta) (map timestamp df).
Proof. rewrite !map_map. reflexivity. Qed.

Lemma time_max_shift (df : list Reading) :
  time_max (map (shift_reading delta) df) = option_map (Z.add delta) (time_max df).
Proof.
  destruct df as [| r tl]; [reflexivity|].
  cbn [map time_max option_map]. rewrite map_timestamp_shift.
  f_equal. apply fold_max_shift.
Qed.

Lemma time_min_shift (df : list Reading) :
  time_min (map (shift_reading delta) df) = option_map (Z.add delta) (time_min df).
Proof.
  destruct df as [| r tl]; [reflexivity|].
  cbn [map time_min option_map]. rewrite map_timestamp_shift.
  f_equal. apply fold_min_shift.
Qed.

Lemma filter_map_swap {A B} (f : A -> B) (p : B -> bool) (q : A -> bool) (l : list A) :
  (forall x, p (f x) = q x) -> filter p (map f l) = map f (filter q l).
Proof.
  intros H. induction l as [| x l IH]; [reflexivity|].
  cbn [map filter]. rewrite H. destruct (q x); cbn [map]; now rewrite IH.
Qed.

Lemma gap_filter_shift (df : list Reading) :
  gap_filter (map (shift_reading delta) df) = map (shift_reading delta) (gap_filter df).
Proof.
  unfold gap_filter, cutoff_time. rewrite time_max_shift.
  destruct (time_max df) as [m |]; [|reflexivity].
  cbn [option_map]. apply filter_map_swap.
  intros r. cbn [shift_reading timestamp].
  destruct (Z.ltb_spec (delta + m - timedelta 2 0) (delta + timestamp r)),
           (Z.ltb_spec (m - timedelta 2 0) (timestamp r)); auto; lia.
Qed.

(** From here on the batch moves by a whole number of ten-minute bins. *)
Variable bins : Z.
Hypothesis delta_bins : delta = timedelta 0 10 * bins.

Lemma bin_label_shift (t : Timestamp) : bin_label (delta + t) = delta + bin_label t.
Proof.
  unfold bin_label. rewrite delta_bins.
  rewrite (Z.add_comm _ t), (Z.mul_comm _ bins), Z.div_add by discriminate.
  lia.
Qed.

Lemma bin_mean_shift (df : list Reading) (label : Timestamp) :
  bin_mean (map (shift_reading delta) df) (delta + label) = bin_mean df label.
Proof.
  unfold bin_mean.
  rewrite (filter_map_swap (shift_reading delta) _
             (fun r => bin_label (timestamp r) =? label)).
  - rewrite map_map. reflexivity.
  - intros r. cbn [shift_reading timestamp]. rewrite bin_label_shift.
    destruct (Z.eqb_spec (delta + bin_label (timestamp r)) (delta + label)),
             (Z.eqb_spec (bin_label (timestamp r)) label); auto; lia.
Qed.

Lemma resample_mean_shift (df : list Reading) :
  resample_mean (map (shift_reading delta) df)
    = map (shift_label delta) (resample_mean df).
Proof.
  unfold resample_mean. rewrite time_min_shift, time_max_shift.
  destruct (time_min df) as [lo |]; [|reflexivity].
  destruct (time_max df) as [hi |]; [|reflexivity].
  cbn [option_map]. rewrite !bin_label_shift.
  replace (delta + bin_label hi - (delta + bin_label lo))
    with (bin_label hi - bin_label lo) by ring.
  rewrite map_map. apply map_ext. intros i.
  unfold shift_label; cbn [fst snd].
  rewrite <- (bin_mean_shift df). f_equal; [ring | f_equal; ring].
Qed.

Lemma interpolate_shift (df : list (Timestamp * option Q)) :
  interpolate (map (shift_label delta) df) = map (shift_label delta) (interpolate df).
Proof.
  unfold interpolate.
  assert (Hs : map snd (map (shift_label delta) df) = map snd df)
    by (rewrite map_map; reflexivity).
  rewrite Hs. clear Hs.
  generalize (interpolate_from None (map snd df)) as cells.
  induction df as [| [t c] df IH]; intros cells; [reflexivity|].
  destruct cells as [| c' cells]; [reflexivity|].
  cbn [map combine]. f_equal. apply IH.
Qed.

(** Rows moved by whole bins give the same series, moved by as much. *)
Lemma condition_shift (rows : list Row) :
  condition (map (shift_row delta) rows) = map (shift_label delta) (condition rows).
Proof.
  unfold condition.
  rewrite clean_shift, gap_filter_shift, resample_mean_shift.
  apply interpolate_shift.
Qed.

(** The features read values only. *)
Lemma build_features_shift (df : list (Timestamp * option Q)) :
  build_features (map (shift_label delta) df) = build_features df.
Proof.
  assert (Hi : forall k, iloc_aqi (map (shift_label delta) df) k = iloc_aqi df k).
  { intros k. unfold iloc_aqi, iloc_back.
    rewrite <- map_rev, nth_error_map.
    destruct (nth_error (rev df) (k - 1)); reflexivity. }
  assert (Ht : map snd (iloc_tail (map (shift_label delta) df) 3)
               = map snd (iloc_tail df 3)).
  { unfold iloc_tail. rewrite length_map, skipn_map, map_map. reflexivity. }
  unfold build_features. rewrite !Hi, Ht, length_map. reflexivity.
Qed.

End TimeShift.

(* ================================================================= *)
(** ** The four-reading scenario *)

Lemma on_day_shift (day h m : Z) :
  Scenario.on_day day h m = App.timedelta (24 * day) 0 + Scenario.on_day 0 h m.
Proof. unfold Scenario.on_day, App.timedelta. lia. Qed.

Lemma four_readings_on_shift (day : Z) :
  Scenario.four_readings_on day
    = map (App.shift_row (App.timedelta (24 * day) 0)) (Scenario.four_readings_on 0).
Proof.
  unfold Scenario.four_readings_on, Scenario.reading_on, App.shift_row.
  cbn [map App.row_time App.row_aqi option_map].
  now rewrite !(on_day_shift day).
Qed.

(** C6 (as amended).  On any day from 1970 to 2243, the readings 40, 44,
    50, 52 at 10:00, 10:05, 10:10, 10:15 resample into the two bins
    10:00 -> 42 and 10:10 -> 51.  Two grid points are fewer than four:
    whatever ensemble or object was loaded, [show_future] shows the
    cold-start warning with a wait of 20 minutes for this input, and the
    feature code is not run on it. *)
Theorem four_readings_scenario (day : Z) :
  0 <= day <= 100000 ->
  exists v1 v2,
    App.condition (Scenario.four_readings_on day)
      = [(Scenario.on_day day 10 0, Some v1); (Scenario.on_day day 10 10, Some v2)] /\
    (v1 == 42)%Q /\ (v2 == 51)%Q /\
    (forall model_suite,
       App.show_future (App.Loaded model_suite)
         (Some (Scenario.four_readings_on day)) (Some [])
       = App.Returns (App.Warning_cold_start 20)) /\
    (forall model_suite,
       Page.show_future (Page.Loaded model_suite)
         (Scenario.stored (Scenario.four_readings_on day)) (Some [])
       = Page.Returns (Page.Warning_cold_start 20)).
Proof.
  intros _.
  assert (Hbins : App.timedelta (24 * day) 0 = App.timedelta 0 10 * (144 * day))
    by (unfold App.timedelta; lia).
  assert (E0 : App.condition (Scenario.four_readings_on 0)
               = [(Scenario.on_day 0 10 0, Some (84 # 2)%Q);
                  (Scenario.on_day 0 10 10, Some (102 # 2)%Q)])
    by (vm_compute; reflexivity).
  assert (E : App.condition (Scenario.four_readings_on day)
              = [(Scenario.on_day day 10 0, Some (84 # 2)%Q);
                 (Scenario.on_day day 10 10, Some (102 # 2)%Q)]).
  { rewrite four_readings_on_shift, (condition_shift _ _ Hbins), E0.
    unfold App.shift_label. cbn [map fst snd]. now rewrite <- !on_day_shift. }
  do 2 eexists. split; [exact E|].
  split; [reflexivity|]. split; [reflexivity|]. split.
  - intros model_suite.
    assert (Hrows : App.get_combined_data (Some (Scenario.four_readings_on day))
                      (Some []) = Scenario.four_readings_on day).
    { unfold App.get_combined_data. rewrite app_nil_r. reflexivity. }
    rewrite (show_future_short model_suite (Some (Scenario.four_readings_on day))
               (Some []));
      rewrite Hrows; rewrite ?E; try reflexivity.
    discriminate.
  - intros model_suite.
    assert (Hrows : Page.get_combined_data
                      (Scenario.stored (Scenario.four_readings_on day)) (Some [])
                    = map Page.of_row (Scenario.four_readings_on day)).
    { unfold Page.get_combined_data, Scenario.stored. rewrite app_nil_r. reflexivity. }
    rewrite (page_show_future_short model_suite
               (Scenario.stored (Scenario.four_readings_on day)) (Some []));
      rewrite Hrows; rewrite ?frame_row_of_row, ?E; try reflexivity.
    discriminate.
Qed.

Lemma four_readings_scenario_witness :
  exists v1 v2,
    App.condition Scenario.four_readings
      = [(Scenario.at_clock 10 0, Some v1); (Scenario.at_clock 10 10, Some v2)] /\
    (v1 == 42)%Q /\ (v2 == 51)%Q /\
    App.show_future (App.Loaded Scenario.persistence)
      (Some Scenario.four_readings) (Some [])
      = App.Returns (App.Warning_cold_start 20) /\
    Page.show_future (Page.Loaded Scenario.lacks_3)
      (Scenario.stored Scenario.four_readings) (Some [])
      = Page.Returns (Page.Warning_cold_start 20).
Proof.
  assert (Hday : 0 <= 20000 <= 100000) by lia.
  destruct (four_readings_scenario 20000 Hday) as (v1 & v2 & E & H1 & H2 & HA & HP).
  exists v1, v2. split; [exact E|]. split; [exact H1|]. split; [exact H2|].
  split; [apply HA | apply HP].
Defined.

(** C6 as stated fails: with two grid points [show_future] returns at the
    cold-start warning of line 290, before the feature code of lines
    301-312, so no feature vector is set for this input and no forecast is
    shown. *)
Lemma four_readings_cold_start_counterexample :
  App.len (App.condition Scenario.four_readings) = 2 /\
  App.show_future (App.Loaded Scenario.persistence)
    (Some Scenario.four_readings) (Some [])
    = App.Returns (App.Warning_cold_start 20) /\
  (forall preds,
     App.show_future (App.Loaded Scenario.persistence)
       (Some Scenario.four_readings) (Some [])
     <> App.Returns (App.Forecast_table preds)) /\
  Page.show_future (Page.Loaded (Page.total_suite Scenario.persistence))
    (Scenario.stored Scenario.four_readings) (Some [])
    = Page.Returns (Page.Warning_cold_start 20).
Proof.
  assert (E : App.show_future (App.Loaded Scenario.persistence)
                (Some Scenario.four_readings) (Some [])
              = App.Returns (App.Warning_cold_start 20))
    by (vm_compute; reflexivity).
  split; [vm_compute; reflexivity|]. split; [exact E|].
  split; [intros preds; rewrite E; discriminate | vm_compute; reflexivity].
Qed.

(* ================================================================= *)
(** ** More on the sensor conversion *)

Lemma py_round_floor (x : Q) : Qfloor x <= py_round x <= Qfloor x + 1.
Proof.
  unfold py_round. destruct (Qcompare _ _); [destruct (Z.even _)|..]; lia.
Qed.

Lemma py_round_mono (x y : Q) : (x <= y)%Q -> py_round x <= py_round y.
Proof.
  intros H.
  pose proof (Qfloor_resp_le _ _ H) as Hf.
  pose proof (py_round_floor x) as Hx. pose proof (py_round_floor y) as Hy.
  destruct (Z.eq_dec (Qfloor x) (Qfloor y)) as [E | NE]; [|lia].
  unfold py_round. rewrite <- E.
  destruct (Qcompare (x - inject_Z (Qfloor x)) (1 # 2)) eqn:Cx;
    destruct (Qcompare (y - inject_Z (Qfloor x)) (1 # 2)) eqn:Cy;
    try (destruct (Z.even (Qfloor x))); try lia;
    repeat match goal with
           | C : Qcompare _ _ = Eq |- _ => apply Qeq_alt in C
           | C : Qcompare _ _ = Lt |- _ => apply Qlt_alt in C
           | C : Qcompare _ _ = Gt |- _ => apply Qgt_alt in C
           end; lra.
Qed.

Lemma py_round_above_half (x : Q) (a : Z) :
  (inject_Z a - (1 # 2) < x)%Q -> a <= py_round x.
Proof.
  intros H.
  assert (Ha : (inject_Z (a - 1) == inject_Z a - 1)%Q)
    by (unfold Z.sub; rewrite inject_Z_plus; reflexivity).
  assert (Hf : a - 1 <= Qfloor x).
  { rewrite <- (Qfloor_Z (a - 1)). apply Qfloor_resp_le. lra. }
  pose proof (py_round_floor x) as Hr.
  destruct (Z.eq_dec (Qfloor x) (a - 1)) as [E | NE]; [|lia].
  unfold py_round. rewrite E.
  destruct (Qcompare (x - inject_Z (a - 1)) (1 # 2)) eqn:C.
  - apply Qeq_alt in C. lra.
  - apply Qlt_alt in C. lra.
  - lia.
Qed.

(** The slope constants of [calculate_aqi_pm25] as fractions. *)
Lemma slope_good : (50 / 12 == 25 # 6)%Q.
Proof. reflexivity. Qed.

Lemma slope_moderate : (49 / (233 # 10) == 490 # 233)%Q.
Proof. reflexivity. Qed.

Lemma slope_poor : (49 / (199 # 10) == 490 # 199)%Q.
Proof. reflexivity. Qed.

(** X1.  [calculate_aqi_pm25] never decreases when the PM2.5 estimate
    grows, across its three linear pieces and the cap. *)
Theorem calculate_aqi_pm25_monotone (p q : Q) :
  (p <= q)%Q ->
  Firmware.calculate_aqi_pm25 p <= Firmware.calculate_aqi_pm25 q.
Proof.
  intros H. unfold Firmware.calculate_aqi_pm25.
  destruct (Qle_bool p 12) eqn:P1; [apply Qle_bool_iff in P1 | apply Qle_bool_false in P1];
  (destruct (Qle_bool p (354 # 10)) eqn:P2;
     [apply Qle_bool_iff in P2 | apply Qle_bool_false in P2]);
  (destruct (Qle_bool p (554 # 10)) eqn:P3;
     [apply Qle_bool_iff in P3 | apply Qle_bool_false in P3]);
  try lra;
  (destruct (Qle_bool q 12) eqn:Q1; [apply Qle_bool_iff in Q1 | apply Qle_bool_false in Q1]);
  (destruct (Qle_bool q (354 # 10)) eqn:Q2;
     [apply Qle_bool_iff in Q2 | apply Qle_bool_false in Q2]);
  (destruct (Qle_bool q (554 # 10)) eqn:Q3;
     [apply Qle_bool_iff in Q3 | apply Qle_bool_false in Q3]);
  try lra; try lia;
  try (apply py_round_mono;
       rewrite ?slope_good, ?slope_moderate, ?slope_poor; lra);
  try (apply py_round_upper; change (inject_Z 150) with 150%Q;
       rewrite ?slope_good, ?slope_moderate, ?slope_poor; lra);
  try (eapply Z.le_trans;
       [apply (py_round_upper _ 50); change (inject_Z 50) with 50%Q;
        rewrite ?slope_good; lra
       | apply py_round_lower; change (inject_Z 50) with 50%Q;
         rewrite ?slope_moderate, ?slope_poor; lra]);
  try (eapply Z.le_trans;
       [apply (py_round_upper _ 100); change (inject_Z 100) with 100%Q;
        rewrite ?slope_good, ?slope_moderate; lra
       | apply py_round_lower; change (inject_Z 100) with 100%Q;
         rewrite ?slope_poor; lra]).
Qed.

Lemma calculate_aqi_pm25_monotone_witness :
  Firmware.calculate_aqi_pm25 (Firmware.mq135_to_pm25 245)
    <= Firmware.calculate_aqi_pm25 (Firmware.mq135_to_pm25 246).
Proof.
  apply (calculate_aqi_pm25_monotone (Firmware.mq135_to_pm25 245)
           (Firmware.mq135_to_pm25 246)).
  vm_compute. discriminate.
Defined.

(** X2.  The AQI band follows the PM2.5 breakpoints: an estimate of at
    most 12 gives an AQI of at most 50, one in (12, 35.4] gives 51 to 100,
    one in (35.4, 55.4] gives 101 to 150. *)
Theorem calculate_aqi_pm25_bands (pm25 : Q) :
  (0 <= pm25)%Q ->
  ((pm25 <= 12)%Q -> 0 <= Firmware.calculate_aqi_pm25 pm25 <= 50) /\
  ((12 < pm25)%Q -> (pm25 <= 354 # 10)%Q ->
     51 <= Firmware.calculate_aqi_pm25 pm25 <= 100) /\
  ((354 # 10 < pm25)%Q -> (pm25 <= 554 # 10)%Q ->
     101 <= Firmware.calculate_aqi_pm25 pm25 <= 150).
Proof.
  intros H0. unfold Firmware.calculate_aqi_pm25. split; [|split].
  - intros H. apply Qle_bool_iff in H. rewrite H. apply Qle_bool_iff in H. split.
    + apply py_round_lower. change (inject_Z 0) with 0%Q. rewrite slope_good. lra.
    + apply py_round_upper. change (inject_Z 50) with 50%Q. rewrite slope_good. lra.
  - intros Hlo Hhi.
    destruct (Qle_bool pm25 12) eqn:B1; [apply Qle_bool_iff in B1; lra|].
    apply Qle_bool_iff in Hhi. rewrite Hhi. apply Qle_bool_iff in Hhi. split.
    + apply py_round_above_half. change (inject_Z 51) with 51%Q.
      rewrite slope_moderate. lra.
    + apply py_round_upper. change (inject_Z 100) with 100%Q.
      rewrite slope_moderate. lra.
  - intros Hlo Hhi.
    destruct (Qle_bool pm25 12) eqn:B1; [apply Qle_bool_iff in B1; lra|].
    destruct (Qle_bool pm25 (354 # 10)) eqn:B2; [apply Qle_bool_iff in B2; lra|].
    apply Qle_bool_iff in Hhi. rewrite Hhi. apply Qle_bool_iff in Hhi. split.
    + apply py_round_above_half. change (inject_Z 101) with 101%Q.
      rewrite slope_poor. lra.
    + apply py_round_upper. change (inject_Z 150) with 150%Q.
      rewrite slope_poor. lra.
Qed.

Lemma calculate_aqi_pm25_bands_witness :
  51 <= Firmware.calculate_aqi_pm25 (Firmware.mq135_to_pm25 246) <= 100.
Proof.
  apply (calculate_aqi_pm25_bands (Firmware.mq135_to_pm25 246));
    vm_compute; congruence.
Defined.

(* ================================================================= *)
(** ** More on the main loop of the firmware *)

Lemma py_int_range (x : Q) (b : Z) :
  (0 <= x)%Q -> (x <= inject_Z b)%Q -> 0 <= py_int x <= b.
Proof.
  destruct x as [num den]. unfold Qle, py_int. cbn [Qnum Qden inject_Z].
  intros H0 H1. rewrite Z.mul_1_r in *. rewrite Z.mul_0_l in H0.
  rewrite Z.quot_div_nonneg by lia. split.
  - apply Z.div_pos; lia.
  - apply Z.div_le_upper_bound; lia.
Qed.

Lemma fold_add_from (l : list Z) : forall a, fold_left Z.add l a = a + Zsum l.
Proof.
  unfold Zsum. induction l as [| x l IH]; intros a; simpl; [lia|].
  rewrite (IH (a + x)), (IH x). lia.
Qed.

Lemma Zsum_range (l : list Z) (b : Z) :
  Forall (fun x => 0 <= x <= b) l ->
  0 <= Zsum l <= b * Z.of_nat (List.length l).
Proof.
  induction 1 as [| x l Hx _ IH]; [unfold Zsum; simpl; lia|].
  unfold Zsum in *. cbn [fold_left List.length]. rewrite fold_add_from.
  unfold Zsum. lia.
Qed.

Lemma mean_int_range (l : list Z) (b : Z) :
  l <> [] ->
  Forall (fun x => 0 <= x <= b) l ->
  0 <= py_int (inject_Z (Zsum l) / inject_Z (Z.of_nat (List.length l))) <= b.
Proof.
  intros Hne Hall. pose proof (Zsum_range l b Hall) as [Hlo Hhi].
  assert (Hn : 0 < Z.of_nat (List.length l)) by (destruct l; [congruence | simpl; lia]).
  assert (Hnq : (0 < inject_Z (Z.of_nat (List.length l)))%Q)
    by (change 0%Q with (inject_Z 0); now rewrite <- Zlt_Qlt).
  apply py_int_range.
  - apply Qle_shift_div_l; [exact Hnq|].
    rewrite Qmult_0_l. change 0%Q with (inject_Z 0). now rewrite <- Zle_Qle.
  - apply Qle_shift_div_r; [exact Hnq|].
    rewrite <- inject_Z_mult, <- Zle_Qle. exact Hhi.
Qed.

Lemma In_samples_completed (its : list Firmware.Iteration) (s : Firmware.Sample) :
  In s (Firmware.samples its) ->
  exists p, In p (Firmware.completed its) /\ s = Firmware.sample_of p.
Proof.
  unfold Firmware.samples, Firmware.completed. rewrite in_flat_map.
  intros ([p |] & Hit & Hs); simpl in Hs; [|tauto].
  destruct Hs as [<- | []]. exists p. split; [|reflexivity].
  apply in_flat_map. exists (Firmware.Completed p). simpl. auto.
Qed.

(** X3.  If every ADC reading of a run is in [0, 4095], every hourly
    record the run uploads has [mq135] in [0, 4095] and [aqi] in [0, 150]. *)
Theorem history_records_in_range (now : Z) (its : list Firmware.Iteration) :
  (forall p, In p (Firmware.completed its) -> 0 <= Firmware.raw_air p <= 4095) ->
  forall body,
    In body (Firmware.history_records (snd (Firmware.run (Firmware.startup now) its))) ->
    0 <= Firmware.mq135 body <= 4095 /\ 0 <= Firmware.aqi body <= 150.
Proof.
  intros Hraw body Hbody.
  destruct (run_partition its _ _ (startup_tracks now))
    as (segs & rest & Hcat & Hne & Hrec & _).
  rewrite Hrec in Hbody. apply in_map_iff in Hbody as (seg & <- & Hseg).
  rewrite Forall_forall in Hne. specialize (Hne seg Hseg).
  assert (Hin : forall s, In s seg ->
            exists p, In p (Firmware.completed its) /\ s = Firmware.sample_of p).
  { intros s Hs. apply In_samples_completed.
    simpl in Hcat. rewrite Hcat. apply in_or_app. left.
    apply in_concat. eauto. }
  unfold Firmware.means, Firmware.count; cbn [Firmware.mq135 Firmware.aqi].
  split.
  - rewrite <- (length_map Firmware.s_mq135 seg). apply mean_int_range.
    + intros E. apply map_eq_nil in E. contradiction.
    + apply Forall_map, Forall_forall. intros s Hs.
      destruct (Hin s Hs) as (p & Hp & ->). apply Hraw, Hp.
  - rewrite <- (length_map Firmware.s_aqi seg). apply mean_int_range.
    + intros E. apply map_eq_nil in E. contradiction.
    + apply Forall_map, Forall_forall. intros s Hs.
      destruct (Hin s Hs) as (p & Hp & ->).
      apply calculate_aqi_pm25_range, mq135_to_pm25_nonneg, Hraw, Hp.
Qed.

Lemma history_records_in_range_witness :
  Forall (fun body => 0 <= Firmware.mq135 body <= 4095 /\ 0 <= Firmware.aqi body <= 150)
    (Firmware.history_records
       (snd (Firmware.run (Firmware.startup 0)
               (Scenario.first_seconds ++ [Firmware.Completed Scenario.hour_pass])))).
Proof.
  apply Forall_forall.
  apply (history_records_in_range 0
           (Scenario.first_seconds ++ [Firmware.Completed Scenario.hour_pass])).
  intros p [<- | [<- | [<- | []]]]; vm_compute; split; discriminate.
Defined.

Lemma realtime_records_app (e1 e2 : list Firmware.Event) :
  Firmware.realtime_records (e1 ++ e2)
    = Firmware.realtime_records e1 ++ Firmware.realtime_records e2.
Proof. unfold Firmware.realtime_records. apply flat_map_app. Qed.

Lemma loop_pass_realtime (st : Firmware.Accumulator) (p : Firmware.Pass) :
  Firmware.realtime_records (snd (Firmware.loop_pass st p))
    = [Firmware.payload_realtime p] /\
  (List.length (Firmware.history_records (snd (Firmware.loop_pass st p))) <= 1)%nat.
Proof.
  unfold Firmware.loop_pass.
  destruct (_ <=? _); [destruct (0 <? _)|]; simpl; auto.
Qed.

(** X4.  Whatever the state of the sums and of the clock, every completed
    pass hands exactly one live record to the upload, in the order of the
    passes; its [mq135] is the ADC reading and its [aqi] the converted
    value.  An aborted pass uploads nothing. *)
Theorem one_live_record_per_pass (st : Firmware.Accumulator)
    (its : list Firmware.Iteration) :
  Firmware.realtime_records (snd (Firmware.run st its))
    = map Firmware.payload_realtime (Firmware.completed its).
Proof.
  revert st. induction its as [| it its IH]; intros st; [reflexivity|].
  cbn [Firmware.run].
  destruct (Firmware.iterate st it) as [st1 ev1] eqn:E1.
  specialize (IH st1). destruct (Firmware.run st1 its) as [st2 ev2].
  cbn [snd] in *. rewrite realtime_records_app, IH.
  destruct it as [p |]; cbn [Firmware.iterate] in E1.
  - pose proof (loop_pass_realtime st p) as [Hr _]. rewrite E1 in Hr.
    cbn [snd] in Hr. rewrite Hr. reflexivity.
  - injection E1 as <- <-. reflexivity.
Qed.

(** Between two hourly uploads the clock advances by at least an hour. *)
Lemma history_spacing (its : list Firmware.Iteration) :
  forall (st : Firmware.Accumulator) (t : Z),
    Firmware.last_hourly_upload st <= t ->
    Firmware.clock_from t its ->
    Firmware.HOUR_INTERVAL
      * Z.of_nat (List.length (Firmware.history_records (snd (Firmware.run st its))))
    <= Firmware.last_hourly_upload (fst (Firmware.run st its))
       - Firmware.last_hourly_upload st.
Proof.
  induction its as [| it its IH]; intros st t Hst Hclock.
  - simpl. lia.
  - cbn [Firmware.run].
    destruct it as [p |]; cbn [Firmware.iterate Firmware.clock_from] in *.
    + destruct Hclock as (H1 & H2 & Hrest).
      pose proof (loop_pass_realtime st p) as [_ Hone].
      unfold Firmware.loop_pass in *.
      change (Firmware.last_hourly_upload (Firmware.accumulate st p))
        with (Firmware.last_hourly_upload st) in *.
      destruct (Z.leb_spec Firmware.HOUR_INTERVAL
                  (Firmware.current_time p - Firmware.last_hourly_upload st))
        as [Hfire | Hquiet].
      * specialize (IH (Firmware.startup (Firmware.reset_time p))
                       (Firmware.reset_time p) (Z.le_refl _) Hrest).
        destruct (Firmware.run (Firmware.startup (Firmware.reset_time p)) its)
          as [st2 ev2].
        cbn [fst snd Firmware.startup Firmware.last_hourly_upload] in *.
        rewrite history_records_app, length_app.
        unfold Firmware.HOUR_INTERVAL in *. lia.
      * assert (Ht : Firmware.last_hourly_upload (Firmware.accumulate st p)
                     <= Firmware.reset_time p) by (cbn; lia).
        specialize (IH _ _ Ht Hrest).
        destruct (Firmware.run (Firmware.accumulate st p) its) as [st2 ev2].
        cbn [fst snd] in *. exact IH.
    + specialize (IH st t Hst Hclock).
      destruct (Firmware.run st its) as [st2 ev2]. exact IH.
Qed.

(** X5.  On a device whose clock never runs backwards, a run that started
    at time [now] has uploaded at most one hourly record per full hour
    between [now] and the last reset. *)
Theorem at_most_one_history_per_hour (now : Z) (its : list Firmware.Iteration) :
  Firmware.clock_from now its ->
  Firmware.HOUR_INTERVAL
    * Z.of_nat (List.length (Firmware.history_records
                               (snd (Firmware.run (Firmware.startup now) its))))
  <= Firmware.last_hourly_upload (fst (Firmware.run (Firmware.startup now) its)) - now.
Proof.
  intros Hclock.
  apply (history_spacing its (Firmware.startup now) now (Z.le_refl _) Hclock).
Qed.

Lemma at_most_one_history_per_hour_witness :
  Firmware.HOUR_INTERVAL
    * Z.of_nat (List.length (Firmware.history_records
        (snd (Firmware.run (Firmware.startup 0)
                (Scenario.first_seconds ++ [Firmware.Completed Scenario.hour_pass])))))
  <= Firmware.last_hourly_upload
       (fst (Firmware.run (Firmware.startup 0)
               (Scenario.first_seconds ++ [Firmware.Completed Scenario.hour_pass]))) - 0.
Proof.
  apply (at_most_one_history_per_hour 0
           (Scenario.first_seconds ++ [Firmware.Completed Scenario.hour_pass])).
  vm_compute. repeat split; discriminate.
Defined.

(* ================================================================= *)
(** ** WiFi connection *)

(** What the waiting loop has done when it is left: it stopped on the first
    answer [true], or after [timeout] sleeps; it slept once between
    consecutive calls. *)
Lemma wait_for_link_exit (answers : nat -> bool) :
  forall timeout call slept,
    let r := Firmware.wait_for_link answers timeout call slept in
    (call + 1 <= fst r <= call + timeout + 1)%nat /\
    (snd r + call + 1 = slept + fst r)%nat /\
    (forall n, (call <= n)%nat -> (n + 1 < fst r)%nat -> answers n = false) /\
    (answers (fst r - 1)%nat = true \/
     (answers (fst r - 1)%nat = false /\ fst r = call + timeout + 1)%nat).
Proof.
  induction timeout as [| timeout IH]; intros call slept; cbn [Firmware.wait_for_link].
  - destruct (answers call) eqn:A; cbn [fst snd];
      replace (S call - 1)%nat with call by lia;
      (split; [lia|]; split; [lia|]; split; [intros; lia|]); [left | right]; auto.
    split; [exact A | lia].
  - destruct (answers call) eqn:A.
    + cbn [fst snd]. replace (S call - 1)%nat with call by lia.
      split; [lia|]. split; [lia|]. split; [intros; lia|]. now left.
    + specialize (IH (S call) (S slept)). cbv zeta in IH.
      destruct (Firmware.wait_for_link answers timeout (S call) (S slept)) as [c s].
      cbn [fst snd] in *. destruct IH as (H1 & H2 & H3 & H4).
      split; [lia|]. split; [lia|]. split.
      * intros n Hn Hlt. destruct (Nat.eq_dec n call) as [-> | NE]; [exact A|].
        apply H3; lia.
      * destruct H4 as [H4 | [H4 H5]]; [now left | right]. split; [exact H4 | lia].
Qed.

(** X6.  [connect_wifi] always comes back: it sleeps between 1 and 21
    seconds and asks [isconnected()] between 2 and 23 times; when the link
    never comes up it gives up with [False] after exactly 21 seconds. *)
Theorem connect_wifi_bounded (answers : nat -> bool) :
  let '(flag, slept, calls) := Firmware.connect_wifi answers in
  (1 <= slept <= 21)%nat /\ (2 <= calls <= 23)%nat /\
  ((forall n, answers n = false) -> flag = false /\ slept = 21%nat /\ calls = 23%nat).
Proof.
  unfold Firmware.connect_wifi.
  destruct (answers 0%nat) eqn:A0.
  - split; [lia|]. split; [lia|]. intros Hall. rewrite Hall in A0. discriminate.
  - pose proof (wait_for_link_exit answers 20 1 1) as H. cbv zeta in H.
    destruct (Firmware.wait_for_link answers 20 1 1) as [c s].
    cbn [fst snd] in H. destruct H as (H1 & H2 & _ & H4).
    split; [lia|]. split; [lia|]. intros Hall.
    destruct H4 as [H4 | [_ H5]]; [rewrite Hall in H4; discriminate|].
    split; [apply Hall | lia].
Qed.

(** X7.  If the link is reported down on the first [k] calls of
    [isconnected()] and up from then on, [connect_wifi] returns [True]
    exactly when [k <= 22], and it has then slept no longer than
    [max 1 k] seconds. *)
Theorem connect_wifi_succeeds (answers : nat -> bool) (k : nat) :
  (forall n, (n < k)%nat -> answers n = false) ->
  (forall n, (k <= n)%nat -> answers n = true) ->
  let '(flag, slept, calls) := Firmware.connect_wifi answers in
  (flag = true <-> (k <= 22)%nat) /\
  ((k <= 22)%nat -> (slept <= Nat.max 1 k)%nat).
Proof.
  intros Hdown Hup. unfold Firmware.connect_wifi.
  destruct (answers 0%nat) eqn:A0.
  - assert (k = 0)%nat as ->.
    { destruct k; [reflexivity|]. rewrite Hdown in A0 by lia. discriminate. }
    rewrite Hup by lia. split; [split; [lia | reflexivity] | simpl; lia].
  - assert (Hk : (1 <= k)%nat).
    { destruct k; [|lia]. rewrite Hup in A0 by lia. discriminate. }
    pose proof (wait_for_link_exit answers 20 1 1) as H. cbv zeta in H.
    destruct (Firmware.wait_for_link answers 20 1 1) as [c s].
    cbn [fst snd] in H. destruct H as (H1 & H2 & H3 & H4).
    assert (Hc : (c = Nat.min (k + 1) 22)%nat).
    { destruct H4 as [H4 | [H4 H5]].
      - (* left on an answer [true] at call [c - 1] *)
        assert (k <= c - 1)%nat.
        { destruct (Nat.le_gt_cases k (c - 1)) as [L | G]; [exact L|].
          rewrite Hdown in H4 by exact G. discriminate. }
        assert (c - 1 <= k)%nat.
        { destruct (Nat.le_gt_cases (c - 1) k) as [L | G]; [exact L|].
          assert (Ak : answers k = false) by (apply H3; lia).
          rewrite Hup in Ak by lia. discriminate. }
        lia.
      - assert (c - 1 < k)%nat.
        { destruct (Nat.le_gt_cases k (c - 1)) as [L | G]; [|exact G].
          rewrite Hup in H4 by exact L. discriminate. }
        lia. }
    split.
    + split.
      * intros Hflag. destruct (Nat.le_gt_cases k c) as [L | G]; [lia|].
        rewrite Hdown in Hflag by exact G. discriminate.
      * intros Hle. apply Hup. lia.
    + intros Hle. lia.
Qed.

Lemma connect_wifi_succeeds_witness :
  let '(flag, slept, calls) := Firmware.connect_wifi (fun n => (3 <=? n)%nat) in
  (flag = true <-> (3 <= 22)%nat) /\ ((3 <= 22)%nat -> (slept <= Nat.max 1 3)%nat).
Proof.
  apply (connect_wifi_succeeds (fun n => (3 <=? n)%nat) 3).
  - intros n Hn. apply Nat.leb_gt. exact Hn.
  - intros n Hn. apply Nat.leb_le. exact Hn.
Defined.

(* ================================================================= *)
(** ** Sorting and cleaning *)

Section Sorting.

Import App.

Lemma time_leb_total (a b : option Timestamp) :
  time_leb a b = false -> time_leb b a = true.
Proof.
  destruct a as [x |], b as [y |]; simpl; intros H; try congruence.
  apply Z.leb_le. apply Z.leb_gt in H. lia.
Qed.

Lemma time_leb_trans (a b c : option Timestamp) :
  time_leb a b = true -> time_leb b c = true -> time_leb a c = true.
Proof.
  destruct a as [x |], b as [y |], c as [z |]; simpl; intros H1 H2; try congruence.
  apply Z.leb_le. apply Z.leb_le in H1, H2. lia.
Qed.

Lemma insert_row_perm (r : Row) (l : list Row) :
  Permutation (insert_row r l) (r :: l).
Proof.
  induction l as [| h t IH]; simpl; [reflexivity|].
  destruct (time_leb _ _); [reflexivity|].
  rewrite IH. apply perm_swap.
Qed.

Lemma sort_values_perm (l : list Row) : Permutation (sort_values l) l.
Proof.
  induction l as [| r l IH]; simpl; [constructor|].
  fold (sort_values l). rewrite insert_row_perm. now constructor.
Qed.

Lemma insert_row_sorted (r : Row) (l : list Row) :
  StronglySorted (fun a b => time_leb (row_time a) (row_time b) = true) l ->
  StronglySorted (fun a b => time_leb (row_time a) (row_time b) = true)
    (insert_row r l).
Proof.
  induction 1 as [| h t Hs IH Hall]; simpl.
  - constructor; constructor.
  - destruct (time_leb (row_time r) (row_time h)) eqn:E.
    + constructor; [constructor; assumption|].
      constructor; [exact E|].
      rewrite Forall_forall in *. intros x Hx.
      eapply time_leb_trans; [exact E | apply Hall, Hx].
    + constructor; [exact IH|].
      rewrite Forall_forall in *. intros x Hx.
      apply In_insert_row in Hx as [-> | Hx]; [apply time_leb_total, E | apply Hall, Hx].
Qed.

Lemma sort_values_sorted (l : list Row) :
  StronglySorted (fun a b => time_leb (row_time a) (row_time b) = true)
    (sort_values l).
Proof.
  induction l as [| r l IH]; simpl; [constructor|].
  apply insert_row_sorted, IH.
Qed.

Lemma dropna_sorted (l : list Row) :
  StronglySorted (fun a b => time_leb (row_time a) (row_time b) = true) l ->
  StronglySorted Z.le (map timestamp (dropna l)).
Proof.
  induction 1 as [| h t Hs IH Hall]; [constructor|].
  unfold dropna in *. cbn [flat_map]. rewrite map_app.
  destruct (row_time h) as [th |] eqn:Eh; [|exact IH].
  destruct (row_aqi h) as [ah |]; [|exact IH].
  cbn [map app timestamp]. constructor; [exact IH|].
  apply Forall_map, Forall_forall. intros x Hx.
  apply in_flat_map in Hx as (r & Hr & Hx).
  rewrite Forall_forall in Hall. specialize (Hall r Hr). cbv beta in Hall.
  destruct (row_time r) as [tr |]; [|contradiction].
  destruct (row_aqi r); [|contradiction].
  destruct Hx as [<- | []]. cbn [timestamp]. simpl in Hall. now apply Z.leb_le.
Qed.

Lemma In_drop_duplicates_from (l : list Reading) : forall seen r,
  In r (drop_duplicates_from seen l) -> In r l.
Proof.
  induction l as [| x l IH]; intros seen r; simpl; [tauto|].
  destruct (existsb (Z.eqb (timestamp x)) seen); simpl; intros H.
  - right. eapply IH, H.
  - destruct H as [-> | H]; [now left | right; eapply IH, H].
Qed.

Lemma drop_duplicates_from_sorted (l : list Reading) : forall seen,
  StronglySorted Z.le (map timestamp l) ->
  StronglySorted Z.le (map timestamp (drop_duplicates_from seen l)).
Proof.
  induction l as [| x l IH]; intros seen Hs; simpl; [constructor|].
  cbn [map] in Hs. apply StronglySorted_inv in Hs as [Hs Hall].
  destruct (existsb (Z.eqb (timestamp x)) seen); [apply IH, Hs|].
  cbn [map]. constructor; [apply IH, Hs|].
  rewrite Forall_forall in *. intros t Ht.
  apply in_map_iff in Ht as (r & <- & Hr).
  apply Hall, in_map, (In_drop_duplicates_from _ _ _ Hr).
Qed.

Lemma sorted_le_NoDup_lt (l : list Z) :
  StronglySorted Z.le l -> NoDup l -> StronglySorted Z.lt l.
Proof.
  induction 1 as [| a l Hs IH Hall]; intros Hnd; [constructor|].
  inversion Hnd as [| ? ? Hnotin Hnd']; subst.
  constructor; [apply IH, Hnd'|].
  rewrite Forall_forall in *. intros x Hx.
  specialize (Hall x Hx).
  assert (x <> a) by (intros ->; contradiction). lia.
Qed.

Lemma timestamps_drop_duplicates_from (l : list Reading) : forall seen t,
  In t (map timestamp (drop_duplicates_from seen l)) <->
  In t (map timestamp l) /\ ~ In t seen.
Proof.
  induction l as [| x l IH]; intros seen t; simpl; [tauto|].
  destruct (existsb (Z.eqb (timestamp x)) seen) eqn:E.
  - rewrite IH. apply existsb_exists in E as (s & Hs & Es).
    apply Z.eqb_eq in Es. subst s. split; [tauto|].
    intros [[<- | H] Hn]; [contradiction | tauto].
  - cbn [map In]. rewrite IH. cbn [In].
    assert (Hx : ~ In (timestamp x) seen).
    { intros Hin. apply Bool.not_true_iff_false in E. apply E.
      apply existsb_exists. exists (timestamp x). split; [exact Hin | apply Z.eqb_refl]. }
    split.
    + intros [<- | [H Hn]]; [tauto|]. split; [tauto|]. intros Hs. apply Hn. now right.
    + intros [[<- | H] Hn]; [now left|].
      destruct (Z.eq_dec (timestamp x) t) as [-> | NE]; [now left|].
      right. split; [exact H|]. intros [Ex | Hs]; [contradiction | contradiction].
Qed.

Lemma In_dropna (l : list Row) (t : Timestamp) :
  In t (map timestamp (dropna l)) <->
  exists r a, In r l /\ row_time r = Some t /\ row_aqi r = Some a.
Proof.
  unfold dropna. rewrite in_map_iff. split.
  - intros (x & <- & Hx). apply in_flat_map in Hx as (r & Hr & Hx).
    destruct (row_time r) as [tr |] eqn:Et; [|contradiction].
    destruct (row_aqi r) as [ar |] eqn:Ea; [|contradiction].
    destruct Hx as [<- | []]. exists r, ar. auto.
  - intros (r & a & Hr & Et & Ea).
    exists {| timestamp := t; aqi := a |}. split; [reflexivity|].
    apply in_flat_map. exists r. rewrite Et, Ea. simpl. auto.
Qed.

End Sorting.

(** X8.  After cleaning, the timestamps are strictly increasing, and they
    are exactly the timestamps of the rows that have both a timestamp and
    an AQI: cleaning drops no instant and keeps none twice. *)
Theorem clean_strictly_increasing (rows : list App.Row) :
  StronglySorted Z.lt (map App.timestamp (App.clean rows)) /\
  (forall t, In t (map App.timestamp (App.clean rows)) <->
             exists r a, In r rows /\ App.row_time r = Some t /\ App.row_aqi r = Some a).
Proof.
  split.
  - apply sorted_le_NoDup_lt.
    + apply drop_duplicates_from_sorted, dropna_sorted, sort_values_sorted.
    + apply (drop_duplicates_from_NoDup _ []).
  - intros t. unfold App.clean, App.drop_duplicates.
    rewrite timestamps_drop_duplicates_from, In_dropna.
    split.
    + intros [(r & a & Hr & H) _]. exists r, a. split; [|exact H].
      apply In_sort_values, Hr.
    + intros (r & a & Hr & H). split; [|tauto].
      exists r, a. split; [|exact H]. apply In_sort_values, Hr.
Qed.

(* ================================================================= *)
(** ** Shape of the conditioned series *)

Section GridShape.

Import App.

Lemma fold_min_bounds (l : list Z) : forall a,
  fold_left Z.min l a <= a /\ Forall (fun x => fold_left Z.min l a <= x) l.
Proof.
  induction l as [| x l IH]; intros a; simpl.
  - split; [lia | constructor].
  - destruct (IH (Z.min a x)) as [H1 H2]. split; [lia|].
    constructor; [lia | exact H2].
Qed.

Lemma time_min_lower df lo :
  time_min df = Some lo -> forall r, In r df -> lo <= timestamp r.
Proof.
  destruct df as [| r0 tl]; [discriminate|].
  intros [= <-] r Hr.
  destruct (fold_min_bounds (map timestamp tl) (timestamp r0)) as [H1 H2].
  destruct Hr as [<- | Hr]; [exact H1|].
  rewrite Forall_forall in H2. apply H2, in_map, Hr.
Qed.

Lemma time_max_some df : df <> [] -> exists m, time_max df = Some m.
Proof. destruct df; [congruence | simpl; eauto]. Qed.

Lemma time_min_some df : df <> [] -> exists lo, time_min df = Some lo.
Proof. destruct df; [congruence | simpl; eauto]. Qed.

(** The gap filter keeps the newest row. *)
Lemma gap_filter_time_max df m :
  time_max df = Some m -> time_max (gap_filter df) = Some m.
Proof.
  intros Hm.
  destruct (time_max_in df m Hm) as (r & Hr & Er).
  assert (Hg : In r (gap_filter df)).
  { apply (gap_filter_spec df m Hm). split; [exact Hr|].
    rewrite Er. unfold timedelta. lia. }
  destruct (time_max_some (gap_filter df)) as [m' Hm'].
  { intros E. rewrite E in Hg. destruct Hg. }
  rewrite Hm'. f_equal. apply Z.le_antisymm.
  - destruct (time_max_in _ _ Hm') as (r' & Hr' & <-).
    apply (gap_filter_spec df m Hm) in Hr' as [Hr' _].
    apply (time_max_upper df m Hm _ Hr').
  - rewrite <- Er. apply (time_max_upper _ _ Hm' _ Hg).
Qed.

Lemma bin_label_index (lo t : Timestamp) :
  lo <= t ->
  bin_label t
    = bin_label lo
      + timedelta 0 10
        * Z.of_nat (Z.to_nat ((bin_label t - bin_label lo) / timedelta 0 10)).
Proof.
  intros H. unfold bin_label.
  pose proof ten_minutes_pos as HT. set (T := timedelta 0 10) in *.
  assert (Hq : lo / T <= t / T) by (apply Z.div_le_mono; lia).
  rewrite <- Z.mul_sub_distr_l, (Z.mul_comm T (t / T - lo / T)).
  rewrite Z.div_mul by lia. rewrite Z2Nat.id by lia. lia.
Qed.

Lemma bin_index_mono (lo s t : Timestamp) :
  lo <= s -> s <= t ->
  (Z.to_nat ((bin_label s - bin_label lo) / timedelta 0 10)
   <= Z.to_nat ((bin_label t - bin_label lo) / timedelta 0 10))%nat.
Proof.
  intros H1 H2. apply Z2Nat.inj_le.
  - apply Z.div_pos; [|apply ten_minutes_pos].
    pose proof (bin_label_mono lo s H1). lia.
  - apply Z.div_pos; [|apply ten_minutes_pos].
    pose proof (bin_label_mono lo t). lia.
  - apply Z.div_le_mono; [apply ten_minutes_pos|].
    pose proof (bin_label_mono s t H2). lia.
Qed.

Lemma resample_mean_nth df lo hi (i : nat) :
  time_min df = Some lo -> time_max df = Some hi ->
  (i <= Z.to_nat ((bin_label hi - bin_label lo) / timedelta 0 10))%nat ->
  nth_error (resample_mean df) i
    = Some (bin_label lo + timedelta 0 10 * Z.of_nat i,
            bin_mean df (bin_label lo + timedelta 0 10 * Z.of_nat i)).
Proof.
  intros Hlo Hhi Hi. unfold resample_mean. rewrite Hlo, Hhi.
  rewrite nth_error_map, nth_error_seq.
  destruct (Nat.ltb_spec i (S (Z.to_nat ((bin_label hi - bin_label lo) / timedelta 0 10))));
    [reflexivity | lia].
Qed.

Lemma resample_mean_length df lo hi :
  time_min df = Some lo -> time_max df = Some hi ->
  List.length (resample_mean df)
    = S (Z.to_nat ((bin_label hi - bin_label lo) / timedelta 0 10)).
Proof.
  intros Hlo Hhi. unfold resample_mean. rewrite Hlo, Hhi.
  now rewrite length_map, length_seq.
Qed.

Lemma nth_error_interpolate_from (l : list (option Q)) : forall prev i v,
  nth_error l i = Some (Some v) ->
  nth_error (interpolate_from prev l) i = Some (Some v).
Proof.
  induction l as [| c l IH]; intros prev [| i] v H; simpl in *; try discriminate.
  - injection H as ->. reflexivity.
  - destruct c; simpl; apply IH, H.
Qed.

Lemma nth_error_combine {A B} (l : list A) : forall (l' : list B) i a b,
  nth_error l i = Some a -> nth_error l' i = Some b ->
  nth_error (combine l l') i = Some (a, b).
Proof.
  induction l as [| x l IH]; intros [| y l'] [| i] a b H1 H2; simpl in *;
    try discriminate.
  - congruence.
  - apply IH; assumption.
Qed.

(** A bin that holds readings keeps its mean through [interpolate]. *)
Lemma nth_error_interpolate (df : list (Timestamp * option Q)) i label v :
  nth_error df i = Some (label, Some v) ->
  nth_error (interpolate df) i = Some (label, Some v).
Proof.
  intros H. unfold interpolate. apply nth_error_combine.
  - rewrite nth_error_map, H. reflexivity.
  - apply nth_error_interpolate_from. rewrite nth_error_map, H. reflexivity.
Qed.

Lemma interpolate_length (df : list (Timestamp * option Q)) :
  List.length (interpolate df) = List.length df.
Proof.
  unfold interpolate.
  rewrite length_combine, interpolate_from_length, !length_map. lia.
Qed.

(** The row of [df_10min] for the bin of a kept reading. *)
Lemma condition_bin_of_reading (rows : list Row) (r : Reading) lo hi :
  let g := gap_filter (clean rows) in
  time_min g = Some lo -> time_max g = Some hi ->
  In r g ->
  exists v,
    bin_mean g (bin_label (timestamp r)) = Some v /\
    nth_error (condition rows)
      (Z.to_nat ((bin_label (timestamp r) - bin_label lo) / timedelta 0 10))
      = Some (bin_label (timestamp r), Some v).
Proof.
  intros g Hlo Hhi Hr.
  destruct (bin_mean g (bin_label (timestamp r))) as [v |] eqn:Ev;
    [| exfalso; exact (bin_mean_some g r Hr Ev)].
  exists v. split; [reflexivity|].
  pose proof (time_min_lower g lo Hlo r Hr) as H1.
  pose proof (time_max_upper g hi Hhi r Hr) as H2.
  unfold condition. fold g. apply nth_error_interpolate.
  rewrite (resample_mean_nth g lo hi) by (auto using bin_index_mono).
  rewrite <- (bin_label_index lo (timestamp r) H1), Ev. reflexivity.
Qed.

Lemma condition_length (rows : list Row) lo hi :
  let g := gap_filter (clean rows) in
  time_min g = Some lo -> time_max g = Some hi ->
  List.length (condition rows)
    = S (Z.to_nat ((bin_label hi - bin_label lo) / timedelta 0 10)).
Proof.
  intros g Hlo Hhi. unfold condition. fold g.
  rewrite interpolate_length. apply resample_mean_length; assumption.
Qed.

End GridShape.

(** X9.  The last row of [df_10min] is the ten-minute bin that holds the
    newest usable reading: its timestamp is the start of that bin, at most
    ten minutes before the reading, and its value is the mean AQI of the
    kept readings of that bin.  [last_time] and [current_aqi_real] are read
    from this row. *)
Theorem last_known_is_newest_bin (rows : list App.Row) (m : App.Timestamp) :
  App.time_max (App.clean rows) = Some m ->
  exists v,
    App.iloc_back (App.condition rows) 1 = Some (App.bin_label m, Some v) /\
    App.bin_mean (App.gap_filter (App.clean rows)) (App.bin_label m) = Some v /\
    App.bin_label m <= m < App.bin_label m + App.timedelta 0 10.
Proof.
  intros Hm.
  pose proof (gap_filter_time_max _ _ Hm) as Hhi.
  destruct (time_max_in _ _ Hhi) as (r & Hr & Er).
  destruct (time_min_some (App.gap_filter (App.clean rows))) as [lo Hlo].
  { intros E. rewrite E in Hr. destruct Hr. }
  destruct (condition_bin_of_reading rows r lo m Hlo Hhi Hr) as (v & Hv & Hnth).
  rewrite Er in Hv, Hnth. exists v. split; [|split; [exact Hv|]].
  - unfold App.iloc_back. rewrite nth_error_rev.
    rewrite (condition_length rows lo m Hlo Hhi).
    cbn [Nat.sub Nat.ltb Nat.leb]. rewrite Nat.sub_0_r. exact Hnth.
  - pose proof (bin_label_le m). pose proof (bin_label_gt m). lia.
Qed.

Lemma last_known_is_newest_bin_witness :
  exists v,
    App.iloc_back (App.condition Scenario.quarter_tail) 1
      = Some (App.bin_label (Scenario.at_clock 10 36), Some v) /\
    App.bin_mean (App.gap_filter (App.clean Scenario.quarter_tail))
      (App.bin_label (Scenario.at_clock 10 36)) = Some v /\
    App.bin_label (Scenario.at_clock 10 36) <= Scenario.at_clock 10 36
      < App.bin_label (Scenario.at_clock 10 36) + App.timedelta 0 10.
Proof.
  apply (last_known_is_newest_bin Scenario.quarter_tail (Scenario.at_clock 10 36)).
  vm_compute. reflexivity.
Defined.

(** X10.  [df_10min] never has more than 13 rows, whatever the span of
    the batch, and it has at least one as soon as one row has both a
    timestamp and an AQI. *)
Theorem conditioned_series_length (rows : list App.Row) :
  App.len (App.condition rows) <= 13 /\
  (App.clean rows <> [] -> 1 <= App.len (App.condition rows)).
Proof.
  unfold App.len.
  destruct (App.time_max (App.clean rows)) as [m |] eqn:Hm.
  - pose proof (gap_filter_time_max _ _ Hm) as Hhi.
    destruct (time_max_in _ _ Hhi) as (r & Hr & Er).
    destruct (time_min_some (App.gap_filter (App.clean rows))) as [lo Hlo].
    { intros E. rewrite E in Hr. destruct Hr. }
    rewrite (condition_length rows lo m Hlo Hhi).
    split; [|lia].
    destruct (time_min_in _ _ Hlo) as (rlo & Hrlo & Elo).
    pose proof (time_max_upper _ _ Hhi _ Hrlo) as Hle.
    apply (gap_filter_spec _ m Hm) in Hrlo as [_ Hcut].
    rewrite Elo in Hle, Hcut.
    assert (Hq : (App.bin_label m - App.bin_label lo) / App.timedelta 0 10 <= 12).
    { unfold App.bin_label. pose proof ten_minutes_pos as HT.
      assert (E2 : App.timedelta 2 0 = 12 * App.timedelta 0 10) by reflexivity.
      rewrite E2 in Hcut. set (T := App.timedelta 0 10) in *.
      rewrite <- Z.mul_sub_distr_l, (Z.mul_comm T), Z.div_mul by lia.
      assert (Hd : (m + (-12) * T) / T <= lo / T) by (apply Z.div_le_mono; lia).
      rewrite Z.div_add in Hd by lia. lia. }
    lia.
  - assert (E : App.clean rows = [])
      by (destruct (App.clean rows); [reflexivity | discriminate]).
    unfold App.condition. rewrite E. simpl. split; [lia | congruence].
Qed.

(** X11.  Every timestamp of [df_10min] is a whole number of ten-minute
    steps, so for an accepted input each of the six forecast rows is
    stamped with a time whose minutes end in 0. *)
Theorem forecast_times_on_grid (model_suite : App.ModelSuite)
    (realtime_data sensor_data : App.query) :
  App.get_combined_data realtime_data sensor_data <> [] ->
  4 <= App.len (App.condition (App.get_combined_data realtime_data sensor_data)) ->
  exists preds,
    App.show_future (App.Loaded model_suite) realtime_data sensor_data
      = App.Returns (App.Forecast_table preds) /\
    forall p, In p preds ->
      exists a b c,
        App.Time p = String a (String b (String ":" (String c (String "0" EmptyString)))).
Proof.
  intros Hrows Hlen.
  destruct (show_future_accepted model_suite realtime_data sensor_data Hrows Hlen)
    as (last_known & f & Hl & _ & Hshow).
  eexists. split; [exact Hshow|].
  set (rows := App.get_combined_data realtime_data sensor_data) in *.
  assert (Hgrid : exists j, fst last_known = App.timedelta 0 10 * j).
  { unfold App.iloc_back in Hl. apply nth_error_In, in_rev in Hl.
    apply (in_map fst) in Hl.
    pose proof (condition_labels rows) as Hlab. cbv zeta in Hlab.
    destruct Hlab as [E | (lo & hi & _ & _ & E)]; rewrite E in Hl; [destruct Hl|].
    unfold App.grid in Hl. apply in_map_iff in Hl as (i & <- & _).
    exists (lo / App.timedelta 0 10 + Z.of_nat i). unfold App.bin_label. lia. }
  destruct Hgrid as [j Hj].
  intros p Hp. unfold App.forecast in Hp. apply in_map_iff in Hp as (step & <- & Hstep).
  unfold App.predict_step; cbn [App.Time]. rewrite Hj.
  set (t := App.timedelta 0 10 * j + App.timedelta 0 (10 * step)).
  assert (Hmin : App.minute_of t mod 10 = 0).
  { unfold App.minute_of.
    assert (Et : t = (10 * (j + step)) * App.timedelta 0 1)
      by (unfold t, App.timedelta; lia).
    rewrite Et, Z.div_mul by discriminate.
    rewrite (Z.mod_eq (10 * (j + step)) 60) by lia.
    replace (10 * (j + step) - 60 * (10 * (j + step) / 60))
      with ((j + step - 6 * (10 * (j + step) / 60)) * 10) by lia.
    apply Z.mod_mul. lia. }
  unfold App.strftime_HM, App.two_digits. rewrite Hmin.
  do 3 eexists. reflexivity.
Qed.

Lemma forecast_times_on_grid_witness :
  exists preds,
    App.show_future (App.Loaded Scenario.persistence)
      (Some Scenario.quarter_tail) (Some [])
      = App.Returns (App.Forecast_table preds) /\
    forall p, In p preds ->
      exists a b c,
        App.Time p = String a (String b (String ":" (String c (String "0" EmptyString)))).
Proof.
  apply (forecast_times_on_grid Scenario.persistence (Some Scenario.quarter_tail) (Some [])).
  - discriminate.
  - vm_compute. discriminate.
Defined.

(** X12.  No row of [df_10min] holds NaN: bins without readings are filled
    by the interpolation, and a bin that holds kept readings shows the mean
    of their AQI unchanged. *)
Theorem conditioned_series_values (rows : list App.Row) :
  Forall (fun row => snd row <> None) (App.condition rows) /\
  (forall r, In r (App.gap_filter (App.clean rows)) ->
     exists v,
       App.mean (map App.aqi
                   (filter (fun r' => App.bin_label (App.timestamp r')
                                      =? App.bin_label (App.timestamp r))
                           (App.gap_filter (App.clean rows)))) = Some v /\
       In (App.bin_label (App.timestamp r), Some v) (App.condition rows)).
Proof.
  split; [apply condition_valid|].
  intros r Hr.
  destruct (time_max_some (App.gap_filter (App.clean rows))) as [hi Hhi].
  { intros E. rewrite E in Hr. destruct Hr. }
  destruct (time_min_some (App.gap_filter (App.clean rows))) as [lo Hlo].
  { intros E. rewrite E in Hr. destruct Hr. }
  destruct (condition_bin_of_reading rows r lo hi Hlo Hhi Hr) as (v & Hv & Hnth).
  exists v. split; [exact Hv | eapply nth_error_In, Hnth].
Qed.

(* ================================================================= *)
(** ** Values of the conditioned series *)

Section ValueRange.

Import App.

Variables lo hi : Q.

Lemma fold_plus_from (l : list Q) : forall a, (fold_left Qplus l a == a + Qsum l)%Q.
Proof.
  unfold Qsum. induction l as [| x l IH]; intros a; simpl; [ring|].
  rewrite (IH (a + x)%Q), (IH (0 + x)%Q). ring.
Qed.

Lemma Qsum_range (l : list Q) :
  Forall (within lo hi) l ->
  (inject_Z (Z.of_nat (List.length l)) * lo <= Qsum l
   <= inject_Z (Z.of_nat (List.length l)) * hi)%Q.
Proof.
  induction 1 as [| x l [Hx1 Hx2] _ IH].
  - unfold Qsum. cbn [List.length fold_left Z.of_nat].
    change (inject_Z 0) with 0%Q. lra.
  - unfold Qsum in *. cbn [fold_left List.length].
    rewrite fold_plus_from. unfold Qsum.
    rewrite Nat2Z.inj_succ. unfold Z.succ. rewrite inject_Z_plus.
    change (inject_Z 1) with 1%Q. lra.
Qed.

Lemma mean_range (l : list Q) (v : Q) :
  Forall (within lo hi) l -> mean l = Some v -> within lo hi v.
Proof.
  intros Hall Hv. destruct l as [| x l]; [discriminate|].
  injection Hv as <-.
  pose proof (Qsum_range _ Hall) as [H1 H2].
  set (n := inject_Z (Z.of_nat (List.length (x :: l)))) in *.
  assert (Hn : (0 < n)%Q).
  { unfold n. change 0%Q with (inject_Z 0). rewrite <- Zlt_Qlt. simpl. lia. }
  split.
  - apply Qle_shift_div_l; [exact Hn|]. rewrite Qmult_comm. exact H1.
  - apply Qle_shift_div_r; [exact Hn|]. rewrite Qmult_comm. exact H2.
Qed.

Lemma next_valid_in (l : list (option Q)) (d : nat) (b : Q) :
  next_valid l = Some (d, b) -> In (Some b) l.
Proof.
  revert d. induction l as [| [v |] l IH]; intros d H; simpl in *; try discriminate.
  - injection H as _ ->. now left.
  - destruct (next_valid l) as [[d' b'] |]; [|discriminate].
    injection H as _ ->. right. eapply IH. reflexivity.
Qed.

Lemma between_range (a b : Q) (i d : nat) :
  within lo hi a -> within lo hi b ->
  within lo hi (a + (b - a) * inject_Z (Z.of_nat i) / inject_Z (Z.of_nat (i + d + 1)))%Q.
Proof.
  intros [Ha1 Ha2] [Hb1 Hb2].
  set (I := inject_Z (Z.of_nat i)). set (D := inject_Z (Z.of_nat (i + d + 1))).
  assert (HI : (0 <= I)%Q)
    by (unfold I; change 0%Q with (inject_Z 0); rewrite <- Zle_Qle; lia).
  assert (HD : (0 < D)%Q)
    by (unfold D; change 0%Q with (inject_Z 0); rewrite <- Zlt_Qlt; lia).
  assert (HID : (I <= D)%Q) by (unfold I, D; rewrite <- Zle_Qle; lia).
  assert (E : (a + (b - a) * I / D == (a * (D - I) + b * I) / D)%Q)
    by (field; lra).
  unfold within. rewrite E. split.
  - apply Qle_shift_div_l; [exact HD|]. nra.
  - apply Qle_shift_div_r; [exact HD|]. nra.
Qed.

Lemma interpolate_from_range (l : list (option Q)) : forall prev,
  (forall v, In (Some v) l -> within lo hi v) ->
  (forall a i, prev = Some (a, i) -> within lo hi a) ->
  forall v, In (Some v) (interpolate_from prev l) -> within lo hi v.
Proof.
  induction l as [| c l IH]; intros prev Hl Hprev v Hv; [destruct Hv|].
  destruct c as [x |]; cbn [interpolate_from] in Hv.
  - destruct Hv as [[= <-] | Hv]; [apply Hl; now left|].
    apply (IH (Some (x, 1%nat))); auto.
    + intros w Hw. apply Hl. now right.
    + intros a i [= <- _]. apply Hl. now left.
  - destruct Hv as [Hv | Hv].
    + destruct prev as [[a i] |]; [|discriminate].
      pose proof (Hprev a i eq_refl) as Ha.
      destruct (next_valid l) as [[d b] |] eqn:N.
      * injection Hv as <-. apply between_range; [exact Ha|].
        apply Hl. right. apply (next_valid_in _ _ _ N).
      * injection Hv as <-. exact Ha.
    + apply (IH (option_map (fun '(a, i) => (a, S i)) prev)); auto.
      * intros w Hw. apply Hl. now right.
      * intros a i E. destruct prev as [[a' i'] |]; [|discriminate].
        injection E as <- _. apply (Hprev a' i' eq_refl).
Qed.

Lemma reading_from_row (rows : list Row) (r : Reading) :
  In r (gap_filter (clean rows)) ->
  exists row, In row rows /\ row_aqi row = Some (aqi r).
Proof.
  intros Hr.
  assert (Hc : In r (clean rows)).
  { unfold gap_filter in Hr. destruct (cutoff_time (clean rows)); [|destruct Hr].
    apply filter_In in Hr. tauto. }
  unfold clean, drop_duplicates in Hc. apply In_drop_duplicates_from in Hc.
  unfold dropna in Hc. apply in_flat_map in Hc as (row & Hrow & Hin).
  exists row. split; [apply In_sort_values, Hrow|].
  destruct (row_time row); [|destruct Hin].
  destruct (row_aqi row); [|destruct Hin].
  destruct Hin as [<- | []]. reflexivity.
Qed.

Lemma condition_range (rows : list Row) :
  (forall row a, In row rows -> row_aqi row = Some a -> within lo hi a) ->
  forall label v, In (label, Some v) (condition rows) -> within lo hi v.
Proof.
  intros Hrows label v Hv. unfold condition, interpolate in Hv.
  apply in_combine_r in Hv.
  set (g := gap_filter (clean rows)) in *.
  apply (interpolate_from_range (map snd (resample_mean g)) None); auto;
    [| discriminate].
  intros w Hw. apply in_map_iff in Hw as ([lab c] & Ec & Hin). simpl in Ec. subst c.
  unfold resample_mean in Hin.
  destruct (time_min g); [|destruct Hin]. destruct (time_max g); [|destruct Hin].
  apply in_map_iff in Hin as (i & E & _). injection E as _ Hmean.
  unfold bin_mean in Hmean. apply (mean_range _ _) in Hmean; [exact Hmean|].
  apply Forall_map, Forall_forall. intros r Hr. apply filter_In in Hr as [Hr _].
  destruct (reading_from_row rows r Hr) as (row & Hrow & Ea).
  apply (Hrows row _ Hrow Ea).
Qed.

End ValueRange.

(** X13.  Averaging and interpolation stay inside the data: if every AQI
    of the batch lies between [lo] and [hi], so does every value of
    [df_10min]. *)
Theorem conditioned_values_within (lo hi : Q) (rows : list App.Row) :
  (forall row a, In row rows -> App.row_aqi row = Some a -> (lo <= a <= hi)%Q) ->
  forall label v, In (label, Some v) (App.condition rows) -> (lo <= v <= hi)%Q.
Proof.
  intros Hrows label v Hv.
  apply (condition_range lo hi rows Hrows label v Hv).
Qed.

Lemma conditioned_values_within_witness :
  Forall (fun row => exists v, snd row = Some v /\ (40 <= v <= 42)%Q)
    (App.condition Scenario.three_points).
Proof.
  apply Forall_forall. intros [label c] Hin.
  destruct c as [v |].
  - exists v. split; [reflexivity|].
    apply (conditioned_values_within 40 42 Scenario.three_points) with (label := label);
      [|exact Hin].
    intros row a [<- | [<- | [<- | []]]] [= <-]; split; vm_compute; discriminate.
  - exfalso. pose proof (condition_valid Scenario.three_points) as V.
    rewrite Forall_forall in V. apply (V _ Hin). reflexivity.
Defined.

(** X14.  Conditioning does not depend on where the ten-minute grid starts
    counting: rows moved by a whole number of ten-minute steps give the
    same series, moved by as much, as long as every timestamp lies in the
    calendar of the model before and after the move. *)
Theorem condition_time_invariant (rows : list App.Row) (bins : Z) :
  (forall r t, In r rows -> App.row_time r = Some t ->
     App.in_calendar t /\ App.in_calendar (App.timedelta 0 10 * bins + t)) ->
  App.condition (map (App.shift_row (App.timedelta 0 10 * bins)) rows)
    = map (App.shift_label (App.timedelta 0 10 * bins)) (App.condition rows).
Proof.
  intros _. apply (condition_shift (App.timedelta 0 10 * bins) bins eq_refl).
Qed.

(** Three readings on day 20000, moved three bins later. *)
Lemma condition_time_invariant_witness :
  App.condition (map (App.shift_row (App.timedelta 0 10 * 3)) Scenario.three_points)
    = map (App.shift_label (App.timedelta 0 10 * 3))
          (App.condition Scenario.three_points).
Proof.
  apply (condition_time_invariant Scenario.three_points 3).
  intros r t [<- | [<- | [<- | []]]] [= <-]; split; vm_compute;
    split; discriminate.
Defined.

(* ================================================================= *)
(** ** More on the forecast *)



(* ================================================================= *)
(** ** More on the feature vector *)

Lemma iloc_aqi_app (old recent : list (App.Timestamp * option Q)) (k : nat) :
  (1 <= k <= List.length recent)%nat ->
  App.iloc_aqi (old ++ recent) k = App.iloc_aqi recent k.
Proof.
  intros H. unfold App.iloc_aqi, App.iloc_back.
  rewrite rev_app_distr, nth_error_app1 by (rewrite length_rev; lia). reflexivity.
Qed.

Lemma iloc_tail_app {A} (old recent : list A) (k : nat) :
  (k <= List.length recent)%nat ->
  App.iloc_tail (old ++ recent) k = App.iloc_tail recent k.
Proof.
  intros H. unfold App.iloc_tail.
  rewrite length_app, skipn_app, skipn_all2 by lia.
  simpl. f_equal. lia.
Qed.

(** X17.  The feature vector reads the last six rows of [df_10min] only:
    rows further back do not change it. *)
Theorem build_features_last_six (old recent : list (App.Timestamp * option Q)) :
  (6 <= List.length recent)%nat ->
  App.build_features (old ++ recent) = App.build_features recent.
Proof.
  intros H. unfold App.build_features.
  rewrite !iloc_aqi_app, iloc_tail_app by lia.
  rewrite length_app.
  destruct (Nat.ltb_spec 1 (List.length old + List.length recent)); [|lia].
  destruct (Nat.ltb_spec 2 (List.length old + List.length recent)); [|lia].
  destruct (Nat.ltb_spec 5 (List.length old + List.length recent)); [|lia].
  destruct (Nat.ltb_spec 1 (List.length recent)); [|lia].
  destruct (Nat.ltb_spec 2 (List.length recent)); [|lia].
  destruct (Nat.ltb_spec 5 (List.length recent)); [|lia].
  reflexivity.
Qed.

Lemma build_features_last_six_witness :
  App.build_features
    ([(Scenario.at_clock 9 0, Some 90%Q)]
       ++ map (fun i => (Scenario.at_clock 10 (10 * Z.of_nat i), Some (inject_Z (Z.of_nat i))))
            (seq 0 6))
  = App.build_features
      (map (fun i => (Scenario.at_clock 10 (10 * Z.of_nat i), Some (inject_Z (Z.of_nat i))))
         (seq 0 6)).
Proof.
  apply (build_features_last_six [(Scenario.at_clock 9 0, Some 90%Q)]).
  simpl. lia.
Defined.

(** X18.  On a frame of four rows or more, which is all [show_future]
    lets through, the first three lags are always the last three values;
    [aqi_lag_6] is the value six rows back when there are six rows, and a
    copy of [aqi_lag_3] when there are only four or five. *)
Theorem build_features_cold_lags (df : list (App.Timestamp * option Q)) :
  (4 <= List.length df)%nat ->
  exists f,
    App.build_features df = Some f /\
    App.iloc_aqi df 1 = Some (App.aqi_lag_1 f) /\
    App.iloc_aqi df 2 = Some (App.aqi_lag_2 f) /\
    App.iloc_aqi df 3 = Some (App.aqi_lag_3 f) /\
    ((List.length df < 6)%nat -> App.aqi_lag_6 f = App.aqi_lag_3 f) /\
    ((6 <= List.length df)%nat -> App.iloc_aqi df 6 = Some (App.aqi_lag_6 f)).
Proof.
  intros H. unfold App.build_features.
  destruct (iloc_aqi_some df 1) as [l1 E1]; [lia|].
  destruct (iloc_aqi_some df 2) as [l2 E2]; [lia|].
  destruct (iloc_aqi_some df 3) as [l3 E3]; [lia|].
  rewrite E1, E2, E3.
  destruct (Nat.ltb_spec 1 (List.length df)); [|lia].
  destruct (Nat.ltb_spec 2 (List.length df)); [|lia].
  destruct (Nat.ltb_spec 5 (List.length df)).
  - destruct (iloc_aqi_some df 6) as [l6 E6]; [lia|]. rewrite E6.
    eexists. split; [reflexivity|]. cbn. repeat split; auto. lia.
  - eexists. split; [reflexivity|]. cbn. repeat split; auto. lia.
Qed.

Lemma build_features_cold_lags_witness :
  exists f,
    App.build_features (App.condition Scenario.quarter_tail) = Some f /\
    App.aqi_lag_6 f = App.aqi_lag_3 f.
Proof.
  destruct (build_features_cold_lags (App.condition Scenario.quarter_tail))
    as (f & Hf & _ & _ & _ & Hcold & _).
  - vm_compute. lia.
  - exists f. split; [exact Hf|]. apply Hcold. vm_compute. lia.
Defined.

(* ================================================================= *)
(** ** Live dashboard *)

Lemma py_min_mono (a a' b b' : Q) :
  (a <= a')%Q -> (b <= b')%Q -> (App.py_min a b <= App.py_min a' b')%Q.
Proof.
  intros Ha Hb. unfold App.py_min.
  destruct (Qle_bool a b) eqn:E; destruct (Qle_bool a' b') eqn:E';
    try apply Qle_bool_iff in E; try apply Qle_bool_iff in E';
    try apply Qle_bool_false in E; try apply Qle_bool_false in E'; lra.
Qed.

Lemma py_max_mono (a a' b b' : Q) :
  (a <= a')%Q -> (b <= b')%Q -> (App.py_max a b <= App.py_max a' b')%Q.
Proof.
  intros Ha Hb. unfold App.py_max.
  destruct (Qle_bool b a) eqn:E; destruct (Qle_bool b' a') eqn:E';
    try apply Qle_bool_iff in E; try apply Qle_bool_iff in E';
    try apply Qle_bool_false in E; try apply Qle_bool_false in E'; lra.
Qed.

(** Turns the comparisons of [pointer_pos] and [status_color] into facts
    about [inject_Z aqi] and the constants into fractions. *)
Ltac pointer_facts :=
  unfold App.seg_width, Qdiv in *;
  change (/ 50)%Q with (1 # 50)%Q in *;
  change (/ 100)%Q with (1 # 100)%Q in *;
  change (/ 6)%Q with (1 # 6)%Q in *;
  unfold Z.sub in *;
  rewrite ?inject_Z_plus, ?inject_Z_opp in *;
  repeat match goal with
         | H : (_ <= _)%Z |- _ => rewrite Zle_Qle in H
         | H : (_ < _)%Z |- _ => rewrite Zlt_Qlt in H
         end;
  change (inject_Z 50) with 50%Q in *;
  change (inject_Z 100) with 100%Q in *;
  change (inject_Z 150) with 150%Q in *;
  change (inject_Z 200) with 200%Q in *;
  change (inject_Z 300) with 300%Q in *.

Ltac split_min :=
  unfold App.py_min, App.py_max in *;
  repeat match goal with
         | |- context [Qle_bool ?x ?y] =>
             lazymatch x with context [Qle_bool _ _] => fail | _ => idtac end;
             lazymatch y with context [Qle_bool _ _] => fail | _ => idtac end;
             let E := fresh "E" in
             destruct (Qle_bool x y) eqn:E;
             [apply Qle_bool_iff in E | apply Qle_bool_false in E]
         end.

(** X19.  The pointer of the colour bar stays between 1 and 99 percent for
    every AQI, negative values included, and it lies in the sixth of the bar
    that carries the status text shown next to it. *)
Theorem pointer_in_status_segment (aqi : Z) :
  (1 <= App.pointer_pos aqi <= 99)%Q /\
  (fst (App.status_color aqi) = "Good"%string ->
     (App.pointer_pos aqi <= App.seg_width)%Q) /\
  (fst (App.status_color aqi) = "Moderate"%string ->
     (App.seg_width <= App.pointer_pos aqi <= 2 * App.seg_width)%Q) /\
  (fst (App.status_color aqi) = "Poor"%string ->
     (2 * App.seg_width <= App.pointer_pos aqi <= 3 * App.seg_width)%Q) /\
  (fst (App.status_color aqi) = "Unhealthy"%string ->
     (3 * App.seg_width <= App.pointer_pos aqi <= 4 * App.seg_width)%Q) /\
  (fst (App.status_color aqi) = "Very Unhealthy"%string ->
     (4 * App.seg_width <= App.pointer_pos aqi <= 5 * App.seg_width)%Q) /\
  (fst (App.status_color aqi) = "Hazardous"%string ->
     (5 * App.seg_width <= App.pointer_pos aqi <= 6 * App.seg_width)%Q).
Proof.
  unfold App.status_color, App.pointer_pos.
  destruct (Z.leb_spec aqi 50); [|destruct (Z.leb_spec aqi 100);
    [|destruct (Z.leb_spec aqi 150); [|destruct (Z.leb_spec aqi 200);
      [|destruct (Z.leb_spec aqi 300)]]]];
    cbn [fst]; pointer_facts; split_min;
    repeat match goal with
           | |- _ /\ _ => split
           | |- (_ = _) -> _ => let Hs := fresh "Hs" in intro Hs; try discriminate Hs
           end; lra.
Qed.

Lemma pointer_in_status_segment_witness :
  (2 * App.seg_width <= App.pointer_pos 120 <= 3 * App.seg_width)%Q.
Proof.
  apply (pointer_in_status_segment 120). reflexivity.
Defined.

Lemma pointer_pos_mono (a b : Z) :
  a <= b -> (App.pointer_pos a <= App.pointer_pos b)%Q.
Proof.
  intros Hab. unfold App.pointer_pos.
  apply py_max_mono; [lra|]. apply py_min_mono; [lra|].
  destruct (Z.leb_spec a 50); [|destruct (Z.leb_spec a 100);
    [|destruct (Z.leb_spec a 150); [|destruct (Z.leb_spec a 200);
      [|destruct (Z.leb_spec a 300)]]]];
  (destruct (Z.leb_spec b 50); [|destruct (Z.leb_spec b 100);
    [|destruct (Z.leb_spec b 150); [|destruct (Z.leb_spec b 200);
      [|destruct (Z.leb_spec b 300)]]]]);
  try lia; pointer_facts; split_min; lra.
Qed.

(** X20.  A higher AQI never moves the pointer to the left. *)
Theorem pointer_pos_monotone (a b : Z) :
  a <= b -> (App.pointer_pos a <= App.pointer_pos b)%Q.
Proof. apply pointer_pos_mono. Qed.

Lemma pointer_pos_monotone_witness :
  (App.pointer_pos 200 <= App.pointer_pos 201)%Q.
Proof.
  apply (pointer_pos_monotone 200 201). lia.
Defined.

(** X21.  What the device uploads and what the dashboard shows fit
    together: for every ADC reading in [0, 4095] the AQI computed by the
    firmware is shown as "Good", "Moderate" or "Poor", and the pointer never
    passes the middle of the bar. *)
Theorem device_aqi_on_dashboard (raw : Z) :
  0 <= raw <= 4095 ->
  let aqi := Firmware.calculate_aqi_pm25 (Firmware.mq135_to_pm25 raw) in
  (fst (App.status_color aqi) = "Good"%string \/
   fst (App.status_color aqi) = "Moderate"%string \/
   fst (App.status_color aqi) = "Poor"%string) /\
  (App.pointer_pos aqi <= 50)%Q.
Proof.
  intros Hraw aqi.
  assert (Haqi : 0 <= aqi <= 150)
    by (apply calculate_aqi_pm25_range, mq135_to_pm25_nonneg; lia).
  split.
  - unfold App.status_color.
    destruct (Z.leb_spec aqi 50); [auto|].
    destruct (Z.leb_spec aqi 100); [auto|].
    destruct (Z.leb_spec aqi 150); [auto | lia].
  - eapply Qle_trans; [apply (pointer_pos_mono aqi 150); lia|].
    vm_compute. discriminate.
Qed.

Lemma device_aqi_on_dashboard_witness :
  fst (App.status_color (Firmware.calculate_aqi_pm25 (Firmware.mq135_to_pm25 4095)))
    = "Poor"%string /\
  (App.pointer_pos (Firmware.calculate_aqi_pm25 (Firmware.mq135_to_pm25 4095)) <= 50)%Q.
Proof.
  assert (R : 0 <= 4095 <= 4095) by lia.
  destruct (device_aqi_on_dashboard 4095 R) as [_ Hp].
  split; [vm_compute; reflexivity | exact Hp].
Defined.

Lemma sorted_last_max {A} (R : A -> A -> Prop) (l : list A) (x : A) :
  StronglySorted R l ->
  nth_error (rev l) 0 = Some x ->
  forall y, In y l -> y = x \/ R y x.
Proof.
  induction 1 as [| a l Hs IH Hall]; intros Hx y Hy; [destruct Hy|].
  cbn [rev] in Hx.
  destruct l as [| b l'].
  - simpl in Hx. injection Hx as <-. destruct Hy as [-> | []]. now left.
  - assert (Hx' : nth_error (rev (b :: l')) 0 = Some x).
    { rewrite nth_error_app1 in Hx; [exact Hx|].
      rewrite length_rev. simpl. lia. }
    destruct Hy as [<- | Hy]; [|apply (IH Hx' y Hy)].
    right. rewrite Forall_forall in Hall. apply Hall.
    apply in_rev. eapply nth_error_In, Hx'.
Qed.

Lemma In_dropna_time (rows : list App.Row) (r : App.Row) :
  In r (App.dropna_time rows) <-> In r rows /\ exists t, App.row_time r = Some t.
Proof.
  unfold App.dropna_time. rewrite filter_In. split; intros [Hr H]; split; auto.
  - destruct (App.row_time r) as [t |]; [eauto | discriminate].
  - destruct H as [t ->]. reflexivity.
Qed.

(** X22.  What the live dashboard does with the rows that came back.
    Without a [created_at] or [updated_at] column it reports the missing
    timestamp column; a timestamp that [pd.to_datetime] cannot parse makes
    it raise; when no timestamp is left after parsing it shows "No valid
    data".  Otherwise it takes a row whose timestamp is the latest of the
    batch: with an [aqi] column it shows that row's AQI, truncated to an
    integer and 0 when missing, with the matching status, colour and
    pointer; without an [aqi] column it raises a KeyError. *)
Theorem live_monitor_shows_newest (rows : list Page.LiveRow) :
  rows <> [] ->
  (Page.has_timestamp_column rows = false ->
     Page.show_live_monitor (Some rows)
       = Page.LiveReturns Page.Error_missing_timestamp_column) /\
  (Page.has_timestamp_column rows = true -> Page.raises_on rows = true ->
     exists e, Page.show_live_monitor (Some rows) = Page.LiveRaises e) /\
  (Page.has_timestamp_column rows = true -> Page.raises_on rows = false ->
     (forall r t, In r rows -> Page.stamp r <> Some (Page.Parses t)) ->
     Page.show_live_monitor (Some rows) = Page.LiveReturns Page.Warning_no_valid_data) /\
  (Page.raises_on rows = false ->
   forall r0 t0, In r0 rows -> Page.stamp r0 = Some (Page.Parses t0) ->
     exists latest t,
       In latest rows /\ Page.stamp latest = Some (Page.Parses t) /\
       (forall r t', In r rows -> Page.stamp r = Some (Page.Parses t') -> t' <= t) /\
       (Page.live_has_aqi rows = true ->
          let aqi := App.latest_aqi (Page.live_row latest) in
          Page.show_live_monitor (Some rows)
            = Page.LiveReturns
                (Page.Monitor aqi (fst (App.status_color aqi))
                   (snd (App.status_color aqi)) (App.pointer_pos aqi))) /\
       (Page.live_has_aqi rows = false ->
          Page.show_live_monitor (Some rows) = Page.LiveRaises Page.KeyError)).
Proof.
  intros Hne.
  assert (Hshow : Page.show_live_monitor (Some rows)
    = if negb (Page.has_timestamp_column rows) then
        Page.LiveReturns Page.Error_missing_timestamp_column
      else if Page.raises_on rows then Page.LiveRaises Page.ValueError
      else
        match App.dropna_time (map Page.live_row rows) with
        | [] => Page.LiveReturns Page.Warning_no_valid_data
        | df =>
            match App.iloc_back (App.sort_values df) 1 with
            | None => Page.LiveRaises App.IndexError
            | Some latest =>
                if negb (Page.live_has_aqi rows) then Page.LiveRaises Page.KeyError
                else
                  let aqi := App.latest_aqi latest in
                  Page.LiveReturns (Page.Monitor aqi (fst (App.status_color aqi))
                                      (snd (App.status_color aqi)) (App.pointer_pos aqi))
            end
        end).
  { unfold Page.show_live_monitor. cbn [Page.get_latest_data].
    destruct rows; [congruence | reflexivity]. }
  rewrite Hshow. clear Hshow.
  split; [|split; [|split]].
  - intros ->. reflexivity.
  - intros -> ->. cbn [negb]. eauto.
  - intros -> -> Hnone. cbn [negb].
    assert (E : App.dropna_time (map Page.live_row rows) = []).
    { destruct (App.dropna_time (map Page.live_row rows)) as [| x l] eqn:E;
        [reflexivity|].
      assert (Hx : In x (App.dropna_time (map Page.live_row rows)))
        by (rewrite E; now left).
      apply In_dropna_time in Hx as [Hx [t Ht]].
      apply in_map_iff in Hx as (r & <- & Hr).
      unfold Page.live_row in Ht; cbn [App.row_time] in Ht.
      destruct (Page.stamp r) as [[t' | |] |] eqn:S; try discriminate.
      exfalso. apply (Hnone r t' Hr S). }
    rewrite E. reflexivity.
  - intros Hparse r0 t0 Hr0 Ht0.
    assert (Hcol : Page.has_timestamp_column rows = true).
    { apply existsb_exists. exists r0. split; [exact Hr0|]. now rewrite Ht0. }
    rewrite Hcol, Hparse. cbn [negb].
    set (df := App.dropna_time (map Page.live_row rows)).
    assert (Hin : forall x, In x (App.sort_values df) <->
              exists r t, In r rows /\ Page.stamp r = Some (Page.Parses t) /\
                          x = Page.live_row r).
    { intros x. unfold df. rewrite In_sort_values, In_dropna_time, in_map_iff. split.
      - intros [(r & <- & Hr) [t Ht]].
        unfold Page.live_row in Ht; cbn [App.row_time] in Ht.
        destruct (Page.stamp r) as [[t' | |] |] eqn:S; try discriminate.
        exists r, t'. auto.
      - intros (r & t & Hr & S & ->). split; [eauto|].
        exists t. unfold Page.live_row; cbn [App.row_time]. now rewrite S. }
    assert (Hdf : df <> []).
    { intros E. assert (H0 : In (Page.live_row r0) (App.sort_values df))
        by (apply Hin; eauto).
      rewrite E in H0. destruct H0. }
    assert (Hlen : (1 <= List.length (App.sort_values df))%nat).
    { assert (H0 : In (Page.live_row r0) (App.sort_values df)) by (apply Hin; eauto).
      destruct (App.sort_values df); [destruct H0 | simpl; lia]. }
    destruct (iloc_back_some (App.sort_values df) 1) as [latest Hl]; [lia|].
    assert (Hlat : In latest (App.sort_values df))
      by (unfold App.iloc_back in Hl; apply in_rev; eapply nth_error_In, Hl).
    destruct (proj1 (Hin latest) Hlat) as (rl & t & Hrl & Sl & ->).
    exists rl, t. split; [exact Hrl|]. split; [exact Sl|]. split; [|split].
    + intros r t' Hr S.
      assert (Hrd : In (Page.live_row r) (App.sort_values df)) by (apply Hin; eauto).
      destruct (sorted_last_max _ (App.sort_values df) (Page.live_row rl)
                  (sort_values_sorted _) Hl _ Hrd) as [E | Hle].
      * apply (f_equal App.row_time) in E.
        unfold Page.live_row in E; cbn [App.row_time] in E.
        rewrite S, Sl in E. injection E as ->. lia.
      * unfold Page.live_row in Hle; cbn [App.row_time] in Hle.
        rewrite S, Sl in Hle. simpl in Hle. now apply Z.leb_le.
    + intros ->. cbn [negb]. destruct df; [congruence|]. rewrite Hl. reflexivity.
    + intros ->. cbn [negb]. destruct df; [congruence|]. rewrite Hl. reflexivity.
Qed.

Lemma live_monitor_shows_newest_witness :
  exists latest,
    In latest Scenario.live_records /\
    Page.stamp latest = Some (Page.Parses (Scenario.at_clock 10 20)) /\
    Page.show_live_monitor (Some Scenario.live_records)
      = Page.LiveReturns (Page.Monitor 42 "Good" "#00e400" (App.pointer_pos 42)).
Proof.
  assert (Hne : Scenario.live_records <> []) by discriminate.
  destruct (live_monitor_shows_newest Scenario.live_records Hne) as (_ & _ & _ & Hnew).
  destruct (Hnew eq_refl
              {| Page.stamp := Some (Page.Parses (Scenario.at_clock 10 20));
                 Page.live_aqi := Some (Some (425 # 10)%Q) |}
              (Scenario.at_clock 10 20))
    as (latest & t & Hin & Ht & Hmax & Hshow & _).
  - simpl. auto.
  - reflexivity.
  - exists latest. split; [exact Hin|].
    assert (Et : t = Scenario.at_clock 10 20).
    { apply Z.le_antisymm.
      - destruct Hin as [<- | [<- | [<- | [<- | []]]]]; try discriminate Ht;
          injection Ht as <-; vm_compute; discriminate.
      - apply (Hmax {| Page.stamp := Some (Page.Parses (Scenario.at_clock 10 20));
                       Page.live_aqi := Some (Some (425 # 10)%Q) |});
          [simpl; auto | reflexivity]. }
    split; [rewrite Ht, Et; reflexivity|].
    vm_compute. reflexivity.
Defined.

(** X23.  [get_combined_data] asks for the hourly history only when fewer
    than 1000 live rows came back; when it asks and that query fails, the
    live rows are thrown away with it and the forecast page reports
    "Collecting data". *)
Theorem history_failure_hides_live_rows (model_suite : App.ModelSuite)
    (rows_live : list App.Row) :
  (1000 <= App.len rows_live ->
     forall sensor_data, App.get_combined_data (Some rows_live) sensor_data = rows_live) /\
  (App.len rows_live < 1000 ->
     App.get_combined_data (Some rows_live) None = [] /\
     App.show_future (App.Loaded model_suite) (Some rows_live) None
       = App.Returns App.Warning_collecting_data).
Proof.
  unfold App.len. split.
  - intros H sensor_data. unfold App.get_combined_data.
    destruct (Z.ltb_spec (Z.of_nat (List.length rows_live)) 1000); [lia | reflexivity].
  - intros H.
    assert (E : App.get_combined_data (Some rows_live) None = []).
    { unfold App.get_combined_data.
      destruct (Z.ltb_spec (Z.of_nat (List.length rows_live)) 1000); [reflexivity | lia]. }
    split; [exact E|]. unfold App.show_future. rewrite E. reflexivity.
Qed.

Lemma history_failure_hides_live_rows_witness :
  App.get_combined_data (Some Scenario.three_points) None = [] /\
  App.show_future (App.Loaded Scenario.persistence) (Some Scenario.three_points) None
    = App.Returns App.Warning_collecting_data.
Proof.
  apply (history_failure_hides_live_rows Scenario.persistence Scenario.three_points).
  vm_compute. reflexivity.
Defined.

(* ================================================================= *)
(** ** Log analysis *)

Lemma filter_not_id_fixed (columns : list string) :
  ~ In "id"%string columns ->
  filter (fun c => negb (String.eqb c "id")) columns = columns.
Proof.
  induction columns as [| c l IH]; intros H; [reflexivity|].
  cbn [filter]. destruct (String.eqb_spec c "id") as [-> | NE].
  - exfalso. apply H. now left.
  - cbn [negb]. f_equal. apply IH. intros Hin. apply H. now right.
Qed.

Lemma filter_twice {A} (p : A -> bool) (l : list A) :
  filter p (filter p l) = filter p l.
Proof.
  induction l as [| a l IH]; [reflexivity|].
  cbn [filter]. destruct (p a) eqn:E; [|exact IH].
  cbn [filter]. rewrite E. f_equal. exact IH.
Qed.

Lemma id_first_perm (columns : list string) :
  NoDup columns -> In "id"%string columns ->
  Permutation ("id"%string :: filter (fun c => negb (String.eqb c "id")) columns) columns.
Proof.
  induction columns as [| c l IH]; intros Hnd Hin; [destruct Hin|].
  inversion Hnd as [| ? ? Hc Hnd']; subst.
  cbn [filter]. destruct (String.eqb_spec c "id") as [-> | NE].
  - cbn [negb]. rewrite filter_not_id_fixed by exact Hc. reflexivity.
  - cbn [negb]. destruct Hin as [-> | Hin]; [congruence|].
    rewrite perm_swap. constructor. apply IH; assumption.
Qed.

(** X24.  Moving the [id] column to the front keeps every column exactly
    once and the other columns in their order; a frame without an [id]
    column is left as it is, and doing it twice changes nothing more. *)
Theorem id_first_reorders (columns : list string) :
  NoDup columns ->
  Permutation (App.id_first columns) columns /\
  (In "id"%string columns ->
     App.id_first columns
       = "id"%string :: filter (fun c => negb (String.eqb c "id")) columns) /\
  (~ In "id"%string columns -> App.id_first columns = columns) /\
  App.id_first (App.id_first columns) = App.id_first columns.
Proof.
  intros Hnd. unfold App.id_first.
  destruct (existsb (String.eqb "id") columns) eqn:E.
  - assert (Hin : In "id"%string columns).
    { apply existsb_exists in E as (c & Hc & Ec).
      apply String.eqb_eq in Ec. now subst c. }
    split; [apply id_first_perm; assumption|].
    split; [reflexivity|]. split; [intros H; contradiction|].
    cbn [existsb]. rewrite String.eqb_refl. cbn [orb filter].
    rewrite String.eqb_refl. cbn [negb]. f_equal. apply filter_twice.
  - assert (Hnot : ~ In "id"%string columns).
    { intros Hin. apply Bool.not_true_iff_false in E. apply E.
      apply existsb_exists. exists "id"%string. split; [exact Hin | apply String.eqb_refl]. }
    split; [reflexivity|]. split; [intros H; contradiction|].
    split; [reflexivity|]. rewrite E. reflexivity.
Qed.

Lemma id_first_reorders_witness :
  App.id_first ["created_at"; "id"; "aqi"]%string = ["id"; "created_at"; "aqi"]%string /\
  Permutation (App.id_first ["created_at"; "id"; "aqi"]%string)
    ["created_at"; "id"; "aqi"]%string.
Proof.
  assert (Hnd : NoDup ["created_at"; "id"; "aqi"]%string).
  { repeat constructor; simpl; intuition discriminate. }
  destruct (id_first_reorders _ Hnd) as (Hperm & _).
  split; [reflexivity | exact Hperm].
Defined.

(* ================================================================= *)
(** ** The forecast page and the calendar *)

Section WholeDays.

Import App.

Variables days delta : Z.
Hypothesis delta_days : delta = timedelta (24 * days) 0.

Lemma hour_of_days (t : Timestamp) : hour_of (delta + t) = hour_of t.
Proof.
  unfold hour_of. rewrite delta_days.
  replace (timedelta (24 * days) 0 + t) with (t + (24 * days) * timedelta 1 0)
    by (unfold timedelta; lia).
  rewrite Z.div_add by discriminate.
  rewrite (Z.mul_comm 24 days), Z.mod_add by discriminate. reflexivity.
Qed.

Lemma minute_of_days (t : Timestamp) : minute_of (delta + t) = minute_of t.
Proof.
  unfold minute_of. rewrite delta_days.
  replace (timedelta (24 * days) 0 + t) with (t + ((24 * days) * 60) * timedelta 0 1)
    by (unfold timedelta; lia).
  rewrite Z.div_add by discriminate.
  rewrite Z.mod_add by discriminate. reflexivity.
Qed.

Lemma predict_step_days model_suite last_time f bias step :
  predict_step model_suite (delta + last_time) f bias step
    = predict_step model_suite last_time f bias step.
Proof.
  unfold predict_step, feature_row, strftime_HM.
  rewrite <- !Z.add_assoc, !hour_of_days, !minute_of_days. reflexivity.
Qed.

Lemma forecast_days model_suite last_time current f :
  forecast model_suite (delta + last_time) current f
    = forecast model_suite last_time current f.
Proof.
  unfold forecast, raw_pred_t1, feature_row.
  rewrite <- !Z.add_assoc, !hour_of_days, !minute_of_days.
  apply map_ext. intros step. apply predict_step_days.
Qed.

Lemma get_combined_data_shift (realtime_data sensor_data : query) :
  get_combined_data (option_map (map (shift_row delta)) realtime_data)
                    (option_map (map (shift_row delta)) sensor_data)
    = map (shift_row delta) (get_combined_data realtime_data sensor_data).
Proof.
  destruct realtime_data as [live |]; [|reflexivity].
  cbn [option_map get_combined_data]. rewrite length_map.
  destruct (_ <? 1000); [|reflexivity].
  destruct sensor_data as [hist |]; [|reflexivity].
  cbn [option_map]. now rewrite map_app.
Qed.

Lemma show_future_days (load : load_result) (realtime_data sensor_data : query) :
  show_future load (option_map (map (shift_row delta)) realtime_data)
                   (option_map (map (shift_row delta)) sensor_data)
    = show_future load realtime_data sensor_data.
Proof.
  unfold show_future. destruct load as [model_suite | e]; [|reflexivity].
  rewrite get_combined_data_shift.
  generalize (get_combined_data realtime_data sensor_data) as rows. intros rows.
  destruct rows as [| r rows']; [reflexivity|].
  cbn [map].
  change (shift_row delta r :: map (shift_row delta) rows')
    with (map (shift_row delta) (r :: rows')).
  set (rows := r :: rows'). cbv zeta.
  assert (Hbins : delta = timedelta 0 10 * (144 * days))
    by (rewrite delta_days; unfold timedelta; lia).
  rewrite (condition_shift delta _ Hbins).
  unfold len. rewrite length_map, build_features_shift.
  destruct (_ <? 4); [reflexivity|].
  unfold iloc_back. rewrite <- map_rev, nth_error_map.
  destruct (nth_error (rev (condition rows)) (1 - 1)) as [last_known |];
    cbn [option_map]; [|reflexivity].
  destruct (build_features (condition rows)) as [f |]; [|reflexivity].
  unfold shift_label; cbn [fst snd]. rewrite forecast_days. reflexivity.
Qed.

End WholeDays.

(** X25.  [show_future] never looks at the calendar or at the present
    time: the same readings dated a whole number of days earlier or later
    give exactly the same page, forecast times and values included, as long
    as every timestamp lies in the calendar of the model on both dates. *)
Theorem show_future_ignores_the_date (days : Z) (load : App.load_result)
    (realtime_data sensor_data : App.query) :
  (forall r t,
     In r (App.get_latest_data realtime_data ++ App.get_latest_data sensor_data) ->
     App.row_time r = Some t ->
     App.in_calendar t /\ App.in_calendar (App.timedelta (24 * days) 0 + t)) ->
  App.show_future load
    (option_map (map (App.shift_row (App.timedelta (24 * days) 0))) realtime_data)
    (option_map (map (App.shift_row (App.timedelta (24 * days) 0))) sensor_data)
  = App.show_future load realtime_data sensor_data.
Proof. intros _. apply (show_future_days days _ eq_refl). Qed.

(** The readings of day 20000 (in 2024) dated one year earlier. *)
Lemma show_future_ignores_the_date_witness :
  App.show_future (App.Loaded Scenario.persistence)
    (Some (map (App.shift_row (App.timedelta (24 * -365) 0)) Scenario.quarter_tail))
    (Some [])
  = App.show_future (App.Loaded Scenario.persistence)
      (Some Scenario.quarter_tail) (Some []).
Proof.
  apply (show_future_ignores_the_date (-365) (App.Loaded Scenario.persistence)
           (Some Scenario.quarter_tail) (Some [])).
  intros r t Hr Ht. cbn [App.get_latest_data] in Hr. rewrite app_nil_r in Hr.
  repeat (destruct Hr as [<- | Hr];
          [injection Ht as <-; split; vm_compute; split; discriminate|]).
  destruct Hr.
Defined.

(** X26.  The number of rows of [df_10min], which decides between cold
    start and forecast, is the number of ten-minute bins from the oldest to
    the newest kept reading; how many readings lie in between plays no
    part. *)
Theorem conditioned_length_from_span (rows : list App.Row) (lo m : App.Timestamp) :
  App.time_min (App.gap_filter (App.clean rows)) = Some lo ->
  App.time_max (App.clean rows) = Some m ->
  App.len (App.condition rows)
    = (App.bin_label m - App.bin_label lo) / App.timedelta 0 10 + 1.
Proof.
  intros Hlo Hm.
  pose proof (gap_filter_time_max _ _ Hm) as Hhi.
  unfold App.len. rewrite (condition_length rows lo m Hlo Hhi).
  rewrite Nat2Z.inj_succ, Z2Nat.id; [lia|].
  apply Z.div_pos; [|apply ten_minutes_pos].
  destruct (time_min_in _ _ Hlo) as (r & Hr & <-).
  pose proof (time_max_upper _ _ Hhi _ Hr) as Hle.
  pose proof (bin_label_mono _ _ Hle). lia.
Qed.

Lemma conditioned_length_from_span_witness :
  App.len (App.condition Scenario.long_span)
    = (App.bin_label (Scenario.at_clock 12 5) - App.bin_label (Scenario.at_clock 10 6))
      / App.timedelta 0 10 + 1.
Proof.
  apply (conditioned_length_from_span Scenario.long_span);
    vm_compute; reflexivity.
Defined.
